(** * MuseWrapper: a shallow embedding of the device-bridge adapter

    The development follows [src/MuseWrapper/MuseWrapper.cpp].  The bridge
    keeps its state in process-wide globals ([g_manager], [g_currentMuse],
    three callback slots and three listener adapters) and talks to the
    device SDK through a handful of calls, every one of which may throw.
    Exported entry points wrap their bodies in [try]/[catch].

    - C++ [shared_ptr]s and function pointers are [option nat]: [None] is
      [nullptr], [Some p] the address of the shared object.
    - The SDK is an explicit world: the device objects, the current
      snapshot returned by [get_muses], the discovery flag, and for every
      call whether it currently throws (and which kind of exception).
    - Everything observable is appended to one chronological [trace]: the
      SDK calls the bridge makes, the accesses to event payloads, and the
      invocations of the caller's function pointers.
    - Code runs in a state-and-exception monad over that world.
    - [LogDebug] output (OutputDebugStringA) is not part of the model. *)

From Stdlib Require Import ZArith String List Bool Lia Floats.
From stdpp Require Import base list.
Import ListNotations.

Local Open Scope string_scope.
Local Open Scope Z_scope.
Local Open Scope list_scope.

(** ** Pointers *)

Abbreviation MusePtr := nat (only parsing).
Abbreviation ListenerPtr := nat (only parsing).
Abbreviation ManagerPtr := nat (only parsing).
Abbreviation CallbackPtr := nat (only parsing).

(** ** The SDK seen from the bridge *)

(** The calls the bridge issues.  Listener arguments are [shared_ptr]s and
    so may be null; packet types are the [int] underlying
    [MuseDataPacketType]. *)
Inductive SdkCall : Type :=
| get_instance
| set_muse_listener (l : option ListenerPtr)
| start_listening
| stop_listening
| get_muses
| get_name (m : MusePtr)
| disconnect (m : MusePtr)
| register_connection_listener (m : MusePtr) (l : option ListenerPtr)
| run_asynchronously (m : MusePtr)
| register_data_listener (m : MusePtr) (l : option ListenerPtr) (ty : Z)
| unregister_data_listener (m : MusePtr) (l : option ListenerPtr) (ty : Z).

(** C++ exceptions, as far as the handlers tell them apart:
    [catch (const std::exception&)] against [catch (...)]. *)
Inductive Exn : Type := std_exception | unknown_exception.

(** One device object behind a [shared_ptr<Muse>]. *)
Record MuseDevice : Type := {
  dev_name : string;
  connection_listeners : list (option ListenerPtr);
  data_listeners : list (option ListenerPtr * Z);
  running : bool
}.

Record Sdk : Type := {
  instance : option ManagerPtr;          (* MuseManagerWindows::get_instance() *)
  muses : list MusePtr;                  (* the current snapshot *)
  devices : MusePtr -> MuseDevice;       (* the device objects *)
  listening : bool;
  muse_listener : option ListenerPtr;
  failing : SdkCall -> option Exn        (* calls that currently throw *)
}.

(** ** Event payloads *)

Inductive Accelerometer : Type := X | Y | Z_axis.
Inductive Battery : Type :=
  CHARGE_PERCENTAGE_REMAINING | MILLIVOLTS | TEMPERATURE_CELSIUS.
Inductive Eeg : Type := EEG1 | EEG2 | EEG3 | EEG4 | AUX_LEFT | AUX_RIGHT.

Record MuseDataPacket : Type := {
  packet_type : Z;
  get_accelerometer_value : Accelerometer -> float;
  get_battery_value : Battery -> float;
  get_eeg_channel_value : Eeg -> float
}.

Record MuseArtifactPacket : Type := {
  headband_on : bool;
  blink : bool;
  jaw_clench : bool
}.

Record MuseConnectionPacket : Type := {
  current_connection_state : Z
}.

(** The named values of [MuseDataPacketType] come from the SDK header,
    which is not part of the sources; they are taken as a parameter.  The
    three labels of the [switch] are pairwise different, as C++ requires
    of [case] labels. *)
Class MuseDataPacketType : Type := {
  ACCELEROMETER : Z;
  BATTERY : Z;
  EEG : Z;
  ARTIFACTS : Z;
  case_labels_distinct :
    ACCELEROMETER <> BATTERY /\ ACCELEROMETER <> EEG /\ BATTERY <> EEG
}.

(** ** The trace *)

Inductive PacketAccess : Type :=
| read_packet_type
| read_accelerometer_value (a : Accelerometer)
| read_battery_value (b : Battery)
| read_eeg_channel_value (e : Eeg)
| read_headband_on
| read_blink
| read_jaw_clench.

(** Calls through the caller's function pointers. *)
Inductive Invocation : Type :=
| MuseListChanged (f : CallbackPtr)
| ConnectionStateChanged (f : CallbackPtr) (state : Z) (name : string)
| DataReceived (f : CallbackPtr) (packetType : Z) (data : list float)
               (dataLength : Z).

Inductive Event : Type :=
| Call (c : SdkCall)
| Access (a : PacketAccess)
| Invoke (i : Invocation).

(** ** The bridge's globals *)

Record Globals : Type := {
  g_manager : option ManagerPtr;
  g_museListChangedCallback : option CallbackPtr;
  g_connectionStateChangedCallback : option CallbackPtr;
  g_dataReceivedCallback : option CallbackPtr;
  g_currentMuse : option MusePtr;
  g_listener : option ListenerPtr;
  g_connectionListener : option ListenerPtr;
  g_dataListener : option ListenerPtr
}.

(** All globals are initialised to [nullptr]. *)
Definition initial_globals : Globals := {|
  g_manager := None;
  g_museListChangedCallback := None;
  g_connectionStateChangedCallback := None;
  g_dataReceivedCallback := None;
  g_currentMuse := None;
  g_listener := None;
  g_connectionListener := None;
  g_dataListener := None
|}.

Record World : Type := {
  globals : Globals;
  sdk : Sdk;
  next_object : nat;        (* the address [make_shared] hands out next *)
  trace : list Event
}.

(** *** Assignments to one global *)

Definition set_g_manager (v : option ManagerPtr) (g : Globals) : Globals :=
  {| g_manager := v;
     g_museListChangedCallback := g_museListChangedCallback g;
     g_connectionStateChangedCallback := g_connectionStateChangedCallback g;
     g_dataReceivedCallback := g_dataReceivedCallback g;
     g_currentMuse := g_currentMuse g;
     g_listener := g_listener g;
     g_connectionListener := g_connectionListener g;
     g_dataListener := g_dataListener g |}.

Definition set_g_museListChangedCallback (v : option CallbackPtr)
    (g : Globals) : Globals :=
  {| g_manager := g_manager g;
     g_museListChangedCallback := v;
     g_connectionStateChangedCallback := g_connectionStateChangedCallback g;
     g_dataReceivedCallback := g_dataReceivedCallback g;
     g_currentMuse := g_currentMuse g;
     g_listener := g_listener g;
     g_connectionListener := g_connectionListener g;
     g_dataListener := g_dataListener g |}.

Definition set_g_connectionStateChangedCallback (v : option CallbackPtr)
    (g : Globals) : Globals :=
  {| g_manager := g_manager g;
     g_museListChangedCallback := g_museListChangedCallback g;
     g_connectionStateChangedCallback := v;
     g_dataReceivedCallback := g_dataReceivedCallback g;
     g_currentMuse := g_currentMuse g;
     g_listener := g_listener g;
     g_connectionListener := g_connectionListener g;
     g_dataListener := g_dataListener g |}.

Definition set_g_dataReceivedCallback (v : option CallbackPtr)
    (g : Globals) : Globals :=
  {| g_manager := g_manager g;
     g_museListChangedCallback := g_museListChangedCallback g;
     g_connectionStateChangedCallback := g_connectionStateChangedCallback g;
     g_dataReceivedCallback := v;
     g_currentMuse := g_currentMuse g;
     g_listener := g_listener g;
     g_connectionListener := g_connectionListener g;
     g_dataListener := g_dataListener g |}.

Definition set_g_currentMuse (v : option MusePtr) (g : Globals) : Globals :=
  {| g_manager := g_manager g;
     g_museListChangedCallback := g_museListChangedCallback g;
     g_connectionStateChangedCallback := g_connectionStateChangedCallback g;
     g_dataReceivedCallback := g_dataReceivedCallback g;
     g_currentMuse := v;
     g_listener := g_listener g;
     g_connectionListener := g_connectionListener g;
     g_dataListener := g_dataListener g |}.

Definition set_g_listener (v : option ListenerPtr) (g : Globals) : Globals :=
  {| g_manager := g_manager g;
     g_museListChangedCallback := g_museListChangedCallback g;
     g_connectionStateChangedCallback := g_connectionStateChangedCallback g;
     g_dataReceivedCallback := g_dataReceivedCallback g;
     g_currentMuse := g_currentMuse g;
     g_listener := v;
     g_connectionListener := g_connectionListener g;
     g_dataListener := g_dataListener g |}.

Definition set_g_connectionListener (v : option ListenerPtr)
    (g : Globals) : Globals :=
  {| g_manager := g_manager g;
     g_museListChangedCallback := g_museListChangedCallback g;
     g_connectionStateChangedCallback := g_connectionStateChangedCallback g;
     g_dataReceivedCallback := g_dataReceivedCallback g;
     g_currentMuse := g_currentMuse g;
     g_listener := g_listener g;
     g_connectionListener := v;
     g_dataListener := g_dataListener g |}.

Definition set_g_dataListener (v : option ListenerPtr) (g : Globals) : Globals :=
  {| g_manager := g_manager g;
     g_museListChangedCallback := g_museListChangedCallback g;
     g_connectionStateChangedCallback := g_connectionStateChangedCallback g;
     g_dataReceivedCallback := g_dataReceivedCallback g;
     g_currentMuse := g_currentMuse g;
     g_listener := g_listener g;
     g_connectionListener := g_connectionListener g;
     g_dataListener := v |}.

(** ** The monad: state and exceptions *)

Inductive Outcome (A : Type) : Type :=
| Returned (a : A)
| Thrown (e : Exn).
Arguments Returned {A} a.
Arguments Thrown {A} e.

Definition M (A : Type) : Type := World -> Outcome A * World.

Definition ret {A} (a : A) : M A := fun w => (Returned a, w).

Definition bind {A B} (m : M A) (k : A -> M B) : M B :=
  fun w =>
    match m w with
    | (Returned a, w1) => k a w1
    | (Thrown e, w1) => (Thrown e, w1)
    end.

Declare Scope bridge_scope.
Delimit Scope bridge_scope with bridge.
Notation "x <- m ;; k" := (bind m (fun x => k))
  (at level 100, m at next level, right associativity) : bridge_scope.
Notation "m ;; k" := (bind m (fun _ => k))
  (at level 100, right associativity) : bridge_scope.
Local Open Scope bridge_scope.

(** [try { body } catch (const std::exception&) { on_std } catch (...)
    { on_other }].  What the body did before it threw stays done. *)
Definition try_catch {A} (body : M A) (on_std on_other : M A) : M A :=
  fun w =>
    match body w with
    | (Returned a, w1) => (Returned a, w1)
    | (Thrown std_exception, w1) => on_std w1
    | (Thrown unknown_exception, w1) => on_other w1
    end.

(** [try { body } catch (const std::exception&) { on_std }]: anything else
    keeps propagating. *)
Definition try_catch_std {A} (body : M A) (on_std : M A) : M A :=
  fun w =>
    match body w with
    | (Thrown std_exception, w1) => on_std w1
    | r => r
    end.

(** [try { body } catch (...) { handler }]. *)
Definition try_catch_all {A} (body : M A) (handler : M A) : M A :=
  try_catch body handler handler.

Definition load {A} (field : Globals -> A) : M A :=
  fun w => (Returned (field (globals w)), w).

Definition store (assign : Globals -> Globals) : M unit :=
  fun w => (Returned tt,
            {| globals := assign (globals w); sdk := sdk w;
               next_object := next_object w; trace := trace w |}).

Definition emit (e : Event) : M unit :=
  fun w => (Returned tt,
            {| globals := globals w; sdk := sdk w;
               next_object := next_object w; trace := trace w ++ [e] |}).

(** [std::make_shared<T>()] for the stateless adapter classes: a fresh
    address. *)
Definition make_shared : M (option ListenerPtr) :=
  fun w => (Returned (Some (next_object w)),
            {| globals := globals w; sdk := sdk w;
               next_object := S (next_object w); trace := trace w |}).

(** An SDK call: it is recorded, then either throws (leaving the SDK as it
    was) or takes effect and yields its result. *)
Definition sdk_call {A} (c : SdkCall) (effect : Sdk -> Sdk)
    (result : Sdk -> A) : M A :=
  fun w =>
    let t := trace w ++ [Call c] in
    match failing (sdk w) c with
    | Some e => (Thrown e, {| globals := globals w; sdk := sdk w;
                              next_object := next_object w; trace := t |})
    | None => (Returned (result (sdk w)),
               {| globals := globals w; sdk := effect (sdk w);
                  next_object := next_object w; trace := t |})
    end.

(** ** The SDK calls

    What a call does to the SDK when it completes is the SDK's business;
    the reference behaviour below is the plain reading of the call names:
    registering adds a listener to the device, unregistering removes it,
    [disconnect] and [run_asynchronously] switch the device's link off and
    on, and nothing but an unregister call removes a listener. *)

Definition update_device (m : MusePtr) (f : MuseDevice -> MuseDevice)
    (s : Sdk) : Sdk :=
  {| instance := instance s;
     muses := muses s;
     devices := fun p => if Nat.eqb p m then f (devices s p) else devices s p;
     listening := listening s;
     muse_listener := muse_listener s;
     failing := failing s |}.

Definition set_listening (b : bool) (s : Sdk) : Sdk :=
  {| instance := instance s; muses := muses s; devices := devices s;
     listening := b; muse_listener := muse_listener s;
     failing := failing s |}.

Definition set_muse_listener_of (l : option ListenerPtr) (s : Sdk) : Sdk :=
  {| instance := instance s; muses := muses s; devices := devices s;
     listening := listening s; muse_listener := l;
     failing := failing s |}.

Definition set_running (b : bool) (d : MuseDevice) : MuseDevice :=
  {| dev_name := dev_name d;
     connection_listeners := connection_listeners d;
     data_listeners := data_listeners d;
     running := b |}.

Definition add_connection_listener (l : option ListenerPtr)
    (d : MuseDevice) : MuseDevice :=
  {| dev_name := dev_name d;
     connection_listeners := connection_listeners d ++ [l];
     data_listeners := data_listeners d;
     running := running d |}.

Definition add_data_listener (l : option ListenerPtr) (ty : Z)
    (d : MuseDevice) : MuseDevice :=
  {| dev_name := dev_name d;
     connection_listeners := connection_listeners d;
     data_listeners := data_listeners d ++ [(l, ty)];
     running := running d |}.

Definition remove_data_listener (l : option ListenerPtr) (ty : Z)
    (d : MuseDevice) : MuseDevice :=
  {| dev_name := dev_name d;
     connection_listeners := connection_listeners d;
     data_listeners := filter (fun p => p <> (l, ty)) (data_listeners d);
     running := running d |}.

Definition MuseManagerWindows_get_instance : M (option ManagerPtr) :=
  sdk_call get_instance id instance.

Definition manager_set_muse_listener (l : option ListenerPtr) : M unit :=
  sdk_call (set_muse_listener l) (set_muse_listener_of l) (fun _ => tt).

Definition manager_start_listening : M unit :=
  sdk_call start_listening (set_listening true) (fun _ => tt).

Definition manager_stop_listening : M unit :=
  sdk_call stop_listening (set_listening false) (fun _ => tt).

Definition manager_get_muses : M (list MusePtr) :=
  sdk_call get_muses id muses.

Definition muse_get_name (m : MusePtr) : M string :=
  sdk_call (get_name m) id (fun s => dev_name (devices s m)).

Definition muse_disconnect (m : MusePtr) : M unit :=
  sdk_call (disconnect m) (update_device m (set_running false)) (fun _ => tt).

Definition muse_register_connection_listener (m : MusePtr)
    (l : option ListenerPtr) : M unit :=
  sdk_call (register_connection_listener m l)
           (update_device m (add_connection_listener l)) (fun _ => tt).

Definition muse_run_asynchronously (m : MusePtr) : M unit :=
  sdk_call (run_asynchronously m) (update_device m (set_running true))
           (fun _ => tt).

Definition muse_register_data_listener (m : MusePtr)
    (l : option ListenerPtr) (ty : Z) : M unit :=
  sdk_call (register_data_listener m l ty)
           (update_device m (add_data_listener l ty)) (fun _ => tt).

Definition muse_unregister_data_listener (m : MusePtr)
    (l : option ListenerPtr) (ty : Z) : M unit :=
  sdk_call (unregister_data_listener m l ty)
           (update_device m (remove_data_listener l ty)) (fun _ => tt).

(** Reading an event payload. *)
Definition access {A} (a : PacketAccess) (v : A) : M A :=
  fun w => (Returned v,
            {| globals := globals w; sdk := sdk w;
               next_object := next_object w;
               trace := trace w ++ [Access a] |}).

(** Calling through one of the caller's function pointers. *)
Definition invoke (i : Invocation) : M unit := emit (Invoke i).

(** ** Listener adapters *)

(** [MuseListenerImpl::muse_list_changed] *)
Definition muse_list_changed : M unit :=
  g <- load g_manager ;;
  match g with
  | Some _ =>
      _ <- manager_get_muses ;;
      cb <- load g_museListChangedCallback ;;
      match cb with
      | Some f => invoke (MuseListChanged f)
      | None => ret tt
      end
  | None => ret tt
  end.

(** [ConnectionListenerImpl::receive_muse_connection_packet] *)
Definition receive_muse_connection_packet (packet : MuseConnectionPacket)
    (muse : MusePtr) : M unit :=
  name <- muse_get_name muse ;;
  cb <- load g_connectionStateChangedCallback ;;
  match cb with
  | Some f =>
      invoke (ConnectionStateChanged f (current_connection_state packet) name)
  | None => ret tt
  end.

(** [double dataBuffer[6] = { 0.0, 0.0, 0.0, 0.0, 0.0, 0.0 }] *)
Definition zero_buffer : list float :=
  [0%float; 0%float; 0%float; 0%float; 0%float; 0%float].

(** [b ? 1.0 : 0.0] *)
Definition flag (b : bool) : float := if b then 1%float else 0%float.

Section DataListenerImpl.
Context `{MuseDataPacketType}.

(** The [switch] of [receive_muse_data_packet]: the buffer after it. *)
Definition fill_data_buffer (packet : MuseDataPacket)
    (dataBuffer : list float) : M (list float) :=
  ty <- access read_packet_type (packet_type packet) ;;
  if ty =? ACCELEROMETER then
    x <- access (read_accelerometer_value X)
                (get_accelerometer_value packet X) ;;
    let dataBuffer := <[0%nat := x]> dataBuffer in
    y <- access (read_accelerometer_value Y)
                (get_accelerometer_value packet Y) ;;
    let dataBuffer := <[1%nat := y]> dataBuffer in
    z <- access (read_accelerometer_value Z_axis)
                (get_accelerometer_value packet Z_axis) ;;
    let dataBuffer := <[2%nat := z]> dataBuffer in
    ret dataBuffer
  else if ty =? BATTERY then
    c <- access (read_battery_value CHARGE_PERCENTAGE_REMAINING)
                (get_battery_value packet CHARGE_PERCENTAGE_REMAINING) ;;
    let dataBuffer := <[0%nat := c]> dataBuffer in
    v <- access (read_battery_value MILLIVOLTS)
                (get_battery_value packet MILLIVOLTS) ;;
    let dataBuffer := <[1%nat := v]> dataBuffer in
    t <- access (read_battery_value TEMPERATURE_CELSIUS)
                (get_battery_value packet TEMPERATURE_CELSIUS) ;;
    let dataBuffer := <[2%nat := t]> dataBuffer in
    ret dataBuffer
  else if ty =? EEG then
    e1 <- access (read_eeg_channel_value EEG1)
                 (get_eeg_channel_value packet EEG1) ;;
    let dataBuffer := <[0%nat := e1]> dataBuffer in
    e2 <- access (read_eeg_channel_value EEG2)
                 (get_eeg_channel_value packet EEG2) ;;
    let dataBuffer := <[1%nat := e2]> dataBuffer in
    e3 <- access (read_eeg_channel_value EEG3)
                 (get_eeg_channel_value packet EEG3) ;;
    let dataBuffer := <[2%nat := e3]> dataBuffer in
    e4 <- access (read_eeg_channel_value EEG4)
                 (get_eeg_channel_value packet EEG4) ;;
    let dataBuffer := <[3%nat := e4]> dataBuffer in
    al <- access (read_eeg_channel_value AUX_LEFT)
                 (get_eeg_channel_value packet AUX_LEFT) ;;
    let dataBuffer := <[4%nat := al]> dataBuffer in
    ar <- access (read_eeg_channel_value AUX_RIGHT)
                 (get_eeg_channel_value packet AUX_RIGHT) ;;
    let dataBuffer := <[5%nat := ar]> dataBuffer in
    ret dataBuffer
  else
    ret dataBuffer.

(** [DataListenerImpl::receive_muse_data_packet] *)
Definition receive_muse_data_packet (packet : MuseDataPacket)
    (muse : MusePtr) : M unit :=
  cb <- load g_dataReceivedCallback ;;
  match cb with
  | None => ret tt
  | Some f =>
      dataBuffer <- fill_data_buffer packet zero_buffer ;;
      ty <- access read_packet_type (packet_type packet) ;;
      invoke (DataReceived f ty dataBuffer 6)
  end.

(** [DataListenerImpl::receive_muse_artifact_packet] *)
Definition receive_muse_artifact_packet (packet : MuseArtifactPacket)
    (muse : MusePtr) : M unit :=
  cb <- load g_dataReceivedCallback ;;
  match cb with
  | None => ret tt
  | Some f =>
      let dataBuffer := zero_buffer in
      h <- access read_headband_on (headband_on packet) ;;
      let dataBuffer := <[0%nat := flag h]> dataBuffer in
      b <- access read_blink (blink packet) ;;
      let dataBuffer := <[1%nat := flag b]> dataBuffer in
      j <- access read_jaw_clench (jaw_clench packet) ;;
      let dataBuffer := <[2%nat := flag j]> dataBuffer in
      invoke (DataReceived f ARTIFACTS dataBuffer 6)
  end.
End DataListenerImpl.

(** ** Boundary entry points *)

(** [(int)muses.size()]: the conversion of a [size_t] to a 32-bit [int]. *)
Definition int_of_size (n : nat) : Z :=
  let z := Z.of_nat n mod 2 ^ 32 in
  if z <? 2 ^ 31 then z else z - 2 ^ 32.

(** [GetMuseManager]; the result is [g_manager.get()]. *)
Definition GetMuseManager : M (option ManagerPtr) :=
  try_catch
    (g <- load g_manager ;;
     match g with
     | Some p => ret (Some p)
     | None =>
         try_catch_std
           (inst <- MuseManagerWindows_get_instance ;;
            store (set_g_manager inst) ;;
            g <- load g_manager ;;
            match g with
            | None => ret None
            | Some _ =>
                l <- load g_listener ;;
                (match l with
                 | None => (o <- make_shared ;; store (set_g_listener o))
                 | Some _ => ret tt
                 end) ;;
                l <- load g_listener ;;
                manager_set_muse_listener l ;;
                load g_manager
            end)
           (store (set_g_manager None) ;; ret None)
     end)
    (ret None)
    (ret None).

(** [StartListening] *)
Definition StartListening : M bool :=
  try_catch
    (g <- load g_manager ;;
     match g with
     | None => ret false
     | Some _ => manager_start_listening ;; ret true
     end)
    (ret false)
    (ret false).

(** [StopListening] *)
Definition StopListening : M unit :=
  try_catch_all
    (g <- load g_manager ;;
     match g with
     | Some _ => manager_stop_listening
     | None => ret tt
     end)
    (ret tt).

(** [GetMuseCount] *)
Definition GetMuseCount : M Z :=
  try_catch_all
    (g <- load g_manager ;;
     match g with
     | None => ret 0
     | Some _ =>
         muses <- manager_get_muses ;;
         ret (int_of_size (length muses))
     end)
    (ret 0).

(** [GetMuseName].  The result is the text the returned pointer designates
    when the call returns.  [index >= muses.size()] compares as [size_t];
    it is evaluated only for [index >= 0], where the conversion keeps the
    value. *)
Definition GetMuseName (index : Z) : M string :=
  try_catch_all
    (g <- load g_manager ;;
     match g with
     | None => ret ""
     | Some _ =>
         muses <- manager_get_muses ;;
         if (index <? 0) || (Z.of_nat (length muses) <=? index) then ret ""
         else
           match muses !! Z.to_nat index with
           | Some muse => muse_get_name muse
           | None => ret ""      (* excluded by the range check *)
           end
     end)
    (ret "").

(** The body of [if (muse->get_name() == name) { ... }] in
    [ConnectToMuse]. *)
Definition ConnectToMuse_found (muse : MusePtr) : M bool :=
  c <- load g_currentMuse ;;
  (match c with
   | Some current => muse_disconnect current
   | None => ret tt
   end) ;;
  cl <- load g_connectionListener ;;
  (match cl with
   | None => (o <- make_shared ;; store (set_g_connectionListener o))
   | Some _ => ret tt
   end) ;;
  dl <- load g_dataListener ;;
  (match dl with
   | None => (o <- make_shared ;; store (set_g_dataListener o))
   | Some _ => ret tt
   end) ;;
  cl <- load g_connectionListener ;;
  muse_register_connection_listener muse cl ;;
  store (set_g_currentMuse (Some muse)) ;;
  muse_run_asynchronously muse ;;
  ret true.

(** [for (auto muse : muses) { ... }] followed by [return false]. *)
Fixpoint ConnectToMuse_scan (name : string) (muses : list MusePtr) : M bool :=
  match muses with
  | [] => ret false
  | muse :: rest =>
      n <- muse_get_name muse ;;
      if String.eqb n name then ConnectToMuse_found muse
      else ConnectToMuse_scan name rest
  end.

(** [ConnectToMuse] *)
Definition ConnectToMuse (name : string) : M bool :=
  try_catch
    (g <- load g_manager ;;
     match g with
     | None => ret false
     | Some _ =>
         muses <- manager_get_muses ;;
         ConnectToMuse_scan name muses
     end)
    (ret false)
    (ret false).

(** [DisconnectMuse] *)
Definition DisconnectMuse : M unit :=
  try_catch_all
    (c <- load g_currentMuse ;;
     match c with
     | Some current =>
         muse_disconnect current ;;
         store (set_g_currentMuse None)
     | None => ret tt
     end)
    (ret tt).

(** [RegisterDataListener] *)
Definition RegisterDataListener (packetType : Z) : M bool :=
  try_catch_all
    (c <- load g_currentMuse ;;
     dl <- load g_dataListener ;;
     match c, dl with
     | Some current, Some _ =>
         muse_register_data_listener current dl packetType ;;
         ret true
     | _, _ => ret false
     end)
    (ret false).

(** [UnregisterDataListener] *)
Definition UnregisterDataListener (packetType : Z) : M bool :=
  try_catch_all
    (c <- load g_currentMuse ;;
     dl <- load g_dataListener ;;
     match c, dl with
     | Some current, Some _ =>
         muse_unregister_data_listener current dl packetType ;;
         ret true
     | _, _ => ret false
     end)
    (ret false).

Definition SetMuseListChangedCallback (callback : option CallbackPtr)
    : M unit :=
  store (set_g_museListChangedCallback callback).

Definition SetConnectionStateChangedCallback (callback : option CallbackPtr)
    : M unit :=
  store (set_g_connectionStateChangedCallback callback).

Definition SetDataReceivedCallback (callback : option CallbackPtr) : M unit :=
  store (set_g_dataReceivedCallback callback).

(** [StopMuseManager] *)
Definition StopMuseManager : M unit :=
  try_catch_all
    (c <- load g_currentMuse ;;
     (match c with
      | Some current =>
          muse_disconnect current ;;
          store (set_g_currentMuse None)
      | None => ret tt
      end) ;;
     g <- load g_manager ;;
     (match g with
      | Some _ => manager_stop_listening
      | None => ret tt
      end) ;;
     store (set_g_museListChangedCallback None) ;;
     store (set_g_connectionStateChangedCallback None) ;;
     store (set_g_dataReceivedCallback None) ;;
     store (set_g_listener None) ;;
     store (set_g_connectionListener None) ;;
     store (set_g_dataListener None) ;;
     store (set_g_manager None))
    (ret tt).

(** ** Observing a run *)

Definition outcome {A} (m : M A) (w : World) : Outcome A := fst (m w).
Definition after {A} (m : M A) (w : World) : World := snd (m w).

(** What a run appended to the trace. *)
Definition new_events {A} (m : M A) (w : World) : list Event :=
  drop (length (trace w)) (trace (after m w)).

Definition invocations (t : list Event) : list Invocation :=
  omap (fun e => match e with Invoke i => Some i | _ => None end) t.

Definition calls (t : list Event) : list SdkCall :=
  omap (fun e => match e with Call c => Some c | _ => None end) t.

(** The run returns normally and calls the caller exactly once, with [i]. *)
Definition delivers (m : M unit) (w : World) (i : Invocation) : Prop :=
  outcome m w = Returned tt /\ invocations (new_events m w) = [i].

(** The device [ConnectToMuse name] is looking for: the first one in the
    snapshot whose name is [name]. *)
Definition first_match (name : string) (s : Sdk) : option MusePtr :=
  List.find (fun m => String.eqb (dev_name (devices s m)) name) (muses s).

(** Listener [l] is registered on device [m] for connection packets, resp.
    for data packets of some type. *)
Definition connection_listener_attached (s : Sdk) (m : MusePtr)
    (l : option ListenerPtr) : Prop :=
  In l (connection_listeners (devices s m)).

Definition data_listener_attached (s : Sdk) (m : MusePtr)
    (l : option ListenerPtr) : Prop :=
  exists ty, In (l, ty) (data_listeners (devices s m)).

(** [w] with one more SDK call on record. *)
Definition record_call (c : SdkCall) (w : World) : World :=
  {| globals := globals w; sdk := sdk w; next_object := next_object w;
     trace := trace w ++ [Call c] |}.

(** [w'] is [w] after some [get_name] calls that changed nothing. *)
Definition scanned (w w' : World) : Prop :=
  globals w' = globals w /\ sdk w' = sdk w /\
  next_object w' = next_object w /\
  exists ms, trace w' = trace w ++ map (fun m => Call (get_name m)) ms.

(** A call that attaches a listener to device [m] or dispatches its
    connection. *)
Definition connects (m : MusePtr) (e : Event) : bool :=
  match e with
  | Call (register_connection_listener m' _) => Nat.eqb m' m
  | Call (run_asynchronously m') => Nat.eqb m' m
  | Call (register_data_listener m' _ _) => Nat.eqb m' m
  | _ => false
  end.

(** [ConnectToMuse name] gets as far as device [b]: the session is
    initialised, the snapshot can be fetched, [b] is the first device in
    it called [name], and the names up to [b] can be read. *)
Definition connect_matches (name : string) (w : World) (b : MusePtr) : Prop :=
  g_manager (globals w) <> None /\
  failing (sdk w) get_muses = None /\
  exists pre post,
    muses (sdk w) = pre ++ b :: post /\
    Forall (fun p => dev_name (devices (sdk w) p) <> name) pre /\
    dev_name (devices (sdk w) b) = name /\
    Forall (fun p => failing (sdk w) (get_name p) = None) (pre ++ [b]).

(** ** The session as a transition system *)

Inductive BoundaryOp : Type :=
| OpGetMuseManager
| OpStartListening
| OpStopListening
| OpGetMuseCount
| OpGetMuseName (index : Z)
| OpConnectToMuse (name : string)
| OpDisconnectMuse
| OpRegisterDataListener (packetType : Z)
| OpUnregisterDataListener (packetType : Z)
| OpSetMuseListChangedCallback (callback : option CallbackPtr)
| OpSetConnectionStateChangedCallback (callback : option CallbackPtr)
| OpSetDataReceivedCallback (callback : option CallbackPtr)
| OpStopMuseManager.

Definition boundary_op (op : BoundaryOp) (w : World) : World :=
  match op with
  | OpGetMuseManager => after GetMuseManager w
  | OpStartListening => after StartListening w
  | OpStopListening => after StopListening w
  | OpGetMuseCount => after GetMuseCount w
  | OpGetMuseName index => after (GetMuseName index) w
  | OpConnectToMuse name => after (ConnectToMuse name) w
  | OpDisconnectMuse => after DisconnectMuse w
  | OpRegisterDataListener ty => after (RegisterDataListener ty) w
  | OpUnregisterDataListener ty => after (UnregisterDataListener ty) w
  | OpSetMuseListChangedCallback cb => after (SetMuseListChangedCallback cb) w
  | OpSetConnectionStateChangedCallback cb =>
      after (SetConnectionStateChangedCallback cb) w
  | OpSetDataReceivedCallback cb => after (SetDataReceivedCallback cb) w
  | OpStopMuseManager => after StopMuseManager w
  end.

(** What the SDK pushes into the listener adapters. *)
Inductive SdkEvent : Type :=
| EvMuseListChanged
| EvConnectionPacket (packet : MuseConnectionPacket) (muse : MusePtr)
| EvDataPacket (packet : MuseDataPacket) (muse : MusePtr)
| EvArtifactPacket (packet : MuseArtifactPacket) (muse : MusePtr).

Definition set_sdk (s : Sdk) (w : World) : World :=
  {| globals := globals w; sdk := s; next_object := next_object w;
     trace := trace w |}.

Definition start_world (s : Sdk) (n : nat) : World :=
  {| globals := initial_globals; sdk := s; next_object := n; trace := [] |}.

(** The invariant of the session: an active connection comes with both
    per-device listener adapters. *)
Definition listeners_present (g : Globals) : Prop :=
  g_currentMuse g <> None ->
  g_connectionListener g <> None /\ g_dataListener g <> None.

Section Session.
Context `{MuseDataPacketType}.

Definition deliver (ev : SdkEvent) (w : World) : World :=
  match ev with
  | EvMuseListChanged => after muse_list_changed w
  | EvConnectionPacket p m => after (receive_muse_connection_packet p m) w
  | EvDataPacket p m => after (receive_muse_data_packet p m) w
  | EvArtifactPacket p m => after (receive_muse_artifact_packet p m) w
  end.

(** Worlds the process can be in: it starts with all globals null; the
    caller runs entry points, the SDK delivers events, and the SDK's own
    state (devices in range, failures) changes on its own. *)
Inductive reachable : World -> Prop :=
| reach_start s n : reachable (start_world s n)
| reach_op w op : reachable w -> reachable (boundary_op op w)
| reach_event w ev : reachable w -> reachable (deliver ev w)
| reach_sdk w s : reachable w -> reachable (set_sdk s w).
End Session.

(** ** Worked examples: two headbands in range *)

Definition example_ordinals_distinct : 0 <> 6 /\ 0 <> 2 /\ 6 <> 2 :=
  ltac:(repeat split; discriminate).

Definition example_ordinals : MuseDataPacketType :=
  {| ACCELEROMETER := 0; BATTERY := 6; EEG := 2; ARTIFACTS := 26;
     case_labels_distinct := example_ordinals_distinct |}.

Definition idle_device (name : string) : MuseDevice :=
  {| dev_name := name; connection_listeners := []; data_listeners := [];
     running := false |}.

Definition never_failing : SdkCall -> option Exn := fun _ => None.

Definition failing_disconnect : SdkCall -> option Exn :=
  fun c => match c with disconnect _ => Some std_exception | _ => None end.

Definition failing_register : SdkCall -> option Exn :=
  fun c => match c with
           | register_connection_listener _ _ => Some unknown_exception
           | _ => None
           end.

(** Devices 0 and 1, called Muse-A and Muse-B, both in the snapshot. *)
Definition two_headbands (fail : SdkCall -> option Exn) : Sdk :=
  {| instance := Some 7%nat;
     muses := [0%nat; 1%nat];
     devices := fun p => match p with
                         | O => idle_device "Muse-A"
                         | S O => idle_device "Muse-B"
                         | _ => idle_device ""
                         end;
     listening := false;
     muse_listener := None;
     failing := fail |}.

Definition set_failing (fail : SdkCall -> option Exn) (w : World) : World :=
  set_sdk {| instance := instance (sdk w); muses := muses (sdk w);
             devices := devices (sdk w); listening := listening (sdk w);
             muse_listener := muse_listener (sdk w); failing := fail |} w.

(** Initialised, discovering, with callbacks 1, 2, 3 set. *)
Definition world_ready : World :=
  after (SetDataReceivedCallback (Some 3%nat))
    (after (SetConnectionStateChangedCallback (Some 2%nat))
       (after (SetMuseListChangedCallback (Some 1%nat))
          (after StartListening
             (after GetMuseManager
                (start_world (two_headbands never_failing) 100))))).

(** ... and connected to Muse-A. *)
Definition world_connected_A : World :=
  after (ConnectToMuse "Muse-A") world_ready.

Definition accelerometer_packet : MuseDataPacket :=
  {| packet_type := 0;
     get_accelerometer_value :=
       fun a => match a with X => 1%float | Y => 2%float | Z_axis => 3%float end;
     get_battery_value := fun _ => 50%float;
     get_eeg_channel_value := fun _ => 9%float |}.

Definition battery_packet : MuseDataPacket :=
  {| packet_type := 6;
     get_accelerometer_value := fun _ => 7%float;
     get_battery_value :=
       fun b => match b with
                | CHARGE_PERCENTAGE_REMAINING => 80%float
                | MILLIVOLTS => 3900%float
                | TEMPERATURE_CELSIUS => 31%float
                end;
     get_eeg_channel_value := fun _ => 9%float |}.

Definition eeg_packet : MuseDataPacket :=
  {| packet_type := 2;
     get_accelerometer_value := fun _ => 7%float;
     get_battery_value := fun _ => 50%float;
     get_eeg_channel_value :=
       fun e => match e with
                | EEG1 => 1%float | EEG2 => 2%float | EEG3 => 3%float
                | EEG4 => 4%float | AUX_LEFT => 5%float | AUX_RIGHT => 6%float
                end |}.

(** A packet of a type the [switch] has no case for. *)
Definition gyro_packet : MuseDataPacket :=
  {| packet_type := 1;
     get_accelerometer_value := fun _ => 7%float;
     get_battery_value := fun _ => 50%float;
     get_eeg_channel_value := fun _ => 9%float |}.

Definition artifact_packet : MuseArtifactPacket :=
  {| headband_on := true; blink := false; jaw_clench := true |}.

(** The connection adapter [ConnectToMuse] registers: the one in
    [g_connectionListener] if there is one, else the one it allocates,
    which gets the next address [n]. *)
Definition connection_adapter (g : Globals) (n : nat) : option ListenerPtr :=
  match g_connectionListener g with
  | Some l => Some l
  | None => Some n
  end.

(** ** Vocabulary for the properties of the remaining code *)

(** No SDK call throws at present. *)
Definition no_failures (s : Sdk) : Prop := forall c, failing s c = None.


(** All three callback slots are null. *)
Definition slots_unset (g : Globals) : Prop :=
  g_museListChangedCallback g = None
  /\ g_connectionStateChangedCallback g = None
  /\ g_dataReceivedCallback g = None.

(** The entry points that assign to [g_manager] and [g_listener], to
    [g_currentMuse], to the two per-device adapters, and to each callback
    slot. *)
Definition writes_manager (op : BoundaryOp) : bool :=
  match op with
  | OpGetMuseManager | OpStopMuseManager => true
  | _ => false
  end.

Definition writes_connection (op : BoundaryOp) : bool :=
  match op with
  | OpConnectToMuse _ | OpDisconnectMuse | OpStopMuseManager => true
  | _ => false
  end.

Definition writes_adapters (op : BoundaryOp) : bool :=
  match op with
  | OpConnectToMuse _ | OpStopMuseManager => true
  | _ => false
  end.

Definition writes_list_slot (op : BoundaryOp) : bool :=
  match op with
  | OpSetMuseListChangedCallback _ | OpStopMuseManager => true
  | _ => false
  end.

Definition writes_connection_slot (op : BoundaryOp) : bool :=
  match op with
  | OpSetConnectionStateChangedCallback _ | OpStopMuseManager => true
  | _ => false
  end.

Definition writes_data_slot (op : BoundaryOp) : bool :=
  match op with
  | OpSetDataReceivedCallback _ | OpStopMuseManager => true
  | _ => false
  end.

(** What connect leaves of the globals [g] in [g']: the manager, the list
    adapter and the callback slots as they are, and the per-device
    adapters that already exist. *)
Definition connect_keeps (g g' : Globals) : Prop :=
  g_manager g' = g_manager g
  /\ g_listener g' = g_listener g
  /\ g_museListChangedCallback g' = g_museListChangedCallback g
  /\ g_connectionStateChangedCallback g' = g_connectionStateChangedCallback g
  /\ g_dataReceivedCallback g' = g_dataReceivedCallback g
  /\ (forall cl, g_connectionListener g = Some cl ->
                 g_connectionListener g' = Some cl)
  /\ (forall dl, g_dataListener g = Some dl -> g_dataListener g' = Some dl).

(** [set_muse_listener] throws, with a std::exception resp. with something
    else. *)
Definition failing_set_listener (e : Exn) : SdkCall -> option Exn :=
  fun c => match c with set_muse_listener _ => Some e | _ => None end.

Definition failing_stop_listening : SdkCall -> option Exn :=
  fun c => match c with stop_listening => Some std_exception | _ => None end.

Definition failing_get_muses : SdkCall -> option Exn :=
  fun c => match c with get_muses => Some unknown_exception | _ => None end.

(** The SDK has no manager to hand out. *)
Definition no_manager_sdk : Sdk :=
  {| instance := None; muses := []; devices := fun _ => idle_device "";
     listening := false; muse_listener := None; failing := never_failing |}.

Definition connection_packet : MuseConnectionPacket :=
  {| current_connection_state := 2 |}.

(** * Properties *)

(** ** Tactics for running the monad *)

Ltac unfold_run :=
  unfold delivers, new_events, outcome, after, try_catch_all, try_catch,
    try_catch_std, bind, ret, load, store, invoke, emit, access, make_shared,
    sdk_call in *.

Ltac case_step :=
  match goal with
  | |- context [match failing ?s ?c with _ => _ end] =>
      let e := fresh "e" in
      let Hf := fresh "Hfail" in
      destruct (failing s c) as [e|] eqn:Hf; [destruct e|]
  | |- context [match ?x with _ => _ end] =>
      is_var x; destruct x
  end.

Ltac run_cases := repeat (progress cbn in * || case_step).

(** ** The trace only grows *)

Lemma drop_old_events {A} (t new : list A) :
  drop (length t) (t ++ new) = new.
Proof. apply drop_app_length. Qed.

Lemma new_events_spec {A} (m : M A) (w : World) (new : list Event) :
  trace (after m w) = trace w ++ new -> new_events m w = new.
Proof. unfold new_events. intros ->. apply drop_old_events. Qed.

(** ** The data marshaler *)

Section Marshaling.
Context `{MuseDataPacketType}.

Lemma fill_data_buffer_accelerometer (p : MuseDataPacket) (w : World) :
  packet_type p = ACCELEROMETER ->
  fill_data_buffer p zero_buffer w =
    (Returned [get_accelerometer_value p X; get_accelerometer_value p Y;
               get_accelerometer_value p Z_axis;
               0%float; 0%float; 0%float],
     {| globals := globals w; sdk := sdk w; next_object := next_object w;
        trace := trace w ++
                 [Access read_packet_type;
                  Access (read_accelerometer_value X);
                  Access (read_accelerometer_value Y);
                  Access (read_accelerometer_value Z_axis)] |}).
Proof.
  intros Hty. unfold fill_data_buffer. unfold_run. cbn.
  rewrite Hty, Z.eqb_refl. cbn. rewrite <- !app_assoc. reflexivity.
Qed.

Lemma fill_data_buffer_battery (p : MuseDataPacket) (w : World) :
  packet_type p = BATTERY ->
  fill_data_buffer p zero_buffer w =
    (Returned [get_battery_value p CHARGE_PERCENTAGE_REMAINING;
               get_battery_value p MILLIVOLTS;
               get_battery_value p TEMPERATURE_CELSIUS;
               0%float; 0%float; 0%float],
     {| globals := globals w; sdk := sdk w; next_object := next_object w;
        trace := trace w ++
                 [Access read_packet_type;
                  Access (read_battery_value CHARGE_PERCENTAGE_REMAINING);
                  Access (read_battery_value MILLIVOLTS);
                  Access (read_battery_value TEMPERATURE_CELSIUS)] |}).
Proof.
  intros Hty. destruct case_labels_distinct as (Hab & _ & _).
  unfold fill_data_buffer. unfold_run. cbn. rewrite Hty.
  destruct (Z.eqb_spec BATTERY ACCELEROMETER) as [E|_]; [congruence|].
  rewrite Z.eqb_refl. cbn. rewrite <- !app_assoc. reflexivity.
Qed.

Lemma fill_data_buffer_eeg (p : MuseDataPacket) (w : World) :
  packet_type p = EEG ->
  fill_data_buffer p zero_buffer w =
    (Returned [get_eeg_channel_value p EEG1; get_eeg_channel_value p EEG2;
               get_eeg_channel_value p EEG3; get_eeg_channel_value p EEG4;
               get_eeg_channel_value p AUX_LEFT;
               get_eeg_channel_value p AUX_RIGHT],
     {| globals := globals w; sdk := sdk w; next_object := next_object w;
        trace := trace w ++
                 [Access read_packet_type;
                  Access (read_eeg_channel_value EEG1);
                  Access (read_eeg_channel_value EEG2);
                  Access (read_eeg_channel_value EEG3);
                  Access (read_eeg_channel_value EEG4);
                  Access (read_eeg_channel_value AUX_LEFT);
                  Access (read_eeg_channel_value AUX_RIGHT)] |}).
Proof.
  intros Hty. destruct case_labels_distinct as (_ & Hae & Hbe).
  unfold fill_data_buffer. unfold_run. cbn. rewrite Hty.
  destruct (Z.eqb_spec EEG ACCELEROMETER) as [E|_]; [congruence|].
  destruct (Z.eqb_spec EEG BATTERY) as [E|_]; [congruence|].
  rewrite Z.eqb_refl. cbn. rewrite <- !app_assoc. reflexivity.
Qed.

Lemma fill_data_buffer_default (p : MuseDataPacket) (w : World) :
  packet_type p <> ACCELEROMETER ->
  packet_type p <> BATTERY ->
  packet_type p <> EEG ->
  fill_data_buffer p zero_buffer w =
    (Returned zero_buffer,
     {| globals := globals w; sdk := sdk w; next_object := next_object w;
        trace := trace w ++ [Access read_packet_type] |}).
Proof.
  intros Ha Hb He. unfold fill_data_buffer. unfold_run. cbn.
  destruct (Z.eqb_spec (packet_type p) ACCELEROMETER); [congruence|].
  destruct (Z.eqb_spec (packet_type p) BATTERY); [congruence|].
  destruct (Z.eqb_spec (packet_type p) EEG); [congruence|].
  reflexivity.
Qed.

(** Once the buffer is known, the adapter hands it to the callback with
    the packet's own type and the length 6. *)
Lemma receive_muse_data_packet_delivers (p : MuseDataPacket)
    (muse : MusePtr) (w : World) (f : CallbackPtr) (buf : list float)
    (reads : list Event) :
  g_dataReceivedCallback (globals w) = Some f ->
  fill_data_buffer p zero_buffer w =
    (Returned buf,
     {| globals := globals w; sdk := sdk w; next_object := next_object w;
        trace := trace w ++ reads |}) ->
  invocations reads = [] ->
  delivers (receive_muse_data_packet p muse) w
           (DataReceived f (packet_type p) buf 6).
Proof.
  intros Hcb Hfill Hreads.
  assert (Hrun : receive_muse_data_packet p muse w =
            (Returned tt,
             {| globals := globals w; sdk := sdk w;
                next_object := next_object w;
                trace := trace w ++
                         (reads ++
                          [Access read_packet_type;
                           Invoke (DataReceived f (packet_type p) buf 6)])
             |})).
  { unfold receive_muse_data_packet, bind at 1, load. rewrite Hcb.
    unfold bind at 1. rewrite Hfill. unfold_run. cbn.
    rewrite <- !app_assoc. reflexivity. }
  unfold delivers, outcome, new_events, after. rewrite Hrun. cbn.
  split; [reflexivity|]. rewrite drop_old_events.
  unfold invocations in *. rewrite omap_app, Hreads. reflexivity.
Qed.

(** C1.  With a data callback registered, every event is delivered once,
    as a 6-slot buffer in the documented layout for its tag: the three
    accelerometer axes, the three battery readings, the six EEG channels,
    or the three artifact flags as 1.0/0.0, every other slot being 0.0; a
    data packet of any other type arrives as six zeros under its own
    type code. *)
Theorem marshaled_buffer_matches_layout (w : World) (f : CallbackPtr)
    (muse : MusePtr) :
  g_dataReceivedCallback (globals w) = Some f ->
  (forall p, packet_type p = ACCELEROMETER ->
     delivers (receive_muse_data_packet p muse) w
       (DataReceived f ACCELEROMETER
          [get_accelerometer_value p X; get_accelerometer_value p Y;
           get_accelerometer_value p Z_axis;
           0%float; 0%float; 0%float] 6)) /\
  (forall p, packet_type p = BATTERY ->
     delivers (receive_muse_data_packet p muse) w
       (DataReceived f BATTERY
          [get_battery_value p CHARGE_PERCENTAGE_REMAINING;
           get_battery_value p MILLIVOLTS;
           get_battery_value p TEMPERATURE_CELSIUS;
           0%float; 0%float; 0%float] 6)) /\
  (forall p, packet_type p = EEG ->
     delivers (receive_muse_data_packet p muse) w
       (DataReceived f EEG
          [get_eeg_channel_value p EEG1; get_eeg_channel_value p EEG2;
           get_eeg_channel_value p EEG3; get_eeg_channel_value p EEG4;
           get_eeg_channel_value p AUX_LEFT;
           get_eeg_channel_value p AUX_RIGHT] 6)) /\
  (forall p, packet_type p <> ACCELEROMETER ->
             packet_type p <> BATTERY ->
             packet_type p <> EEG ->
     delivers (receive_muse_data_packet p muse) w
       (DataReceived f (packet_type p)
          [0%float; 0%float; 0%float; 0%float; 0%float; 0%float] 6)) /\
  (forall a,
     delivers (receive_muse_artifact_packet a muse) w
       (DataReceived f ARTIFACTS
          [(if headband_on a then 1%float else 0%float);
           (if blink a then 1%float else 0%float);
           (if jaw_clench a then 1%float else 0%float);
           0%float; 0%float; 0%float] 6)).
Proof.
  intros Hcb. split; [|split; [|split; [|split]]].
  - intros p Hty. rewrite <- Hty.
    eapply receive_muse_data_packet_delivers;
      [exact Hcb | apply fill_data_buffer_accelerometer; exact Hty
      | reflexivity].
  - intros p Hty. rewrite <- Hty.
    eapply receive_muse_data_packet_delivers;
      [exact Hcb | apply fill_data_buffer_battery; exact Hty
      | reflexivity].
  - intros p Hty. rewrite <- Hty.
    eapply receive_muse_data_packet_delivers;
      [exact Hcb | apply fill_data_buffer_eeg; exact Hty | reflexivity].
  - intros p Ha Hb He.
    eapply receive_muse_data_packet_delivers;
      [exact Hcb | apply fill_data_buffer_default; assumption
      | reflexivity].
  - intros a. unfold receive_muse_artifact_packet. unfold_run.
    cbn. rewrite Hcb. cbn. split; [reflexivity|].
    rewrite <- !app_assoc, drop_old_events. reflexivity.
Qed.
End Marshaling.

Lemma marshaled_buffer_matches_layout_witness :
  delivers (@receive_muse_data_packet example_ordinals accelerometer_packet 0%nat)
    world_ready
    (DataReceived 3 0 [1%float; 2%float; 3%float; 0%float; 0%float; 0%float] 6)
  /\ delivers (@receive_muse_data_packet example_ordinals battery_packet 0%nat)
       world_ready
       (DataReceived 3 6
          [80%float; 3900%float; 31%float; 0%float; 0%float; 0%float] 6)
  /\ delivers (@receive_muse_data_packet example_ordinals eeg_packet 0%nat)
       world_ready
       (DataReceived 3 2
          [1%float; 2%float; 3%float; 4%float; 5%float; 6%float] 6)
  /\ delivers (@receive_muse_data_packet example_ordinals gyro_packet 0%nat)
       world_ready
       (DataReceived 3 1
          [0%float; 0%float; 0%float; 0%float; 0%float; 0%float] 6)
  /\ delivers (@receive_muse_artifact_packet example_ordinals artifact_packet 0%nat)
       world_ready
       (DataReceived 3 26
          [1%float; 0%float; 1%float; 0%float; 0%float; 0%float] 6).
Proof.
  destruct (@marshaled_buffer_matches_layout example_ordinals world_ready
              3%nat 0%nat eq_refl) as (Ha & Hb & He & Hd & Hart).
  split; [exact (Ha accelerometer_packet eq_refl)|].
  split; [exact (Hb battery_packet eq_refl)|].
  split; [exact (He eeg_packet eq_refl)|].
  split; [|exact (Hart artifact_packet)].
  apply (Hd gyro_packet); discriminate.
Defined.

(** ** The guard on the data slot *)

Section DataSlotGuard.
Context `{MuseDataPacketType}.

Lemma receive_muse_data_packet_unset (p : MuseDataPacket) (muse : MusePtr)
    (w : World) :
  g_dataReceivedCallback (globals w) = None ->
  receive_muse_data_packet p muse w = (Returned tt, w).
Proof.
  intros Hcb. unfold receive_muse_data_packet. unfold_run. cbn.
  rewrite Hcb. reflexivity.
Qed.

Lemma receive_muse_artifact_packet_unset (a : MuseArtifactPacket)
    (muse : MusePtr) (w : World) :
  g_dataReceivedCallback (globals w) = None ->
  receive_muse_artifact_packet a muse w = (Returned tt, w).
Proof.
  intros Hcb. unfold receive_muse_artifact_packet. unfold_run. cbn.
  rewrite Hcb. reflexivity.
Qed.

Lemma no_new_events_if_unchanged {A} (m : M A) (w : World) (r : Outcome A) :
  m w = (r, w) -> new_events m w = [].
Proof.
  intros Hrun. unfold new_events, after. rewrite Hrun. cbn.
  apply drop_all.
Qed.

(** C6.  While the data slot is unset, a data or artifact event leaves
    the adapter at once: the payload is not read, nothing is built and no
    function pointer is called, the world is exactly as before.  So any
    access to a payload, and any invocation, happens with a callback
    registered. *)
Theorem unset_data_slot_skips_marshaling (w : World) (muse : MusePtr) :
  (g_dataReceivedCallback (globals w) = None ->
     (forall p, receive_muse_data_packet p muse w = (Returned tt, w)) /\
     (forall a, receive_muse_artifact_packet a muse w = (Returned tt, w))) /\
  (forall p, new_events (receive_muse_data_packet p muse) w <> [] ->
     g_dataReceivedCallback (globals w) <> None) /\
  (forall a, new_events (receive_muse_artifact_packet a muse) w <> [] ->
     g_dataReceivedCallback (globals w) <> None).
Proof.
  split; [|split].
  - intros Hcb. split; intros;
      [apply receive_muse_data_packet_unset
      |apply receive_muse_artifact_packet_unset]; exact Hcb.
  - intros p Hnew Hcb. apply Hnew.
    eapply no_new_events_if_unchanged.
    apply receive_muse_data_packet_unset. exact Hcb.
  - intros a Hnew Hcb. apply Hnew.
    eapply no_new_events_if_unchanged.
    apply receive_muse_artifact_packet_unset. exact Hcb.
Qed.
End DataSlotGuard.

(** The same event with the slot unset and with it set. *)
Lemma unset_data_slot_skips_marshaling_witness :
  let w := after (SetDataReceivedCallback None) world_ready in
  @receive_muse_data_packet example_ordinals eeg_packet 0%nat w
    = (Returned tt, w)
  /\ @receive_muse_artifact_packet example_ordinals artifact_packet 0%nat w
     = (Returned tt, w)
  /\ g_dataReceivedCallback (globals world_ready) <> None.
Proof.
  intros w.
  destruct (@unset_data_slot_skips_marshaling example_ordinals w 0%nat)
    as (Hskip & _ & _).
  destruct (Hskip eq_refl) as (Hdata & Hart).
  split; [exact (Hdata eeg_packet)|].
  split; [exact (Hart artifact_packet)|].
  apply (proj1 (proj2 (@unset_data_slot_skips_marshaling example_ordinals
                         world_ready 0%nat)) eeg_packet).
  vm_compute. discriminate.
Defined.

(** ** [ConnectToMuse]: the scan *)

Lemma scanned_refl (w : World) : scanned w w.
Proof.
  repeat split. exists []. cbn. symmetry. apply app_nil_r.
Qed.

Lemma scanned_after_get_name (m : MusePtr) (w w' : World) :
  scanned (record_call (get_name m) w) w' -> scanned w w'.
Proof.
  intros (Hg & Hs & Hn & ms & Ht). repeat split; try assumption.
  exists (m :: ms). rewrite Ht. cbn. rewrite <- app_assoc. reflexivity.
Qed.

Lemma muse_get_name_run (m : MusePtr) (w : World) :
  muse_get_name m w =
    match failing (sdk w) (get_name m) with
    | Some e => (Thrown e, record_call (get_name m) w)
    | None => (Returned (dev_name (devices (sdk w) m)),
               record_call (get_name m) w)
    end.
Proof.
  unfold muse_get_name, sdk_call, record_call.
  destruct (failing (sdk w) (get_name m)); reflexivity.
Qed.

Lemma ConnectToMuse_scan_cons (name : string) (muse : MusePtr)
    (rest : list MusePtr) (w : World) :
  ConnectToMuse_scan name (muse :: rest) w =
    match failing (sdk w) (get_name muse) with
    | Some e => (Thrown e, record_call (get_name muse) w)
    | None =>
        if String.eqb (dev_name (devices (sdk w) muse)) name
        then ConnectToMuse_found muse (record_call (get_name muse) w)
        else ConnectToMuse_scan name rest (record_call (get_name muse) w)
    end.
Proof.
  cbn [ConnectToMuse_scan]. unfold bind. rewrite muse_get_name_run.
  destruct (failing (sdk w) (get_name muse)); [reflexivity|].
  destruct (String.eqb _ name); reflexivity.
Qed.

(** The loop looks at the devices in snapshot order and enters the body
    for the first one whose name is [name]; up to there it changes
    nothing. *)
Lemma ConnectToMuse_scan_spec (name : string) (muses : list MusePtr)
    (w : World) :
  exists w1, scanned w w1 /\
    match List.find (fun m => String.eqb (dev_name (devices (sdk w) m)) name)
                    muses with
    | Some m =>
        ConnectToMuse_scan name muses w = ConnectToMuse_found m w1
        \/ exists e, ConnectToMuse_scan name muses w = (Thrown e, w1)
    | None =>
        ConnectToMuse_scan name muses w = (Returned false, w1)
        \/ exists e, ConnectToMuse_scan name muses w = (Thrown e, w1)
    end.
Proof.
  revert w. induction muses as [|muse rest IH]; intros w.
  - exists w. split; [apply scanned_refl|]. left. reflexivity.
  - rewrite ConnectToMuse_scan_cons. cbn [List.find].
    destruct (failing (sdk w) (get_name muse)) as [e|] eqn:Hfail.
    + exists (record_call (get_name muse) w).
      split; [apply (scanned_after_get_name muse), scanned_refl|].
      destruct (String.eqb _ name);
        [|destruct (List.find _ rest)]; right; exists e; reflexivity.
    + destruct (String.eqb (dev_name (devices (sdk w) muse)) name).
      * exists (record_call (get_name muse) w).
        split; [apply (scanned_after_get_name muse), scanned_refl|].
        left. reflexivity.
      * destruct (IH (record_call (get_name muse) w)) as (w1 & Hsc & Hrun).
        exists w1. split; [eapply scanned_after_get_name; exact Hsc|].
        exact Hrun.
Qed.

(** Devices behind the first match are not even looked at. *)
Lemma ConnectToMuse_scan_linear (name : string) (pre post : list MusePtr)
    (m : MusePtr) (w : World) :
  Forall (fun p => dev_name (devices (sdk w) p) <> name) pre ->
  dev_name (devices (sdk w) m) = name ->
  Forall (fun p => failing (sdk w) (get_name p) = None) (pre ++ [m]) ->
  ConnectToMuse_scan name (pre ++ m :: post) w =
    ConnectToMuse_found m
      {| globals := globals w; sdk := sdk w; next_object := next_object w;
         trace := trace w ++ map (fun p => Call (get_name p)) (pre ++ [m]) |}.
Proof.
  revert w. induction pre as [|p pre IH]; intros w Hpre Hm Hok.
  - apply Forall_cons in Hok as [Hok _]. cbn [app].
    rewrite ConnectToMuse_scan_cons, Hok, Hm, String.eqb_refl. reflexivity.
  - apply Forall_cons in Hpre as [Hp Hpre].
    cbn [app] in Hok. apply Forall_cons in Hok as [Hokp Hok].
    cbn [app]. rewrite ConnectToMuse_scan_cons, Hokp.
    apply String.eqb_neq in Hp. rewrite Hp.
    rewrite (IH (record_call (get_name p) w) Hpre Hm Hok).
    unfold record_call. cbn. rewrite <- app_assoc. reflexivity.
Qed.

Lemma ConnectToMuse_run (name : string) (w : World) :
  ConnectToMuse name w =
    match g_manager (globals w) with
    | None => (Returned false, w)
    | Some _ =>
        match failing (sdk w) get_muses with
        | Some _ => (Returned false, record_call get_muses w)
        | None =>
            let (r, w') := ConnectToMuse_scan name (muses (sdk w))
                             (record_call get_muses w) in
            (Returned (match r with Returned b => b | Thrown _ => false end),
             w')
        end
    end.
Proof.
  unfold ConnectToMuse, try_catch, bind, load, manager_get_muses, sdk_call,
    record_call, ret.
  destruct (g_manager (globals w)); [|reflexivity].
  destruct (failing (sdk w) get_muses) as [[]|]; try reflexivity.
  cbn [id].
  destruct (ConnectToMuse_scan name (muses (sdk w)) _) as [[b|[]] w'];
    reflexivity.
Qed.

(** ** [ConnectToMuse]: the body entered for the matching device *)

(** If the old connection's [disconnect] throws, the body is left at once;
    only the call is on record. *)
Lemma ConnectToMuse_found_disconnect_fails (m a : MusePtr) (e : Exn)
    (w : World) :
  g_currentMuse (globals w) = Some a ->
  failing (sdk w) (disconnect a) = Some e ->
  ConnectToMuse_found m w = (Thrown e, record_call (disconnect a) w).
Proof.
  intros Hcur Hfail. unfold ConnectToMuse_found, muse_disconnect.
  unfold_run. cbn. rewrite Hcur, Hfail. reflexivity.
Qed.

(** The old connection's [disconnect] is the first thing the body does. *)
Lemma ConnectToMuse_found_disconnects_first (m a : MusePtr) (w : World) :
  g_currentMuse (globals w) = Some a ->
  exists rest,
    trace (after (ConnectToMuse_found m) w)
      = trace w ++ Call (disconnect a) :: rest.
Proof.
  intros Hcur. unfold ConnectToMuse_found, muse_disconnect,
    muse_register_connection_listener, muse_run_asynchronously.
  unfold_run.
  destruct w as [[gm c1 c2 c3 cur gl gcl gdl] s n t]; cbn in *. subst cur.
  run_cases; rewrite <- ?app_assoc; cbn; eexists; reflexivity.
Qed.

(** What holds when the body runs to its [return true]. *)
Lemma ConnectToMuse_found_returns (m : MusePtr) (b : bool) (w w' : World) :
  ConnectToMuse_found m w = (Returned b, w') ->
  b = true
  /\ g_currentMuse (globals w') = Some m
  /\ (exists cl, g_connectionListener (globals w') = Some cl
                 /\ connection_listener_attached (sdk w') m (Some cl))
  /\ (exists dl, g_dataListener (globals w') = Some dl)
  /\ (forall p, data_listeners (devices (sdk w') p)
                = data_listeners (devices (sdk w) p))
  /\ running (devices (sdk w') m) = true
  /\ (forall a, g_currentMuse (globals w) = Some a -> a <> m ->
                running (devices (sdk w') a) = false).
Proof.
  unfold ConnectToMuse_found, muse_disconnect,
    muse_register_connection_listener, muse_run_asynchronously,
    connection_listener_attached.
  unfold_run.
  destruct w as [[gm c1 c2 c3 cur gl gcl gdl] s n t]; cbn.
  run_cases; intros Hrun; inversion Hrun; subst; clear Hrun; cbn;
    rewrite ?Nat.eqb_refl; cbn;
    (split; [reflexivity|]);
    (split; [reflexivity|]);
    (split; [eexists; split; [reflexivity|]; apply in_or_app; right; left;
             reflexivity|]);
    (split; [eexists; reflexivity|]);
    (split; [intros p; repeat (destruct (Nat.eqb p _); cbn); reflexivity|]);
    (split; [reflexivity|]);
    intros a Ha Hne; inversion Ha; subst;
    apply Nat.eqb_neq in Hne; rewrite ?Hne; cbn;
    rewrite ?Nat.eqb_refl; reflexivity.
Qed.

(** The body reaches [return true] when none of its SDK calls throws. *)
Lemma ConnectToMuse_found_succeeds (m : MusePtr) (w : World) :
  (forall a, g_currentMuse (globals w) = Some a ->
             failing (sdk w) (disconnect a) = None) ->
  (forall l, failing (sdk w) (register_connection_listener m l) = None) ->
  failing (sdk w) (run_asynchronously m) = None ->
  exists w', ConnectToMuse_found m w = (Returned true, w').
Proof.
  intros Hdis Hreg Hrun.
  unfold ConnectToMuse_found, muse_disconnect,
    muse_register_connection_listener, muse_run_asynchronously.
  unfold_run.
  destruct w as [[gm c1 c2 c3 cur gl gcl gdl] s n t]; cbn in *.
  destruct cur as [a|]; cbn; [rewrite (Hdis a eq_refl); cbn|];
    destruct gcl, gdl; cbn; rewrite ?Hreg; cbn; rewrite ?Hrun;
    eexists; reflexivity.
Qed.

(** Whatever happens in the body, an active connection still comes with
    both adapters. *)
Lemma ConnectToMuse_found_listeners_present (m : MusePtr) (w : World) :
  listeners_present (globals w) ->
  listeners_present (globals (after (ConnectToMuse_found m) w)).
Proof.
  unfold listeners_present, ConnectToMuse_found, muse_disconnect,
    muse_register_connection_listener, muse_run_asynchronously.
  unfold_run.
  destruct w as [[gm c1 c2 c3 cur gl gcl gdl] s n t]; cbn.
  intros Hinv. run_cases; intros Hcur;
    try (split; discriminate); try (apply Hinv; discriminate);
    try contradiction.
Qed.

(** ** [ConnectToMuse] as a whole *)

Lemma first_match_of_split (name : string) (s : Sdk) (pre post : list MusePtr)
    (b : MusePtr) :
  muses s = pre ++ b :: post ->
  Forall (fun p => dev_name (devices s p) <> name) pre ->
  dev_name (devices s b) = name ->
  first_match name s = Some b.
Proof.
  unfold first_match. intros -> Hpre Hb.
  induction pre as [|p pre IH]; cbn.
  - rewrite Hb, String.eqb_refl. reflexivity.
  - apply Forall_cons in Hpre as [Hp Hpre].
    apply String.eqb_neq in Hp. rewrite Hp. apply IH, Hpre.
Qed.

(** A call that got as far as [b] is the body run for [b], after the scan
    that changed nothing. *)
Lemma ConnectToMuse_matches_run (name : string) (w : World) (b : MusePtr) :
  connect_matches name w b ->
  exists w1,
    scanned (record_call get_muses w) w1 /\
    ConnectToMuse name w =
      (let (r, w') := ConnectToMuse_found b w1 in
       (Returned (match r with Returned v => v | Thrown _ => false end), w')).
Proof.
  intros (Hman & Hget & pre & post & Hsplit & Hpre & Hb & Hok).
  rewrite ConnectToMuse_run, Hget.
  destruct (g_manager (globals w)); [|contradiction].
  rewrite Hsplit.
  rewrite (ConnectToMuse_scan_linear name pre post b
             (record_call get_muses w) Hpre Hb Hok).
  eexists. split; [|reflexivity].
  repeat split. exists (pre ++ [b]). reflexivity.
Qed.

(** A call that returns [true] ran the body for the first match to its
    end. *)
Lemma ConnectToMuse_true (name : string) (w : World) :
  outcome (ConnectToMuse name) w = Returned true ->
  exists m w1,
    first_match name (sdk w) = Some m /\
    scanned (record_call get_muses w) w1 /\
    ConnectToMuse_found m w1 = (Returned true, after (ConnectToMuse name) w).
Proof.
  unfold outcome, after. rewrite ConnectToMuse_run.
  destruct (g_manager (globals w)); [|discriminate].
  destruct (failing (sdk w) get_muses); [discriminate|].
  destruct (ConnectToMuse_scan_spec name (muses (sdk w))
              (record_call get_muses w)) as (w1 & Hsc & Hrun).
  cbn [sdk record_call] in Hrun. unfold first_match.
  destruct (List.find _ (muses (sdk w))) as [m|].
  - destruct Hrun as [Hrun|[e Hrun]]; rewrite Hrun.
    + destruct (ConnectToMuse_found m w1) as [[v|e] w'] eqn:Hfound;
        cbn [fst snd]; intros Hv; [|discriminate].
      inversion Hv; subst. exists m, w1.
      split; [reflexivity|]. split; [exact Hsc|].
      first [exact Hfound | reflexivity].
    + discriminate.
  - destruct Hrun as [Hrun|[e Hrun]]; rewrite Hrun; discriminate.
Qed.

(** In a call that got as far as [b] while [a] was connected, [a]'s
    [disconnect] comes before any call that attaches to or dispatches
    [b]. *)
Lemma ConnectToMuse_disconnects_first (name : string) (w : World)
    (a b : MusePtr) :
  connect_matches name w b ->
  g_currentMuse (globals w) = Some a ->
  exists before rest,
    new_events (ConnectToMuse name) w = before ++ Call (disconnect a) :: rest
    /\ Forall (fun e => connects b e = false) before.
Proof.
  intros Hmatch Hcur.
  destruct (ConnectToMuse_matches_run name w b Hmatch)
    as (w1 & (Hg & Hs & Hn & ms & Ht) & Hrun).
  destruct (ConnectToMuse_found_disconnects_first b a w1) as (rest & Hrest).
  { rewrite Hg. exact Hcur. }
  exists (Call get_muses :: map (fun m => Call (get_name m)) ms), rest.
  split.
  - apply new_events_spec. unfold after in *. rewrite Hrun.
    destruct (ConnectToMuse_found b w1) as [r w']. cbn in *.
    rewrite Hrest, Ht. cbn. rewrite <- !app_assoc. reflexivity.
  - constructor; [reflexivity|]. apply Forall_map, Forall_true.
    intros; reflexivity.
Qed.

Lemma RegisterDataListener_true (ty : Z) (w : World) :
  outcome (RegisterDataListener ty) w = Returned true ->
  exists m dl,
    g_currentMuse (globals w) = Some m /\
    g_dataListener (globals w) = Some dl /\
    In (Some dl, ty)
       (data_listeners (devices (sdk (after (RegisterDataListener ty) w)) m)).
Proof.
  unfold RegisterDataListener, muse_register_data_listener. unfold_run.
  destruct w as [[gm c1 c2 c3 cur gl gcl gdl] s n t]; cbn.
  run_cases; intros Hrun; try discriminate.
  eexists _, _. repeat split. cbn. rewrite Nat.eqb_refl. cbn.
  apply in_or_app. right. left. reflexivity.
Qed.

Lemma ConnectToMuse_found_current (m : MusePtr) (w : World) :
  g_currentMuse (globals (after (ConnectToMuse_found m) w))
    = g_currentMuse (globals w)
  \/ g_currentMuse (globals (after (ConnectToMuse_found m) w)) = Some m.
Proof.
  unfold ConnectToMuse_found, muse_disconnect,
    muse_register_connection_listener, muse_run_asynchronously.
  unfold_run.
  destruct w as [[gm c1 c2 c3 cur gl gcl gdl] s n t]; cbn.
  run_cases; auto.
Qed.

Lemma ConnectToMuse_returns (name : string) (w : World) :
  exists r, outcome (ConnectToMuse name) w = Returned r.
Proof.
  unfold outcome. rewrite ConnectToMuse_run.
  destruct (g_manager (globals w)); [|eexists; reflexivity].
  destruct (failing (sdk w) get_muses); [eexists; reflexivity|].
  destruct (ConnectToMuse_scan _ _ _). eexists; reflexivity.
Qed.

(** A call that finds no device to connect to changes nothing. *)
Lemma ConnectToMuse_no_match (name : string) (w : World) :
  g_manager (globals w) = None \/ first_match name (sdk w) = None ->
  outcome (ConnectToMuse name) w = Returned false
  /\ globals (after (ConnectToMuse name) w) = globals w
  /\ sdk (after (ConnectToMuse name) w) = sdk w
  /\ next_object (after (ConnectToMuse name) w) = next_object w.
Proof.
  unfold outcome, after. rewrite ConnectToMuse_run. intros Hno.
  destruct (g_manager (globals w)) as [mgr|]; [|repeat split].
  destruct Hno as [Hno|Hno]; [discriminate|].
  destruct (failing (sdk w) get_muses); [repeat split|].
  destruct (ConnectToMuse_scan_spec name (muses (sdk w))
              (record_call get_muses w))
    as (w1 & (Hg & Hs & Hn & _) & Hrun).
  cbn [sdk record_call] in Hrun. unfold first_match in Hno.
  rewrite Hno in Hrun.
  destruct Hrun as [Hrun|[e Hrun]]; rewrite Hrun; cbn [fst snd];
    repeat split; assumption.
Qed.

(** ** C2: what a successful connect attaches *)

(** C2 (amended).  A connect that returns true has made the first device
    of that name the active connection, holds both adapter instances, and
    has registered the connection-listener adapter on that device.  It does
    not touch the data-listener registrations of any device: the
    data-listener adapter is attached to the device, for one packet type,
    by a later successful [RegisterDataListener]. *)
Theorem connect_attaches_connection_listener (name : string) (w : World) :
  outcome (ConnectToMuse name) w = Returned true ->
  exists m cl dl,
    first_match name (sdk w) = Some m
    /\ g_currentMuse (globals (after (ConnectToMuse name) w)) = Some m
    /\ g_connectionListener (globals (after (ConnectToMuse name) w)) = Some cl
    /\ g_dataListener (globals (after (ConnectToMuse name) w)) = Some dl
    /\ connection_listener_attached
         (sdk (after (ConnectToMuse name) w)) m (Some cl)
    /\ (forall p,
          data_listeners (devices (sdk (after (ConnectToMuse name) w)) p)
          = data_listeners (devices (sdk w) p))
    /\ (forall ty,
          outcome (RegisterDataListener ty) (after (ConnectToMuse name) w)
            = Returned true ->
          In (Some dl, ty)
             (data_listeners
                (devices (sdk (after (RegisterDataListener ty)
                                 (after (ConnectToMuse name) w))) m))).
Proof.
  intros Htrue.
  destruct (ConnectToMuse_true name w Htrue)
    as (m & w1 & Hfirst & (Hg & Hs & _) & Hfound).
  destruct (ConnectToMuse_found_returns m true w1 _ Hfound)
    as (_ & Hcur & (cl & Hcl & Hatt) & (dl & Hdl) & Hdata & _ & _).
  exists m, cl, dl. repeat split; try assumption.
  - intros p. rewrite Hdata, Hs. reflexivity.
  - intros ty Hreg.
    destruct (RegisterDataListener_true ty _ Hreg)
      as (m' & dl' & Hcur' & Hdl' & Hin).
    rewrite Hcur in Hcur'. rewrite Hdl in Hdl'.
    inversion Hcur'; inversion Hdl'; subst. exact Hin.
Qed.

Lemma connect_attaches_connection_listener_witness :
  exists m cl dl,
    first_match "Muse-A" (sdk world_ready) = Some m
    /\ g_currentMuse (globals world_connected_A) = Some m
    /\ g_connectionListener (globals world_connected_A) = Some cl
    /\ g_dataListener (globals world_connected_A) = Some dl
    /\ connection_listener_attached (sdk world_connected_A) m (Some cl)
    /\ (forall p,
          data_listeners (devices (sdk world_connected_A) p)
          = data_listeners (devices (sdk world_ready) p))
    /\ (forall ty,
          outcome (RegisterDataListener ty) world_connected_A
            = Returned true ->
          In (Some dl, ty)
             (data_listeners
                (devices (sdk (after (RegisterDataListener ty)
                                 world_connected_A)) m))).
Proof.
  exact (connect_attaches_connection_listener "Muse-A" world_ready eq_refl).
Defined.

(** C2, as claimed, fails: after a successful connect to Muse-A the
    data-listener adapter exists but is registered nowhere, and the call
    made no [register_data_listener]. *)
Lemma connect_leaves_data_listener_unattached :
  outcome (ConnectToMuse "Muse-A") world_ready = Returned true
  /\ g_currentMuse (globals world_connected_A) = Some 0%nat
  /\ g_dataListener (globals world_connected_A) = Some 102%nat
  /\ ~ data_listener_attached (sdk world_connected_A) 0%nat (Some 102%nat)
  /\ calls (new_events (ConnectToMuse "Muse-A") world_ready)
     = [get_muses; get_name 0; register_connection_listener 0 (Some 101%nat);
        run_asynchronously 0].
Proof.
  repeat split; try reflexivity.
  intros [ty Hin]. vm_compute in Hin. exact Hin.
Qed.

(** ** C3: a failing disconnect of the old connection *)

(** C3 (amended).  When connect(name) gets as far as a matching device [b]
    while [a] is the active connection, [a]'s disconnect is called before
    anything is done to [b].  If that disconnect throws, the exception is
    caught at the boundary but the attempt is over: connect returns false,
    no listener is attached to [b] and its connection is not dispatched,
    globals and SDK are as before.  If it completes, and so do the
    registration and dispatch for [b], connect returns true with [b]
    attached and dispatched. *)
Theorem connect_aborts_when_old_disconnect_fails (name : string) (w : World)
    (a b : MusePtr) :
  connect_matches name w b ->
  g_currentMuse (globals w) = Some a ->
  (exists before rest,
     new_events (ConnectToMuse name) w = before ++ Call (disconnect a) :: rest
     /\ Forall (fun e => connects b e = false) before)
  /\ (forall e, failing (sdk w) (disconnect a) = Some e ->
        outcome (ConnectToMuse name) w = Returned false
        /\ globals (after (ConnectToMuse name) w) = globals w
        /\ sdk (after (ConnectToMuse name) w) = sdk w
        /\ Forall (fun ev => connects b ev = false)
                  (new_events (ConnectToMuse name) w))
  /\ (failing (sdk w) (disconnect a) = None ->
      (forall l, failing (sdk w) (register_connection_listener b l) = None) ->
      failing (sdk w) (run_asynchronously b) = None ->
        outcome (ConnectToMuse name) w = Returned true
        /\ g_currentMuse (globals (after (ConnectToMuse name) w)) = Some b
        /\ (exists cl,
              g_connectionListener (globals (after (ConnectToMuse name) w))
                = Some cl
              /\ connection_listener_attached
                   (sdk (after (ConnectToMuse name) w)) b (Some cl))
        /\ running (devices (sdk (after (ConnectToMuse name) w)) b) = true).
Proof.
  intros Hmatch Hcur.
  split; [exact (ConnectToMuse_disconnects_first name w a b Hmatch Hcur)|].
  destruct (ConnectToMuse_matches_run name w b Hmatch)
    as (w1 & (Hg & Hs & Hn & ms & Ht) & Hrun).
  cbn [globals sdk record_call trace] in *.
  split.
  - intros e Hfail.
    assert (Hfound : ConnectToMuse_found b w1
                     = (Thrown e, record_call (disconnect a) w1)).
    { apply ConnectToMuse_found_disconnect_fails; [rewrite Hg|rewrite Hs];
        assumption. }
    rewrite Hfound in Hrun.
    assert (Hnew : new_events (ConnectToMuse name) w
                   = (Call get_muses :: map (fun m => Call (get_name m)) ms)
                     ++ [Call (disconnect a)]).
    { apply new_events_spec. unfold after. rewrite Hrun. cbn.
      rewrite Ht, <- !app_assoc. reflexivity. }
    unfold outcome, after. rewrite Hnew, Hrun. cbn.
    repeat split; try assumption.
    constructor; [reflexivity|].
    apply Forall_app_2;
      [apply Forall_map, Forall_true; intros; reflexivity|].
    constructor; [reflexivity|constructor].
  - intros Hdis Hreg Hasync.
    destruct (ConnectToMuse_found_succeeds b w1) as (w' & Hfound).
    { intros a' Ha'. rewrite Hg, Hcur in Ha'. inversion Ha'; subst.
      rewrite Hs. exact Hdis. }
    { intros l. rewrite Hs. apply Hreg. }
    { rewrite Hs. exact Hasync. }
    rewrite Hfound in Hrun. unfold outcome, after. rewrite Hrun. cbn.
    destruct (ConnectToMuse_found_returns b true w1 w' Hfound)
      as (_ & Hcur' & Hcl & _ & _ & Hrunning & _).
    repeat split; assumption.
Qed.

Lemma example_connect_matches_B (fail : SdkCall -> option Exn) :
  fail get_muses = None ->
  (forall m, fail (get_name m) = None) ->
  connect_matches "Muse-B" (set_failing fail world_connected_A) 1%nat.
Proof.
  intros Hget Hname. split; [discriminate|]. split; [exact Hget|].
  exists [0%nat], []. split; [reflexivity|].
  split; [repeat constructor; discriminate|].
  split; [reflexivity|]. repeat constructor; apply Hname.
Qed.

Lemma connect_aborts_when_old_disconnect_fails_witness :
  (outcome (ConnectToMuse "Muse-B")
           (set_failing failing_disconnect world_connected_A)
     = Returned false
   /\ globals (after (ConnectToMuse "Muse-B")
                 (set_failing failing_disconnect world_connected_A))
      = globals (set_failing failing_disconnect world_connected_A))
  /\ (outcome (ConnectToMuse "Muse-B")
              (set_failing never_failing world_connected_A)
        = Returned true
      /\ g_currentMuse
           (globals (after (ConnectToMuse "Muse-B")
                       (set_failing never_failing world_connected_A)))
         = Some 1%nat).
Proof.
  split.
  - destruct (connect_aborts_when_old_disconnect_fails "Muse-B"
                (set_failing failing_disconnect world_connected_A) 0%nat 1%nat
                (example_connect_matches_B failing_disconnect eq_refl
                   (fun _ => eq_refl))
                eq_refl) as (_ & Hfail & _).
    destruct (Hfail std_exception eq_refl) as (Hout & Hglob & _).
    split; assumption.
  - destruct (connect_aborts_when_old_disconnect_fails "Muse-B"
                (set_failing never_failing world_connected_A) 0%nat 1%nat
                (example_connect_matches_B never_failing eq_refl
                   (fun _ => eq_refl))
                eq_refl) as (_ & _ & Hok).
    destruct (Hok eq_refl (fun _ => eq_refl) eq_refl) as (Hout & Hcur & _).
    split; assumption.
Defined.

(** C3, as claimed, fails: with Muse-A connected and its disconnect
    throwing, a connect to Muse-B (which is in the snapshot) returns false,
    Muse-B gets no listener and is not dispatched, and Muse-A stays the
    recorded connection. *)
Lemma failed_disconnect_blocks_new_connection :
  let w := set_failing failing_disconnect world_connected_A in
  g_currentMuse (globals w) = Some 0%nat
  /\ first_match "Muse-B" (sdk w) = Some 1%nat
  /\ failing (sdk w) (disconnect 0) = Some std_exception
  /\ outcome (ConnectToMuse "Muse-B") w = Returned false
  /\ connection_listeners
       (devices (sdk (after (ConnectToMuse "Muse-B") w)) 1%nat) = []
  /\ running (devices (sdk (after (ConnectToMuse "Muse-B") w)) 1%nat) = false
  /\ g_currentMuse (globals (after (ConnectToMuse "Muse-B") w)) = Some 0%nat
  /\ calls (new_events (ConnectToMuse "Muse-B") w)
     = [get_muses; get_name 0; get_name 1; disconnect 0].
Proof. repeat split; reflexivity. Qed.

(** ** C4: one active connection *)

(** The body after the old connection's disconnect: a throwing
    registration leaves the slot as it was, with the old device down; a
    throwing dispatch leaves the matched device in the slot; otherwise the
    body returns true. *)
Lemma ConnectToMuse_found_after_disconnect (m : MusePtr) (w : World) :
  (forall a, g_currentMuse (globals w) = Some a ->
             failing (sdk w) (disconnect a) = None) ->
  (forall e,
     failing (sdk w)
       (register_connection_listener m
          (connection_adapter (globals w) (next_object w))) = Some e ->
     outcome (ConnectToMuse_found m) w = Thrown e
     /\ g_currentMuse (globals (after (ConnectToMuse_found m) w))
        = g_currentMuse (globals w)
     /\ (forall a, g_currentMuse (globals w) = Some a ->
           running (devices (sdk (after (ConnectToMuse_found m) w)) a)
           = false))
  /\ (failing (sdk w)
        (register_connection_listener m
           (connection_adapter (globals w) (next_object w))) = None ->
      (forall e,
         failing (sdk w) (run_asynchronously m) = Some e ->
         outcome (ConnectToMuse_found m) w = Thrown e
         /\ g_currentMuse (globals (after (ConnectToMuse_found m) w))
            = Some m)
      /\ (failing (sdk w) (run_asynchronously m) = None ->
          outcome (ConnectToMuse_found m) w = Returned true)).
Proof.
  unfold ConnectToMuse_found, muse_disconnect,
    muse_register_connection_listener, muse_run_asynchronously,
    connection_adapter.
  unfold_run.
  destruct w as [[gm c1 c2 c3 cur gl gcl gdl] s n t]; cbn.
  intros Hdis.
  destruct cur as [a|]; cbn; [rewrite (Hdis a eq_refl); cbn|];
    destruct gcl as [cl|], gdl as [dl|]; cbn;
    (split;
     [intros e Hreg; rewrite Hreg; cbn;
      repeat split; intros a' Ha'; inversion Ha'; subst; cbn;
      rewrite Nat.eqb_refl; reflexivity
     |intros Hreg; rewrite Hreg; cbn;
      split;
      [intros e Hrun; rewrite Hrun; cbn; split; reflexivity
      |intros Hrun; rewrite Hrun; reflexivity]]).
Qed.

(** C4 (amended).  The session has one slot for the active connection.
    When connect(name) gets as far as a matching device [b] while [a] is
    the active connection, [a]'s disconnect is called before any listener
    is attached to [b] and before [b] is dispatched; the call returns a
    boolean; when it returns true, [b] is the active connection, [b] is
    dispatched and [a] (if a different device) is down.  It returns true
    exactly when [a]'s disconnect, the registration of the connection
    adapter on [b] and [b]'s dispatch all complete.  When one of them
    throws the call returns false: if it is the disconnect or the
    registration, the slot still holds [a] (which the completed
    disconnect has taken down); if it is the dispatch, the slot holds
    [b].  In every case the slot holds [a] or [b]. *)
Theorem connect_replaces_active_connection (name : string) (w : World)
    (a b : MusePtr) :
  connect_matches name w b ->
  g_currentMuse (globals w) = Some a ->
  (exists before rest,
     new_events (ConnectToMuse name) w = before ++ Call (disconnect a) :: rest
     /\ Forall (fun e => connects b e = false) before)
  /\ (exists r, outcome (ConnectToMuse name) w = Returned r)
  /\ (outcome (ConnectToMuse name) w = Returned true ->
        g_currentMuse (globals (after (ConnectToMuse name) w)) = Some b
        /\ running (devices (sdk (after (ConnectToMuse name) w)) b) = true
        /\ (a <> b ->
            running (devices (sdk (after (ConnectToMuse name) w)) a) = false))
  /\ (g_currentMuse (globals (after (ConnectToMuse name) w)) = Some a
      \/ g_currentMuse (globals (after (ConnectToMuse name) w)) = Some b)
  /\ (outcome (ConnectToMuse name) w = Returned true <->
        failing (sdk w) (disconnect a) = None
        /\ failing (sdk w)
             (register_connection_listener b
                (connection_adapter (globals w) (next_object w))) = None
        /\ failing (sdk w) (run_asynchronously b) = None)
  /\ (forall e,
        failing (sdk w) (disconnect a) = Some e ->
        outcome (ConnectToMuse name) w = Returned false
        /\ g_currentMuse (globals (after (ConnectToMuse name) w)) = Some a)
  /\ (failing (sdk w) (disconnect a) = None ->
      forall e,
        failing (sdk w)
          (register_connection_listener b
             (connection_adapter (globals w) (next_object w))) = Some e ->
        outcome (ConnectToMuse name) w = Returned false
        /\ g_currentMuse (globals (after (ConnectToMuse name) w)) = Some a
        /\ running (devices (sdk (after (ConnectToMuse name) w)) a) = false)
  /\ (failing (sdk w) (disconnect a) = None ->
      failing (sdk w)
        (register_connection_listener b
           (connection_adapter (globals w) (next_object w))) = None ->
      forall e,
        failing (sdk w) (run_asynchronously b) = Some e ->
        outcome (ConnectToMuse name) w = Returned false
        /\ g_currentMuse (globals (after (ConnectToMuse name) w)) = Some b).
Proof.
  intros Hmatch Hcur.
  split; [exact (ConnectToMuse_disconnects_first name w a b Hmatch Hcur)|].
  split; [apply ConnectToMuse_returns|].
  destruct (ConnectToMuse_matches_run name w b Hmatch)
    as (w1 & (Hg & Hs & Hn & _) & Hrun).
  cbn [globals sdk next_object record_call] in *.
  assert (Hcur1 : g_currentMuse (globals w1) = Some a)
    by (rewrite Hg; exact Hcur).
  (* the three ways to fail, and success, at the level of the call *)
  assert (Hfail_dis : forall e,
            failing (sdk w) (disconnect a) = Some e ->
            outcome (ConnectToMuse name) w = Returned false
            /\ g_currentMuse (globals (after (ConnectToMuse name) w))
               = Some a).
  { intros e Hdis. unfold outcome, after. rewrite Hrun.
    rewrite (ConnectToMuse_found_disconnect_fails b a e w1 Hcur1)
      by (rewrite Hs; exact Hdis).
    cbn. split; [reflexivity|exact Hcur1]. }
  assert (Hafter : failing (sdk w) (disconnect a) = None ->
            (forall e,
               failing (sdk w)
                 (register_connection_listener b
                    (connection_adapter (globals w) (next_object w)))
               = Some e ->
               outcome (ConnectToMuse name) w = Returned false
               /\ g_currentMuse (globals (after (ConnectToMuse name) w))
                  = Some a
               /\ running (devices (sdk (after (ConnectToMuse name) w)) a)
                  = false)
            /\ (failing (sdk w)
                  (register_connection_listener b
                     (connection_adapter (globals w) (next_object w)))
                = None ->
                (forall e,
                   failing (sdk w) (run_asynchronously b) = Some e ->
                   outcome (ConnectToMuse name) w = Returned false
                   /\ g_currentMuse
                        (globals (after (ConnectToMuse name) w)) = Some b)
                /\ (failing (sdk w) (run_asynchronously b) = None ->
                    outcome (ConnectToMuse name) w = Returned true))).
  { intros Hdis.
    destruct (ConnectToMuse_found_after_disconnect b w1)
      as (Hreg & Hrest).
    { intros a' Ha'. rewrite Hcur1 in Ha'. inversion Ha'; subst.
      rewrite Hs. exact Hdis. }
    rewrite Hg, Hs, Hn in Hreg, Hrest.
    unfold outcome, after in *. rewrite Hrun.
    destruct (ConnectToMuse_found b w1) as [r w'] eqn:Hfound.
    cbn [fst snd] in *.
    split.
    - intros e He. destruct (Hreg e He) as (Hout & Hslot & Hdown).
      rewrite Hout. split; [reflexivity|].
      split; [rewrite Hslot; exact Hcur|]. apply Hdown. exact Hcur.
    - intros Hok. destruct (Hrest Hok) as (Hthrow & Htrue).
      split.
      + intros e He. destruct (Hthrow e He) as (Hout & Hslot).
        rewrite Hout. split; [reflexivity|exact Hslot].
      + intros Hdispatch. rewrite (Htrue Hdispatch). reflexivity. }
  split.
  { unfold outcome, after. rewrite Hrun.
    destruct (ConnectToMuse_found b w1) as [[v|e] w'] eqn:Hfound;
      cbn [fst snd]; intros Hv; [|discriminate].
    destruct (ConnectToMuse_found_returns b v w1 w' Hfound)
      as (_ & Hcur' & _ & _ & _ & Hrunning & Hold).
    repeat split; try assumption.
    intros Hne. apply Hold; [exact Hcur1|exact Hne]. }
  split.
  { pose proof (ConnectToMuse_found_current b w1) as Hslot.
    unfold after in *. rewrite Hrun.
    destruct (ConnectToMuse_found b w1) as [r w']. cbn [fst snd] in *.
    rewrite Hcur1 in Hslot. exact Hslot. }
  split.
  { split.
    - intros Htrue.
      destruct (failing (sdk w) (disconnect a)) as [e|] eqn:Hdis.
      { destruct (Hfail_dis e eq_refl) as (Hfalse & _). congruence. }
      destruct (Hafter eq_refl) as (Hreg & Hrest).
      destruct (failing (sdk w) (register_connection_listener b _))
        as [e|] eqn:Hr.
      { destruct (Hreg e eq_refl) as (Hfalse & _). congruence. }
      destruct (Hrest eq_refl) as (Hthrow & _).
      destruct (failing (sdk w) (run_asynchronously b)) as [e|] eqn:Hd.
      { destruct (Hthrow e eq_refl) as (Hfalse & _). congruence. }
      repeat split.
    - intros (Hdis & Hr & Hd).
      destruct (Hafter Hdis) as (_ & Hrest).
      destruct (Hrest Hr) as (_ & Htrue). apply Htrue, Hd. }
  split; [exact Hfail_dis|].
  split.
  { intros Hdis. apply (Hafter Hdis). }
  intros Hdis Hr. destruct (Hafter Hdis) as (_ & Hrest).
  apply (Hrest Hr).
Qed.

(** A connect to Muse-B that succeeds, one whose disconnect of Muse-A
    throws, and one whose registration on Muse-B throws. *)
Lemma connect_replaces_active_connection_witness :
  (let w := set_failing never_failing world_connected_A in
   g_currentMuse (globals (after (ConnectToMuse "Muse-B") w)) = Some 1%nat
   /\ running (devices (sdk (after (ConnectToMuse "Muse-B") w)) 1%nat) = true
   /\ running (devices (sdk (after (ConnectToMuse "Muse-B") w)) 0%nat)
      = false)
  /\ (let w := set_failing failing_disconnect world_connected_A in
      outcome (ConnectToMuse "Muse-B") w = Returned false
      /\ g_currentMuse (globals (after (ConnectToMuse "Muse-B") w))
         = Some 0%nat)
  /\ (let w := set_failing failing_register world_connected_A in
      outcome (ConnectToMuse "Muse-B") w = Returned false
      /\ g_currentMuse (globals (after (ConnectToMuse "Muse-B") w))
         = Some 0%nat
      /\ running (devices (sdk (after (ConnectToMuse "Muse-B") w)) 0%nat)
         = false).
Proof.
  split; [|split]; intros w.
  - destruct (connect_replaces_active_connection "Muse-B" w 0%nat 1%nat
                (example_connect_matches_B never_failing eq_refl
                   (fun _ => eq_refl))
                eq_refl) as (_ & _ & Htrue & _).
    destruct (Htrue eq_refl) as (Hcur & Hb & Ha).
    split; [exact Hcur|]. split; [exact Hb|]. apply Ha. discriminate.
  - destruct (connect_replaces_active_connection "Muse-B" w 0%nat 1%nat
                (example_connect_matches_B failing_disconnect eq_refl
                   (fun _ => eq_refl))
                eq_refl) as (_ & _ & _ & _ & _ & Hdis & _).
    exact (Hdis std_exception eq_refl).
  - destruct (connect_replaces_active_connection "Muse-B" w 0%nat 1%nat
                (example_connect_matches_B failing_register eq_refl
                   (fun _ => eq_refl))
                eq_refl) as (_ & _ & _ & _ & _ & _ & Hreg & _).
    exact (Hreg eq_refl unknown_exception eq_refl).
Defined.

(** C4, as claimed, fails: with Muse-A connected, a connect to Muse-B
    whose listener registration throws has already disconnected Muse-A and
    returns false; afterwards the recorded connection is Muse-A, not
    Muse-B. *)
Lemma failed_connect_keeps_old_connection :
  let w := set_failing failing_register world_connected_A in
  g_currentMuse (globals w) = Some 0%nat
  /\ first_match "Muse-B" (sdk w) = Some 1%nat
  /\ outcome (ConnectToMuse "Muse-B") w = Returned false
  /\ g_currentMuse (globals (after (ConnectToMuse "Muse-B") w)) = Some 0%nat
  /\ g_currentMuse (globals (after (ConnectToMuse "Muse-B") w)) <> Some 1%nat
  /\ running (devices (sdk (after (ConnectToMuse "Muse-B") w)) 0%nat) = false
  /\ calls (new_events (ConnectToMuse "Muse-B") w)
     = [get_muses; get_name 0; get_name 1; disconnect 0;
        register_connection_listener 1 (Some 101%nat)].
Proof. repeat split; try reflexivity. discriminate. Qed.

(** ** C5: the lookup *)

(** C5.  connect(name) walks the snapshot in order and acts on the first
    device whose name equals [name]: with such a device [m] after the
    non-matching devices [pre], the call reads the names of [pre] and of
    [m], in that order and no others, and then runs the body for [m]; a
    call that returns true has made the first match the active connection.
    When the session is uninitialised or no device has the name, the call
    returns false and the globals (manager handle, active connection,
    callback slots, adapters) and the SDK side (devices with their
    subscriptions, discovery) are unchanged. *)
Theorem connect_uses_first_match_else_changes_nothing (name : string)
    (w : World) :
  (g_manager (globals w) = None \/ first_match name (sdk w) = None ->
     outcome (ConnectToMuse name) w = Returned false
     /\ globals (after (ConnectToMuse name) w) = globals w
     /\ sdk (after (ConnectToMuse name) w) = sdk w
     /\ next_object (after (ConnectToMuse name) w) = next_object w)
  /\ (forall pre m post,
        g_manager (globals w) <> None ->
        failing (sdk w) get_muses = None ->
        muses (sdk w) = pre ++ m :: post ->
        Forall (fun p => dev_name (devices (sdk w) p) <> name) pre ->
        dev_name (devices (sdk w) m) = name ->
        Forall (fun p => failing (sdk w) (get_name p) = None) (pre ++ [m]) ->
        first_match name (sdk w) = Some m
        /\ ConnectToMuse name w =
             (let (r, w') :=
                ConnectToMuse_found m
                  {| globals := globals w; sdk := sdk w;
                     next_object := next_object w;
                     trace := trace w ++
                              Call get_muses ::
                              map (fun p => Call (get_name p)) (pre ++ [m]) |}
              in (Returned (match r with Returned v => v | Thrown _ => false end),
                  w')))
  /\ (outcome (ConnectToMuse name) w = Returned true ->
      exists m, first_match name (sdk w) = Some m
                /\ g_currentMuse (globals (after (ConnectToMuse name) w))
                   = Some m).
Proof.
  split; [apply ConnectToMuse_no_match|]. split.
  - intros pre m post Hman Hget Hsplit Hpre Hm Hok.
    split; [eapply first_match_of_split; eassumption|].
    rewrite ConnectToMuse_run, Hget.
    destruct (g_manager (globals w)); [|contradiction].
    rewrite Hsplit.
    rewrite (ConnectToMuse_scan_linear name pre post m
               (record_call get_muses w) Hpre Hm Hok).
    unfold record_call. cbn [globals sdk next_object trace].
    rewrite <- app_assoc. reflexivity.
  - intros Htrue.
    destruct (ConnectToMuse_true name w Htrue)
      as (m & w1 & Hfirst & _ & Hfound).
    destruct (ConnectToMuse_found_returns m true w1 _ Hfound)
      as (_ & Hcur & _).
    exists m. split; assumption.
Qed.

(** No device is called Muse-X; Muse-B is found behind Muse-A. *)
Lemma connect_uses_first_match_else_changes_nothing_witness :
  (outcome (ConnectToMuse "Muse-X") world_ready = Returned false
   /\ globals (after (ConnectToMuse "Muse-X") world_ready)
      = globals world_ready
   /\ sdk (after (ConnectToMuse "Muse-X") world_ready) = sdk world_ready
   /\ next_object (after (ConnectToMuse "Muse-X") world_ready)
      = next_object world_ready)
  /\ first_match "Muse-B" (sdk world_ready) = Some 1%nat
  /\ exists m, first_match "Muse-A" (sdk world_ready) = Some m
               /\ g_currentMuse (globals (after (ConnectToMuse "Muse-A")
                                            world_ready)) = Some m.
Proof.
  split; [|split].
  - apply (proj1 (connect_uses_first_match_else_changes_nothing "Muse-X"
                    world_ready)).
    right. reflexivity.
  - apply (proj1 (proj2 (connect_uses_first_match_else_changes_nothing
                           "Muse-B" world_ready))
             [0%nat] 1%nat []); try reflexivity.
    + discriminate.
    + repeat constructor. discriminate.
    + repeat constructor.
  - apply (proj2 (proj2 (connect_uses_first_match_else_changes_nothing
                           "Muse-A" world_ready))).
    reflexivity.
Defined.

(** ** C8: [DisconnectMuse] *)

Lemma DisconnectMuse_run (w : World) :
  DisconnectMuse w =
    match g_currentMuse (globals w) with
    | None => (Returned tt, w)
    | Some a =>
        match failing (sdk w) (disconnect a) with
        | Some _ => (Returned tt, record_call (disconnect a) w)
        | None =>
            (Returned tt,
             {| globals := set_g_currentMuse None (globals w);
                sdk := update_device a (set_running false) (sdk w);
                next_object := next_object w;
                trace := trace w ++ [Call (disconnect a)] |})
        end
    end.
Proof.
  unfold DisconnectMuse, muse_disconnect, record_call. unfold_run.
  destruct (g_currentMuse (globals w)) as [a|]; [|reflexivity].
  destruct (failing (sdk w) (disconnect a)) as [[]|]; reflexivity.
Qed.

(** C8 (amended).  disconnect never reports an error.  Without an active
    connection it does nothing at all.  With one, it calls the device's
    disconnect and, when that completes, clears the active connection and
    nothing else: the adapter instances stay in the globals and every
    listener registration stays on its device (no unregister call is
    made), and discovery, snapshot and list listener are as before; a
    second disconnect is then a no-op.  When the device's disconnect throws,
    the exception is contained and globals and SDK are as before. *)
Theorem disconnect_clears_connection_keeps_listeners (w : World) :
  outcome DisconnectMuse w = Returned tt
  /\ (g_currentMuse (globals w) = None -> DisconnectMuse w = (Returned tt, w))
  /\ (forall a,
        g_currentMuse (globals w) = Some a ->
        failing (sdk w) (disconnect a) = None ->
        new_events DisconnectMuse w = [Call (disconnect a)]
        /\ globals (after DisconnectMuse w)
           = set_g_currentMuse None (globals w)
        /\ running (devices (sdk (after DisconnectMuse w)) a) = false
        /\ (forall m,
              connection_listeners (devices (sdk (after DisconnectMuse w)) m)
              = connection_listeners (devices (sdk w) m)
              /\ data_listeners (devices (sdk (after DisconnectMuse w)) m)
                 = data_listeners (devices (sdk w) m))
        /\ listening (sdk (after DisconnectMuse w)) = listening (sdk w)
        /\ muses (sdk (after DisconnectMuse w)) = muses (sdk w)
        /\ muse_listener (sdk (after DisconnectMuse w)) = muse_listener (sdk w)
        /\ DisconnectMuse (after DisconnectMuse w)
           = (Returned tt, after DisconnectMuse w))
  /\ (forall a e,
        g_currentMuse (globals w) = Some a ->
        failing (sdk w) (disconnect a) = Some e ->
        globals (after DisconnectMuse w) = globals w
        /\ sdk (after DisconnectMuse w) = sdk w).
Proof.
  unfold outcome, new_events, after. rewrite DisconnectMuse_run.
  split; [|split; [|split]].
  - destruct (g_currentMuse (globals w)) as [a|]; [|reflexivity].
    destruct (failing (sdk w) (disconnect a)); reflexivity.
  - intros ->. reflexivity.
  - intros a -> ->. rewrite DisconnectMuse_run. cbn.
    split; [apply drop_old_events|]. split; [reflexivity|].
    split; [rewrite Nat.eqb_refl; reflexivity|].
    split; [intros m; destruct (Nat.eqb m a); split; reflexivity|].
    repeat split; reflexivity.
  - intros a e -> ->. split; reflexivity.
Qed.

(** Connected to Muse-A and subscribed to EEG packets. *)
Lemma disconnect_clears_connection_keeps_listeners_witness :
  let w := after (RegisterDataListener 2) world_connected_A in
  new_events DisconnectMuse w = [Call (disconnect 0)]
  /\ g_currentMuse (globals (after DisconnectMuse w)) = None
  /\ listening (sdk (after DisconnectMuse w)) = true
  /\ DisconnectMuse (after DisconnectMuse w)
     = (Returned tt, after DisconnectMuse w)
  /\ DisconnectMuse world_ready = (Returned tt, world_ready).
Proof.
  intros w.
  destruct (disconnect_clears_connection_keeps_listeners w)
    as (_ & _ & Hconnected & _).
  destruct (Hconnected 0%nat eq_refl eq_refl)
    as (Hnew & Hglob & _ & _ & Hlistening & _ & _ & Hagain).
  split; [exact Hnew|]. split; [rewrite Hglob; reflexivity|].
  split; [rewrite Hlistening; reflexivity|]. split; [exact Hagain|].
  apply (proj1 (proj2 (disconnect_clears_connection_keeps_listeners
                         world_ready))).
  reflexivity.
Defined.

(** C8, as claimed, fails: after disconnecting from Muse-A both adapters
    are still registered on the device (and still allocated); the only SDK
    call made was the device's disconnect. *)
Lemma disconnect_leaves_listeners_attached :
  let w := after (RegisterDataListener 2) world_connected_A in
  g_currentMuse (globals w) = Some 0%nat
  /\ g_currentMuse (globals (after DisconnectMuse w)) = None
  /\ connection_listener_attached (sdk (after DisconnectMuse w)) 0%nat
       (Some 101%nat)
  /\ data_listener_attached (sdk (after DisconnectMuse w)) 0%nat
       (Some 102%nat)
  /\ g_connectionListener (globals (after DisconnectMuse w)) = Some 101%nat
  /\ g_dataListener (globals (after DisconnectMuse w)) = Some 102%nat
  /\ calls (new_events DisconnectMuse w) = [disconnect 0].
Proof.
  repeat split; try reflexivity.
  - left. reflexivity.
  - exists 2. left. reflexivity.
Qed.

(** ** C9: [GetMuseName] *)

Lemma GetMuseName_run (index : Z) (w : World) :
  GetMuseName index w =
    match g_manager (globals w) with
    | None => (Returned "", w)
    | Some _ =>
        match failing (sdk w) get_muses with
        | Some _ => (Returned "", record_call get_muses w)
        | None =>
            if (index <? 0) || (Z.of_nat (length (muses (sdk w))) <=? index)
            then (Returned "", record_call get_muses w)
            else
              match muses (sdk w) !! Z.to_nat index with
              | Some muse =>
                  match failing (sdk w) (get_name muse) with
                  | Some _ =>
                      (Returned "",
                       record_call (get_name muse) (record_call get_muses w))
                  | None =>
                      (Returned (dev_name (devices (sdk w) muse)),
                       record_call (get_name muse) (record_call get_muses w))
                  end
              | None => (Returned "", record_call get_muses w)
              end
        end
    end.
Proof.
  unfold GetMuseName, manager_get_muses, muse_get_name, record_call.
  unfold_run.
  destruct (g_manager (globals w)); [|reflexivity].
  destruct (failing (sdk w) get_muses) as [[]|]; try reflexivity.
  cbn. destruct ((index <? 0) || _); [reflexivity|].
  destruct (muses (sdk w) !! Z.to_nat index) as [muse|]; [|reflexivity].
  cbn. destruct (failing (sdk w) (get_name muse)) as [[]|]; reflexivity.
Qed.

Lemma GetMuseCount_run (w : World) :
  GetMuseCount w =
    match g_manager (globals w) with
    | None => (Returned 0, w)
    | Some _ =>
        match failing (sdk w) get_muses with
        | Some _ => (Returned 0, record_call get_muses w)
        | None => (Returned (int_of_size (length (muses (sdk w)))),
                   record_call get_muses w)
        end
    end.
Proof.
  unfold GetMuseCount, manager_get_muses, record_call. unfold_run.
  destruct (g_manager (globals w)); [|reflexivity].
  destruct (failing (sdk w) get_muses) as [[]|]; reflexivity.
Qed.

Lemma int_of_size_small (n : nat) :
  Z.of_nat n < 2 ^ 31 -> int_of_size n = Z.of_nat n.
Proof.
  intros Hn. unfold int_of_size.
  rewrite Z.mod_small by lia.
  destruct (Z.ltb_spec (Z.of_nat n) (2 ^ 31)); [reflexivity|lia].
Qed.

Lemma GetMuseName_out_of_range (index : Z) (w : World) :
  index < 0 \/ Z.of_nat (length (muses (sdk w))) <= index
  \/ g_manager (globals w) = None ->
  outcome (GetMuseName index) w = Returned "".
Proof.
  intros Hout. unfold outcome. rewrite GetMuseName_run.
  destruct (g_manager (globals w)); [|reflexivity].
  destruct (failing (sdk w) get_muses); [reflexivity|].
  destruct Hout as [Hneg|[Hbig|Hnone]]; [| |discriminate].
  - apply Z.ltb_lt in Hneg. rewrite Hneg. reflexivity.
  - apply Z.leb_le in Hbig. rewrite Hbig, orb_true_r. reflexivity.
Qed.

(** C9.  device_name is total: for every index it returns a string and
    never lets an exception out.  The string is empty whenever the index is
    negative, not below the number of devices in the snapshot, or the
    session is uninitialised; so device_name(-1) is empty, and (the
    snapshot's size fitting an [int]) device_name of anything from
    device_count() upwards is empty. *)
Theorem device_name_out_of_range_is_empty (w : World) (index : Z) :
  (exists s, outcome (GetMuseName index) w = Returned s)
  /\ (index < 0 \/ Z.of_nat (length (muses (sdk w))) <= index
      \/ g_manager (globals w) = None ->
      outcome (GetMuseName index) w = Returned "")
  /\ outcome (GetMuseName (-1)) w = Returned ""
  /\ (Z.of_nat (length (muses (sdk w))) < 2 ^ 31 ->
      forall count,
        outcome GetMuseCount w = Returned count ->
        0 <= count
        /\ (count <= index ->
            outcome (GetMuseName index) w = Returned ""
            /\ outcome (GetMuseName index) (after GetMuseCount w)
               = Returned "")).
Proof.
  split; [|split; [|split]].
  - unfold outcome. rewrite GetMuseName_run.
    repeat match goal with
           | |- context [match ?x with _ => _ end] => destruct x
           end; eexists; reflexivity.
  - apply GetMuseName_out_of_range.
  - apply GetMuseName_out_of_range. left. lia.
  - intros Hfits count. unfold outcome, after. rewrite GetMuseCount_run.
    destruct (g_manager (globals w)) as [mgr|] eqn:Hman.
    + destruct (failing (sdk w) get_muses) as [e|] eqn:Hget;
        cbn [fst snd]; intros Hcount; inversion Hcount; subst.
      * split; [lia|]. intros _.
        rewrite !GetMuseName_run. cbn [globals sdk record_call].
        rewrite Hman, Hget. split; reflexivity.
      * rewrite int_of_size_small by exact Hfits. split; [lia|].
        intros Hge.
        split; apply (GetMuseName_out_of_range index); right; left;
          exact Hge.
    + cbn [fst snd]. intros Hcount; inversion Hcount; subst.
      split; [lia|]. intros _.
      split; apply (GetMuseName_out_of_range index); right; right;
        exact Hman.
Qed.

Lemma device_name_out_of_range_is_empty_witness :
  outcome (GetMuseName (-1)) world_ready = Returned ""
  /\ outcome (GetMuseName 2) world_ready = Returned ""
  /\ outcome (GetMuseName 2) (after GetMuseCount world_ready) = Returned ""
  /\ outcome (GetMuseName 5)
             (start_world (two_headbands never_failing) 100) = Returned "".
Proof.
  split; [|split; [|split]].
  - apply (proj1 (proj2 (device_name_out_of_range_is_empty world_ready (-1)))).
    left. lia.
  - apply (proj1 (proj2 (device_name_out_of_range_is_empty world_ready 2))).
    right. left. cbn. lia.
  - destruct (device_name_out_of_range_is_empty world_ready 2)
      as (_ & _ & _ & Hcount).
    assert (Hfits : Z.of_nat (length (muses (sdk world_ready))) < 2 ^ 31)
      by (cbn; lia).
    destruct (Hcount Hfits 2 eq_refl) as (_ & Hge).
    apply Hge. lia.
  - apply (proj1 (proj2 (device_name_out_of_range_is_empty
                           (start_world (two_headbands never_failing) 100)
                           5))).
    right. right. reflexivity.
Defined.

(** ** C7: [StopMuseManager] *)



Lemma StopMuseManager_complete (w : World) :
  (forall a, g_currentMuse (globals w) = Some a ->
             failing (sdk w) (disconnect a) = None) ->
  (g_manager (globals w) <> None -> failing (sdk w) stop_listening = None) ->
  globals (after StopMuseManager w) = initial_globals
  /\ calls (new_events StopMuseManager w)
     = match g_currentMuse (globals w) with
       | Some a => [disconnect a]
       | None => []
       end ++
       match g_manager (globals w) with
       | Some _ => [stop_listening]
       | None => []
       end
  /\ (forall a, g_currentMuse (globals w) = Some a ->
                running (devices (sdk (after StopMuseManager w)) a) = false)
  /\ (g_manager (globals w) <> None ->
      listening (sdk (after StopMuseManager w)) = false).
Proof.
  unfold StopMuseManager, muse_disconnect, manager_stop_listening.
  unfold_run.
  destruct w as [[gm c1 c2 c3 cur gl gcl gdl] s n t]; cbn.
  intros Hdis Hstop.
  destruct cur as [a|]; cbn; [rewrite (Hdis a eq_refl); cbn|];
    (destruct gm as [mgr|]; cbn;
     [rewrite Hstop by discriminate; cbn|]);
    rewrite <- ?app_assoc, ?drop_old_events, ?drop_all;
    repeat split; try reflexivity; try discriminate; try contradiction;
    intros a' Ha'; inversion Ha'; subst; cbn; rewrite Nat.eqb_refl;
    reflexivity.
Qed.






(** ** C10: an active connection comes with both adapters *)

Lemma listeners_present_start (s : Sdk) (n : nat) :
  listeners_present (globals (start_world s n)).
Proof. intros Hcur. contradiction. Qed.

Lemma ConnectToMuse_listeners_present (name : string) (w : World) :
  listeners_present (globals w) ->
  listeners_present (globals (after (ConnectToMuse name) w)).
Proof.
  intros Hinv. unfold after. rewrite ConnectToMuse_run.
  destruct (g_manager (globals w)); [|exact Hinv].
  destruct (failing (sdk w) get_muses); [exact Hinv|].
  destruct (ConnectToMuse_scan_spec name (muses (sdk w))
              (record_call get_muses w)) as (w1 & (Hg & _) & Hrun).
  cbn [globals sdk record_call] in *.
  assert (Hinv1 : listeners_present (globals w1)) by (rewrite Hg; exact Hinv).
  destruct (List.find _ (muses (sdk w))) as [m|].
  - destruct Hrun as [Hrun|[e Hrun]]; rewrite Hrun.
    + pose proof (ConnectToMuse_found_listeners_present m w1 Hinv1) as Hfound.
      unfold after in Hfound.
      destruct (ConnectToMuse_found m w1) as [r w']. exact Hfound.
    + exact Hinv1.
  - destruct Hrun as [Hrun|[e Hrun]]; rewrite Hrun; exact Hinv1.
Qed.

Lemma GetMuseManager_listeners_present (w : World) :
  listeners_present (globals w) ->
  listeners_present (globals (after GetMuseManager w)).
Proof.
  unfold listeners_present, GetMuseManager, MuseManagerWindows_get_instance,
    manager_set_muse_listener.
  unfold_run.
  destruct w as [[gm c1 c2 c3 cur gl gcl gdl] s n t]; cbn.
  intros Hinv. run_cases; try exact Hinv.
  all: destruct (instance s); cbn; run_cases; exact Hinv.
Qed.

Lemma StopMuseManager_listeners_present (w : World) :
  listeners_present (globals w) ->
  listeners_present (globals (after StopMuseManager w)).
Proof.
  unfold listeners_present, StopMuseManager, muse_disconnect,
    manager_stop_listening.
  unfold_run.
  destruct w as [[gm c1 c2 c3 cur gl gcl gdl] s n t]; cbn.
  intros Hinv. run_cases; try exact Hinv; intros Hcur; contradiction.
Qed.

Lemma DisconnectMuse_listeners_present (w : World) :
  listeners_present (globals w) ->
  listeners_present (globals (after DisconnectMuse w)).
Proof.
  intros Hinv. unfold after. rewrite DisconnectMuse_run.
  destruct (g_currentMuse (globals w)) as [a|] eqn:Hcur; [|exact Hinv].
  destruct (failing (sdk w) (disconnect a)); [exact Hinv|].
  intros Hnone. cbn in Hnone. contradiction.
Qed.

(** The remaining entry points do not write the connection or the
    per-device adapters. *)
Lemma other_ops_keep_connection_globals (op : BoundaryOp) (w : World) :
  match op with
  | OpGetMuseManager | OpConnectToMuse _ | OpDisconnectMuse
  | OpStopMuseManager => True
  | _ =>
      g_currentMuse (globals (boundary_op op w)) = g_currentMuse (globals w)
      /\ g_connectionListener (globals (boundary_op op w))
         = g_connectionListener (globals w)
      /\ g_dataListener (globals (boundary_op op w))
         = g_dataListener (globals w)
  end.
Proof.
  destruct op; try exact I; cbn [boundary_op]; unfold after.
  - unfold StartListening, manager_start_listening. unfold_run.
    destruct w as [[gm c1 c2 c3 cur gl gcl gdl] s n t]; cbn.
    run_cases; repeat split.
  - unfold StopListening, manager_stop_listening. unfold_run.
    destruct w as [[gm c1 c2 c3 cur gl gcl gdl] s n t]; cbn.
    run_cases; repeat split.
  - rewrite GetMuseCount_run.
    destruct (g_manager (globals w)); [|repeat split].
    destruct (failing (sdk w) get_muses); repeat split.
  - rewrite GetMuseName_run.
    repeat match goal with
           | |- context [match ?x with _ => _ end] => destruct x
           end; repeat split.
  - unfold RegisterDataListener, muse_register_data_listener. unfold_run.
    destruct w as [[gm c1 c2 c3 cur gl gcl gdl] s n t]; cbn.
    run_cases; repeat split.
  - unfold UnregisterDataListener, muse_unregister_data_listener. unfold_run.
    destruct w as [[gm c1 c2 c3 cur gl gcl gdl] s n t]; cbn.
    run_cases; repeat split.
  - repeat split.
  - repeat split.
  - repeat split.
Qed.

Lemma boundary_op_listeners_present (op : BoundaryOp) (w : World) :
  listeners_present (globals w) ->
  listeners_present (globals (boundary_op op w)).
Proof.
  intros Hinv. pose proof (other_ops_keep_connection_globals op w) as Hkeep.
  destruct op; cbn [boundary_op] in *;
    try (destruct Hkeep as (Hcur & Hcl & Hdl);
         unfold listeners_present; rewrite Hcur, Hcl, Hdl; exact Hinv).
  - apply GetMuseManager_listeners_present, Hinv.
  - apply ConnectToMuse_listeners_present, Hinv.
  - apply DisconnectMuse_listeners_present, Hinv.
  - apply StopMuseManager_listeners_present, Hinv.
Qed.

Section Reachability.
Context `{MuseDataPacketType}.

(** The listener adapters only read the globals. *)
Lemma deliver_globals (ev : SdkEvent) (w : World) :
  globals (deliver ev w) = globals w.
Proof.
  destruct ev as [|p m|p m|p m]; cbn [deliver]; unfold after.
  - unfold muse_list_changed, manager_get_muses. unfold_run.
    destruct w as [[gm c1 c2 c3 cur gl gcl gdl] s n t]; cbn.
    run_cases; reflexivity.
  - unfold receive_muse_connection_packet, muse_get_name. unfold_run.
    destruct w as [[gm c1 c2 c3 cur gl gcl gdl] s n t]; cbn.
    run_cases; reflexivity.
  - unfold receive_muse_data_packet, fill_data_buffer. unfold_run.
    destruct w as [[gm c1 c2 c3 cur gl gcl gdl] s n t]; cbn.
    destruct c3; [|reflexivity]. cbn.
    destruct (packet_type p =? ACCELEROMETER); [reflexivity|].
    destruct (packet_type p =? BATTERY); [reflexivity|].
    destruct (packet_type p =? EEG); reflexivity.
  - unfold receive_muse_artifact_packet. unfold_run.
    destruct w as [[gm c1 c2 c3 cur gl gcl gdl] s n t]; cbn.
    destruct c3; reflexivity.
Qed.

Lemma reachable_listeners_present (w : World) :
  reachable w -> listeners_present (globals w).
Proof.
  induction 1 as [s n|w op _ IH|w ev _ IH|w s _ IH].
  - apply listeners_present_start.
  - apply boundary_op_listeners_present, IH.
  - rewrite deliver_globals. exact IH.
  - exact IH.
Qed.

Lemma RegisterDataListener_false (ty : Z) (w : World) :
  outcome (RegisterDataListener ty) w = Returned false ->
  g_currentMuse (globals w) = None
  \/ g_dataListener (globals w) = None
  \/ exists m, g_currentMuse (globals w) = Some m
               /\ failing (sdk w)
                    (register_data_listener m (g_dataListener (globals w)) ty)
                  <> None.
Proof.
  unfold RegisterDataListener, muse_register_data_listener. unfold_run.
  destruct w as [[gm c1 c2 c3 cur gl gcl gdl] s n t]; cbn.
  destruct cur as [m|]; [|left; reflexivity].
  destruct gdl as [dl|]; [|right; left; reflexivity].
  cbn. intros Hrun. right. right. exists m. split; [reflexivity|].
  revert Hrun.
  destruct (failing s (register_data_listener m (Some dl) ty));
    cbn; intros Hrun; [discriminate|discriminate Hrun].
Qed.

Lemma UnregisterDataListener_false (ty : Z) (w : World) :
  outcome (UnregisterDataListener ty) w = Returned false ->
  g_currentMuse (globals w) = None
  \/ g_dataListener (globals w) = None
  \/ exists m, g_currentMuse (globals w) = Some m
               /\ failing (sdk w)
                    (unregister_data_listener m (g_dataListener (globals w))
                       ty)
                  <> None.
Proof.
  unfold UnregisterDataListener, muse_unregister_data_listener. unfold_run.
  destruct w as [[gm c1 c2 c3 cur gl gcl gdl] s n t]; cbn.
  destruct cur as [m|]; [|left; reflexivity].
  destruct gdl as [dl|]; [|right; left; reflexivity].
  cbn. intros Hrun. right. right. exists m. split; [reflexivity|].
  revert Hrun.
  destruct (failing s (unregister_data_listener m (Some dl) ty));
    cbn; intros Hrun; [discriminate|discriminate Hrun].
Qed.

(** C10.  At process start no connection is active; every boundary
    operation keeps the invariant that an active connection comes with
    both the connection-listener and the data-listener adapter; so it
    holds in every reachable state.  There a missing data-listener
    adapter means that no connection is active, and
    register/unregister_data_interest return false only when no
    connection is active or when the SDK call itself throws. *)
Theorem listeners_accompany_active_connection :
  (forall s n, listeners_present (globals (start_world s n)))
  /\ (forall op w,
        listeners_present (globals w) ->
        listeners_present (globals (boundary_op op w)))
  /\ (forall w, reachable w -> listeners_present (globals w))
  /\ (forall w ty,
        reachable w ->
        (g_dataListener (globals w) = None ->
         g_currentMuse (globals w) = None)
        /\ (outcome (RegisterDataListener ty) w = Returned false ->
            g_currentMuse (globals w) = None
            \/ exists m,
                 g_currentMuse (globals w) = Some m
                 /\ failing (sdk w)
                      (register_data_listener m
                         (g_dataListener (globals w)) ty) <> None)
        /\ (outcome (UnregisterDataListener ty) w = Returned false ->
            g_currentMuse (globals w) = None
            \/ exists m,
                 g_currentMuse (globals w) = Some m
                 /\ failing (sdk w)
                      (unregister_data_listener m
                         (g_dataListener (globals w)) ty) <> None)).
Proof.
  split; [apply listeners_present_start|].
  split; [apply boundary_op_listeners_present|].
  split; [apply reachable_listeners_present|].
  intros w ty Hreach.
  pose proof (reachable_listeners_present w Hreach) as Hinv.
  assert (Hdl : g_dataListener (globals w) = None ->
                g_currentMuse (globals w) = None).
  { intros Hnone.
    destruct (g_currentMuse (globals w)) as [m|] eqn:Hcur; [|reflexivity].
    assert (Hne : g_currentMuse (globals w) <> None)
      by (rewrite Hcur; discriminate).
    destruct (Hinv Hne) as (_ & Hdata). contradiction. }
  split; [exact Hdl|]. split; intros Hfalse.
  - destruct (RegisterDataListener_false ty w Hfalse)
      as [Hcur|[Hnone|Hthrow]]; auto.
  - destruct (UnregisterDataListener_false ty w Hfalse)
      as [Hcur|[Hnone|Hthrow]]; auto.
Qed.
End Reachability.

Lemma example_worlds_reachable :
  @reachable example_ordinals world_ready
  /\ @reachable example_ordinals world_connected_A.
Proof.
  assert (Hready : @reachable example_ordinals world_ready).
  { unfold world_ready.
    apply (reach_op _ (OpSetDataReceivedCallback (Some 3%nat))).
    apply (reach_op _ (OpSetConnectionStateChangedCallback (Some 2%nat))).
    apply (reach_op _ (OpSetMuseListChangedCallback (Some 1%nat))).
    apply (reach_op _ OpStartListening).
    apply (reach_op _ OpGetMuseManager).
    apply reach_start. }
  split; [exact Hready|].
  apply (reach_op _ (OpConnectToMuse "Muse-A")). exact Hready.
Qed.

Lemma listeners_accompany_active_connection_witness :
  listeners_present (globals world_connected_A)
  /\ listeners_present (globals (boundary_op OpStopMuseManager
                                   world_connected_A))
  /\ g_currentMuse (globals world_ready) = None.
Proof.
  destruct (@listeners_accompany_active_connection example_ordinals)
    as (_ & Hop & Hreach & Huse).
  destruct example_worlds_reachable as (Hready & Hconnected).
  split; [exact (Hreach _ Hconnected)|].
  split; [exact (Hop OpStopMuseManager _ (Hreach _ Hconnected))|].
  exact (proj1 (Huse world_ready 0 Hready) eq_refl).
Defined.

(** * Further properties of the entry points and adapters *)

(** ** [GetMuseManager] *)

(** X1.  Initialising an initialised session hands back the same handle and
    does nothing else: no SDK call, no second list listener.  In
    particular a second [GetMuseManager] after one that returned a handle
    returns that handle and leaves the world as it is. *)
Theorem initialize_is_idempotent (w : World) (p : ManagerPtr) :
  (g_manager (globals w) = Some p ->
     GetMuseManager w = (Returned (Some p), w))
  /\ (outcome GetMuseManager w = Returned (Some p) ->
        g_manager (globals (after GetMuseManager w)) = Some p
        /\ GetMuseManager (after GetMuseManager w)
           = (Returned (Some p), after GetMuseManager w)).
Proof.
  assert (Hinit : forall w', g_manager (globals w') = Some p ->
                             GetMuseManager w' = (Returned (Some p), w')).
  { intros w' Hman. unfold GetMuseManager. unfold_run. rewrite Hman.
    reflexivity. }
  split; [apply Hinit|].
  intros Hret.
  assert (Hman : g_manager (globals (after GetMuseManager w)) = Some p).
  { revert Hret.
    unfold GetMuseManager, MuseManagerWindows_get_instance,
      manager_set_muse_listener.
    unfold_run.
    destruct w as [[gm c1 c2 c3 cur gl gcl gdl] s n t]; cbn.
    destruct gm as [q|]; cbn; [intros Hq; inversion Hq; reflexivity|].
    destruct (failing s get_instance) as [[]|]; cbn; try discriminate.
    destruct (instance s) as [q|]; cbn; [|discriminate].
    destruct gl as [l|]; cbn;
      match goal with
      | |- context [failing s ?c] => destruct (failing s c) as [[]|]
      end; cbn; try discriminate;
      intros Hq; inversion Hq; reflexivity. }
  split; [exact Hman|]. apply Hinit, Hman.
Qed.

Lemma initialize_is_idempotent_witness :
  GetMuseManager world_ready = (Returned (Some 7%nat), world_ready)
  /\ GetMuseManager
       (after GetMuseManager (start_world (two_headbands never_failing) 100))
     = (Returned (Some 7%nat),
        after GetMuseManager (start_world (two_headbands never_failing) 100)).
Proof.
  split.
  - exact (proj1 (initialize_is_idempotent world_ready 7%nat) eq_refl).
  - exact (proj2 (proj2 (initialize_is_idempotent
                           (start_world (two_headbands never_failing) 100)
                           7%nat) eq_refl)).
Defined.

(** X2.  The first initialisation.  It never lets an exception out.  When it
    returns a handle, that handle is the SDK's manager instance and is now
    in [g_manager]; the list listener adapter exists (the one already
    there, if there was one) and is the manager's listener; the SDK calls
    made are [get_instance] and one [set_muse_listener].  When the SDK has
    no instance, it returns null after [get_instance] alone, and creates
    and installs no adapter. *)
Theorem first_initialize_installs_list_listener (w : World) :
  g_manager (globals w) = None ->
  (exists r, outcome GetMuseManager w = Returned r)
  /\ (forall p,
        outcome GetMuseManager w = Returned (Some p) ->
        instance (sdk w) = Some p
        /\ g_manager (globals (after GetMuseManager w)) = Some p
        /\ exists l,
             g_listener (globals (after GetMuseManager w)) = Some l
             /\ (forall l0, g_listener (globals w) = Some l0 -> l = l0)
             /\ muse_listener (sdk (after GetMuseManager w)) = Some l
             /\ new_events GetMuseManager w
                = [Call get_instance; Call (set_muse_listener (Some l))])
  /\ (failing (sdk w) get_instance = None ->
      instance (sdk w) = None ->
        outcome GetMuseManager w = Returned None
        /\ globals (after GetMuseManager w) = globals w
        /\ sdk (after GetMuseManager w) = sdk w
        /\ next_object (after GetMuseManager w) = next_object w
        /\ new_events GetMuseManager w = [Call get_instance]).
Proof.
  unfold GetMuseManager, MuseManagerWindows_get_instance,
    manager_set_muse_listener.
  unfold_run.
  destruct w as [[gm c1 c2 c3 cur gl gcl gdl] s n t]; cbn.
  intros ->. cbn. split; [|split].
  - destruct (failing s get_instance) as [[]|]; cbn;
      try (eexists; reflexivity).
    destruct (instance s) as [q|]; cbn; [|eexists; reflexivity].
    destruct gl as [l|]; cbn;
      match goal with
      | |- context [failing s ?c] => destruct (failing s c) as [[]|]
      end; cbn; eexists; reflexivity.
  - intros p.
    destruct (failing s get_instance) as [[]|]; cbn; try discriminate.
    destruct (instance s) as [q|]; cbn; [|discriminate].
    destruct gl as [l|]; cbn;
      match goal with
      | |- context [failing s ?c] => destruct (failing s c) as [[]|]
      end; cbn; try discriminate;
      intros Hq; inversion Hq; subst;
      (split; [reflexivity|]); (split; [reflexivity|]);
      eexists; (split; [reflexivity|]);
      (split; [intros l0 Hl0; inversion Hl0; reflexivity|]);
      (split; [reflexivity|]);
      rewrite <- app_assoc; apply drop_old_events.
  - intros Hget Hinst. rewrite Hget. cbn. rewrite Hinst. cbn.
    repeat split. apply drop_old_events.
Qed.

Lemma first_initialize_installs_list_listener_witness :
  (instance (sdk (start_world (two_headbands never_failing) 100))
     = Some 7%nat
   /\ g_manager (globals (after GetMuseManager
                            (start_world (two_headbands never_failing) 100)))
      = Some 7%nat)
  /\ (outcome GetMuseManager (start_world no_manager_sdk 100) = Returned None
      /\ new_events GetMuseManager (start_world no_manager_sdk 100)
         = [Call get_instance]).
Proof.
  split.
  - destruct (first_initialize_installs_list_listener
                (start_world (two_headbands never_failing) 100) eq_refl)
      as (_ & Hsome & _).
    destruct (Hsome 7%nat eq_refl) as (Hinst & Hman & _).
    split; assumption.
  - destruct (first_initialize_installs_list_listener
                (start_world no_manager_sdk 100) eq_refl)
      as (_ & _ & Hnone).
    destruct (Hnone eq_refl eq_refl) as (Hout & _ & _ & _ & Hnew).
    split; assumption.
Defined.

Lemma GetMuseManager_initialized (w : World) (p : ManagerPtr) :
  g_manager (globals w) = Some p -> GetMuseManager w = (Returned (Some p), w).
Proof.
  intros Hman. unfold GetMuseManager. unfold_run. rewrite Hman. reflexivity.
Qed.

(** X3.  An exception while the list listener is installed.  A std::exception
    from [set_muse_listener] is handled by the inner handler, which resets
    [g_manager]: the call returns null and the session is uninitialised.
    Any other exception passes the inner handler and is caught by the outer
    one, which only returns null: the manager handle stays in [g_manager],
    so a later [GetMuseManager] returns it without installing a listener. *)
Theorem initialize_rolls_back_on_std_exception_only (w : World)
    (p : ManagerPtr) :
  g_manager (globals w) = None ->
  failing (sdk w) get_instance = None ->
  instance (sdk w) = Some p ->
  ((forall l, failing (sdk w) (set_muse_listener l) = Some std_exception) ->
     outcome GetMuseManager w = Returned None
     /\ g_manager (globals (after GetMuseManager w)) = None)
  /\ ((forall l, failing (sdk w) (set_muse_listener l)
                 = Some unknown_exception) ->
        outcome GetMuseManager w = Returned None
        /\ g_manager (globals (after GetMuseManager w)) = Some p
        /\ muse_listener (sdk (after GetMuseManager w))
           = muse_listener (sdk w)
        /\ GetMuseManager (after GetMuseManager w)
           = (Returned (Some p), after GetMuseManager w)).
Proof.
  intros Hman Hget Hinst.
  assert (Hstd : (forall l, failing (sdk w) (set_muse_listener l)
                            = Some std_exception) ->
                 outcome GetMuseManager w = Returned None
                 /\ g_manager (globals (after GetMuseManager w)) = None).
  { revert Hman Hget Hinst.
    unfold GetMuseManager, MuseManagerWindows_get_instance,
      manager_set_muse_listener.
    unfold_run.
    destruct w as [[gm c1 c2 c3 cur gl gcl gdl] s n t]; cbn.
    intros -> Hget Hinst Hthrow. cbn. rewrite Hget. cbn. rewrite Hinst.
    destruct gl as [l|]; cbn; rewrite Hthrow; cbn; split; reflexivity. }
  assert (Hother : (forall l, failing (sdk w) (set_muse_listener l)
                              = Some unknown_exception) ->
                   outcome GetMuseManager w = Returned None
                   /\ g_manager (globals (after GetMuseManager w)) = Some p
                   /\ muse_listener (sdk (after GetMuseManager w))
                      = muse_listener (sdk w)).
  { revert Hman Hget Hinst.
    unfold GetMuseManager, MuseManagerWindows_get_instance,
      manager_set_muse_listener.
    unfold_run.
    destruct w as [[gm c1 c2 c3 cur gl gcl gdl] s n t]; cbn.
    intros -> Hget Hinst Hthrow. cbn. rewrite Hget. cbn. rewrite Hinst.
    destruct gl as [l|]; cbn; rewrite Hthrow; cbn; repeat split. }
  split; [exact Hstd|].
  intros Hthrow. destruct (Hother Hthrow) as (Hout & Hkept & Hlistener).
  repeat split; try assumption.
  apply GetMuseManager_initialized, Hkept.
Qed.

Lemma initialize_rolls_back_on_std_exception_only_witness :
  (let w := start_world (two_headbands (failing_set_listener std_exception))
                        100 in
   outcome GetMuseManager w = Returned None
   /\ g_manager (globals (after GetMuseManager w)) = None)
  /\ (let w := start_world
                 (two_headbands (failing_set_listener unknown_exception))
                 100 in
      outcome GetMuseManager w = Returned None
      /\ g_manager (globals (after GetMuseManager w)) = Some 7%nat).
Proof.
  split; intros w.
  - exact (proj1 (initialize_rolls_back_on_std_exception_only w 7%nat
                    eq_refl eq_refl eq_refl) (fun _ => eq_refl)).
  - destruct (proj2 (initialize_rolls_back_on_std_exception_only w 7%nat
                       eq_refl eq_refl eq_refl) (fun _ => eq_refl))
      as (Hout & Hman & _).
    split; assumption.
Defined.

(** ** Discovery: [StartListening] and [StopListening] *)

Lemma StartListening_run (w : World) :
  StartListening w =
    match g_manager (globals w) with
    | None => (Returned false, w)
    | Some _ =>
        match failing (sdk w) start_listening with
        | Some _ => (Returned false, record_call start_listening w)
        | None =>
            (Returned true,
             {| globals := globals w; sdk := set_listening true (sdk w);
                next_object := next_object w;
                trace := trace w ++ [Call start_listening] |})
        end
    end.
Proof.
  unfold StartListening, manager_start_listening, record_call. unfold_run.
  destruct (g_manager (globals w)); [|reflexivity].
  destruct (failing (sdk w) start_listening) as [[]|]; reflexivity.
Qed.

Lemma StopListening_run (w : World) :
  StopListening w =
    match g_manager (globals w) with
    | None => (Returned tt, w)
    | Some _ =>
        match failing (sdk w) stop_listening with
        | Some _ => (Returned tt, record_call stop_listening w)
        | None =>
            (Returned tt,
             {| globals := globals w; sdk := set_listening false (sdk w);
                next_object := next_object w;
                trace := trace w ++ [Call stop_listening] |})
        end
    end.
Proof.
  unfold StopListening, manager_stop_listening, record_call. unfold_run.
  destruct (g_manager (globals w)); [|reflexivity].
  destruct (failing (sdk w) stop_listening) as [[]|]; reflexivity.
Qed.

(** X4.  start_discovery returns true exactly when the session is initialised
    and the SDK's [start_listening] does not throw.  Uninitialised, it
    returns false without touching anything or calling the SDK.  On
    success discovery is on, and issuing it again succeeds again and
    leaves discovery on.  It never changes a global, the snapshot or a
    device. *)
Theorem start_discovery_needs_manager (w : World) :
  (outcome StartListening w = Returned true <->
     g_manager (globals w) <> None
     /\ failing (sdk w) start_listening = None)
  /\ (exists r, outcome StartListening w = Returned r)
  /\ (g_manager (globals w) = None -> StartListening w = (Returned false, w))
  /\ (outcome StartListening w = Returned true ->
        listening (sdk (after StartListening w)) = true
        /\ new_events StartListening w = [Call start_listening]
        /\ outcome StartListening (after StartListening w) = Returned true
        /\ listening (sdk (after StartListening (after StartListening w)))
           = true)
  /\ globals (after StartListening w) = globals w
  /\ muses (sdk (after StartListening w)) = muses (sdk w)
  /\ devices (sdk (after StartListening w)) = devices (sdk w).
Proof.
  unfold outcome, new_events, after. rewrite StartListening_run.
  destruct (g_manager (globals w)) as [p|] eqn:Hman.
  - destruct (failing (sdk w) start_listening) as [e|] eqn:Hfail; cbn.
    + split; [split; [discriminate|intros (_ & Hnone); discriminate]|].
      split; [eexists; reflexivity|]. split; [discriminate|].
      split; [discriminate|]. repeat split.
    + split; [split; [intros _; split; [discriminate|reflexivity]
                     |reflexivity]|].
      split; [eexists; reflexivity|]. split; [discriminate|].
      split; [|repeat split].
      intros _. rewrite StartListening_run. cbn. rewrite Hman, Hfail. cbn.
      split; [reflexivity|]. split; [apply drop_old_events|].
      split; reflexivity.
  - cbn. split; [split; [discriminate|intros (Hne & _); contradiction]|].
    split; [eexists; reflexivity|]. split; [reflexivity|].
    split; [discriminate|]. repeat split.
Qed.

Lemma start_discovery_needs_manager_witness :
  (let w := after GetMuseManager
              (start_world (two_headbands never_failing) 100) in
   outcome StartListening w = Returned true
   /\ listening (sdk (after StartListening w)) = true
   /\ outcome StartListening (after StartListening w) = Returned true)
  /\ StartListening (start_world (two_headbands never_failing) 100)
     = (Returned false, start_world (two_headbands never_failing) 100).
Proof.
  split.
  - intros w.
    destruct (start_discovery_needs_manager w)
      as (Hiff & _ & _ & Hon & _).
    assert (Htrue : outcome StartListening w = Returned true).
    { apply Hiff. split; [discriminate|reflexivity]. }
    destruct (Hon Htrue) as (Hl & _ & Hagain & _).
    split; [exact Htrue|]. split; assumption.
  - apply (proj1 (proj2 (proj2 (start_discovery_needs_manager
                                  (start_world (two_headbands never_failing)
                                               100))))).
    reflexivity.
Defined.

(** X5.  stop_discovery never reports anything and never lets an exception
    out.  Uninitialised it does nothing at all; otherwise it makes the one
    SDK call [stop_listening].  When that completes discovery is off; when
    it throws, the failure is swallowed and discovery is as it was.  It
    never changes a global, the snapshot or a device, so an active
    connection survives it; and stopping after a successful start leaves
    discovery off. *)
Theorem stop_discovery_is_silent (w : World) :
  outcome StopListening w = Returned tt
  /\ (g_manager (globals w) = None -> StopListening w = (Returned tt, w))
  /\ (g_manager (globals w) <> None ->
        new_events StopListening w = [Call stop_listening])
  /\ (g_manager (globals w) <> None ->
      failing (sdk w) stop_listening = None ->
        listening (sdk (after StopListening w)) = false)
  /\ (failing (sdk w) stop_listening <> None ->
        listening (sdk (after StopListening w)) = listening (sdk w))
  /\ globals (after StopListening w) = globals w
  /\ muses (sdk (after StopListening w)) = muses (sdk w)
  /\ devices (sdk (after StopListening w)) = devices (sdk w)
  /\ (outcome StartListening w = Returned true ->
      failing (sdk w) stop_listening = None ->
        listening (sdk (after StopListening (after StartListening w)))
        = false).
Proof.
  unfold outcome, new_events, after. rewrite StopListening_run.
  assert (Hcompose :
            (StartListening w).1 = Returned true ->
            failing (sdk w) stop_listening = None ->
            listening (sdk (StopListening (StartListening w).2).2) = false).
  { rewrite StartListening_run.
    destruct (g_manager (globals w)) as [p|] eqn:Hman; [|discriminate].
    destruct (failing (sdk w) start_listening); [discriminate|].
    cbn. intros _ Hstop. rewrite StopListening_run. cbn.
    rewrite Hman, Hstop. reflexivity. }
  destruct (g_manager (globals w)) as [p|] eqn:Hman.
  - destruct (failing (sdk w) stop_listening) as [e|] eqn:Hfail; cbn.
    + repeat split; try discriminate; try exact Hcompose;
        try (intros; apply drop_old_events).
    + repeat split; try discriminate; try exact Hcompose;
        try contradiction; try (intros; apply drop_old_events).
  - cbn. repeat split; try contradiction; try exact Hcompose.
Qed.

Lemma stop_discovery_is_silent_witness :
  new_events StopListening world_connected_A = [Call stop_listening]
  /\ listening (sdk (after StopListening world_connected_A)) = false
  /\ listening (sdk (after StopListening
                       (set_failing failing_stop_listening
                                    world_connected_A))) = true
  /\ StopListening (start_world (two_headbands never_failing) 100)
     = (Returned tt, start_world (two_headbands never_failing) 100).
Proof.
  destruct (stop_discovery_is_silent world_connected_A)
    as (_ & _ & Hcall & Hoff & _).
  split; [apply Hcall; discriminate|].
  split; [apply Hoff; [discriminate|reflexivity]|].
  split.
  - rewrite (proj1 (proj2 (proj2 (proj2 (proj2
               (stop_discovery_is_silent
                  (set_failing failing_stop_listening world_connected_A))))))).
    + reflexivity.
    + discriminate.
  - apply (proj1 (proj2 (stop_discovery_is_silent
                           (start_world (two_headbands never_failing) 100)))).
    reflexivity.
Defined.

(** ** Enumeration: [GetMuseCount] and [GetMuseName] *)

Lemma GetMuseName_frame (index : Z) (w : World) :
  globals (after (GetMuseName index) w) = globals w
  /\ sdk (after (GetMuseName index) w) = sdk w
  /\ next_object (after (GetMuseName index) w) = next_object w.
Proof.
  unfold after. rewrite GetMuseName_run.
  repeat match goal with
         | |- context [match ?x with _ => _ end] => destruct x
         end; repeat split.
Qed.

(** X6.  device_count always returns a number and changes neither the globals
    nor the SDK.  It is 0 when the session is uninitialised or fetching
    the snapshot throws, and otherwise the number of devices in the
    snapshot (as long as that fits an [int]). *)
Theorem device_count_is_snapshot_size (w : World) :
  (exists n, outcome GetMuseCount w = Returned n)
  /\ (g_manager (globals w) = None \/ failing (sdk w) get_muses <> None ->
        outcome GetMuseCount w = Returned 0)
  /\ (g_manager (globals w) <> None ->
      failing (sdk w) get_muses = None ->
      Z.of_nat (length (muses (sdk w))) < 2 ^ 31 ->
        outcome GetMuseCount w = Returned (Z.of_nat (length (muses (sdk w)))))
  /\ globals (after GetMuseCount w) = globals w
  /\ sdk (after GetMuseCount w) = sdk w
  /\ next_object (after GetMuseCount w) = next_object w.
Proof.
  unfold outcome, after. rewrite GetMuseCount_run.
  destruct (g_manager (globals w)) as [p|].
  - destruct (failing (sdk w) get_muses) as [e|]; cbn.
    + split; [eexists; reflexivity|]. split; [reflexivity|].
      split; [discriminate|]. repeat split.
    + split; [eexists; reflexivity|].
      split; [intros [Hnone|Hthrow]; [discriminate|contradiction]|].
      split; [|repeat split].
      intros _ _ Hfits. rewrite int_of_size_small by exact Hfits.
      reflexivity.
  - cbn. split; [eexists; reflexivity|]. split; [reflexivity|].
    split; [contradiction|]. repeat split.
Qed.

Lemma device_count_is_snapshot_size_witness :
  outcome GetMuseCount world_ready = Returned 2
  /\ outcome GetMuseCount (start_world (two_headbands never_failing) 100)
     = Returned 0
  /\ outcome GetMuseCount (set_failing failing_get_muses world_ready)
     = Returned 0.
Proof.
  split; [|split].
  - apply (proj1 (proj2 (proj2 (device_count_is_snapshot_size world_ready))));
      [discriminate|reflexivity|cbn; lia].
  - apply (proj1 (proj2 (device_count_is_snapshot_size
                           (start_world (two_headbands never_failing) 100)))).
    left. reflexivity.
  - apply (proj1 (proj2 (device_count_is_snapshot_size
                           (set_failing failing_get_muses world_ready)))).
    right. discriminate.
Defined.

Lemma GetMuseName_at (w : World) (index : Z) (m : MusePtr) :
  g_manager (globals w) <> None ->
  failing (sdk w) get_muses = None ->
  0 <= index ->
  muses (sdk w) !! Z.to_nat index = Some m ->
  failing (sdk w) (get_name m) = None ->
  outcome (GetMuseName index) w = Returned (dev_name (devices (sdk w) m)).
Proof.
  intros Hman Hget Hpos Hat Hname.
  assert (Hlt : (Z.to_nat index < length (muses (sdk w)))%nat)
    by (eapply lookup_lt_Some; exact Hat).
  unfold outcome. rewrite GetMuseName_run, Hget, Hat, Hname.
  destruct (g_manager (globals w)); [|contradiction].
  destruct (Z.ltb_spec index 0) as [Hneg|_]; [lia|].
  destruct (Z.leb_spec (Z.of_nat (length (muses (sdk w)))) index)
    as [Hbig|_]; [lia|].
  reflexivity.
Qed.

(** X7.  For an index inside the snapshot, device_name fetches the snapshot
    and asks exactly the device at that position for its name; it returns
    that name, or the empty string if asking throws.  Globals and SDK are
    untouched. *)
Theorem device_name_in_range (w : World) (index : Z) (m : MusePtr) :
  g_manager (globals w) <> None ->
  failing (sdk w) get_muses = None ->
  0 <= index ->
  muses (sdk w) !! Z.to_nat index = Some m ->
  (failing (sdk w) (get_name m) = None ->
     outcome (GetMuseName index) w = Returned (dev_name (devices (sdk w) m)))
  /\ (failing (sdk w) (get_name m) <> None ->
        outcome (GetMuseName index) w = Returned "")
  /\ new_events (GetMuseName index) w = [Call get_muses; Call (get_name m)]
  /\ globals (after (GetMuseName index) w) = globals w
  /\ sdk (after (GetMuseName index) w) = sdk w.
Proof.
  intros Hman Hget Hpos Hat.
  assert (Hlt : (Z.to_nat index < length (muses (sdk w)))%nat)
    by (eapply lookup_lt_Some; exact Hat).
  unfold outcome, new_events, after. rewrite GetMuseName_run, Hget, Hat.
  destruct (g_manager (globals w)); [|contradiction].
  destruct (Z.ltb_spec index 0) as [Hneg|_]; [lia|].
  destruct (Z.leb_spec (Z.of_nat (length (muses (sdk w)))) index)
    as [Hbig|_]; [lia|].
  cbn [orb].
  destruct (failing (sdk w) (get_name m)) as [e|]; cbn.
  - split; [discriminate|]. split; [reflexivity|].
    split; [|split; reflexivity].
    rewrite <- app_assoc. apply drop_old_events.
  - split; [reflexivity|]. split; [contradiction|].
    split; [|split; reflexivity].
    rewrite <- app_assoc. apply drop_old_events.
Qed.

Lemma device_name_in_range_witness :
  outcome (GetMuseName 0) world_ready = Returned "Muse-A"
  /\ outcome (GetMuseName 1) world_ready = Returned "Muse-B"
  /\ new_events (GetMuseName 1) world_ready
     = [Call get_muses; Call (get_name 1)].
Proof.
  destruct (device_name_in_range world_ready 0 0%nat)
    as (Ha & _); [discriminate|reflexivity|lia|reflexivity|].
  destruct (device_name_in_range world_ready 1 1%nat)
    as (Hb & _ & Hnew & _); [discriminate|reflexivity|lia|reflexivity|].
  split; [exact (Ha eq_refl)|]. split; [exact (Hb eq_refl)|exact Hnew].
Defined.

(** ** Connecting by an enumerated name *)

Lemma find_first_split (P : MusePtr -> bool) (l : list MusePtr) (i : nat)
    (m : MusePtr) :
  l !! i = Some m ->
  P m = true ->
  exists pre b post,
    l = pre ++ b :: post
    /\ Forall (fun p => P p = false) pre
    /\ P b = true
    /\ (length pre <= i)%nat.
Proof.
  revert i. induction l as [|x l IH]; intros i Hat Hm; [discriminate|].
  destruct (P x) eqn:Hx.
  - exists [], x, l. repeat split; [constructor|exact Hx|cbn; lia].
  - destruct i as [|i]; cbn in Hat.
    + inversion Hat; subst. congruence.
    + destruct (IH i Hat Hm) as (pre & b & post & -> & Hpre & Hb & Hlen).
      exists (x :: pre), b, post.
      repeat split; [constructor; assumption|exact Hb|cbn; lia].
Qed.

(** X8.  With an SDK that does not throw, a name obtained from device_name for
    an index inside the snapshot can be connected to: connect with that
    name returns true, and the active connection is then the first device
    of the snapshot carrying that name, which sits at that index or
    before it (before it only if an earlier device has the same name). *)
Theorem connect_by_enumerated_name (w : World) (index : Z) (m : MusePtr) :
  no_failures (sdk w) ->
  g_manager (globals w) <> None ->
  0 <= index ->
  muses (sdk w) !! Z.to_nat index = Some m ->
  exists name b pre post,
    outcome (GetMuseName index) w = Returned name
    /\ outcome (ConnectToMuse name) (after (GetMuseName index) w)
       = Returned true
    /\ g_currentMuse
         (globals (after (ConnectToMuse name) (after (GetMuseName index) w)))
       = Some b
    /\ dev_name (devices (sdk w) b) = name
    /\ muses (sdk w) = pre ++ b :: post
    /\ Forall (fun p => dev_name (devices (sdk w) p) <> name) pre
    /\ (length pre <= Z.to_nat index)%nat.
Proof.
  intros Hok Hman Hpos Hat.
  set (name := dev_name (devices (sdk w) m)).
  destruct (find_first_split
              (fun p => String.eqb (dev_name (devices (sdk w) p)) name)
              (muses (sdk w)) (Z.to_nat index) m Hat)
    as (pre & b & post & Hsplit & Hpre & Hb & Hlen).
  { apply String.eqb_refl. }
  apply String.eqb_eq in Hb.
  assert (Hpre' : Forall (fun p => dev_name (devices (sdk w) p) <> name) pre).
  { eapply Forall_impl; [exact Hpre|].
    intros p Hp. apply String.eqb_neq. exact Hp. }
  destruct (GetMuseName_frame index w) as (Hg & Hs & _).
  set (w0 := after (GetMuseName index) w) in *.
  assert (Hmatch : connect_matches name w0 b).
  { split; [rewrite Hg; exact Hman|]. split; [rewrite Hs; apply Hok|].
    exists pre, post. rewrite Hs.
    repeat split; try assumption.
    apply Forall_forall. intros p _. apply Hok. }
  destruct (ConnectToMuse_matches_run name w0 b Hmatch)
    as (w1 & (Hg1 & Hs1 & _) & Hrun).
  cbn [globals sdk record_call] in Hg1, Hs1.
  destruct (ConnectToMuse_found_succeeds b w1) as (w' & Hfound).
  { intros a _. rewrite Hs1, Hs. apply Hok. }
  { intros l. rewrite Hs1, Hs. apply Hok. }
  { rewrite Hs1, Hs. apply Hok. }
  destruct (ConnectToMuse_found_returns b true w1 w' Hfound)
    as (_ & Hcur & _).
  exists name, b, pre, post.
  split.
  { apply GetMuseName_at; try assumption; apply Hok. }
  unfold outcome, after. rewrite Hrun, Hfound. cbn [fst snd].
  repeat split; assumption.
Qed.

Lemma connect_by_enumerated_name_witness :
  exists name b pre post,
    outcome (GetMuseName 1) world_ready = Returned name
    /\ outcome (ConnectToMuse name) (after (GetMuseName 1) world_ready)
       = Returned true
    /\ g_currentMuse
         (globals (after (ConnectToMuse name)
                     (after (GetMuseName 1) world_ready)))
       = Some b
    /\ dev_name (devices (sdk world_ready) b) = name
    /\ muses (sdk world_ready) = pre ++ b :: post
    /\ Forall (fun p => dev_name (devices (sdk world_ready) p) <> name) pre
    /\ (length pre <= Z.to_nat 1)%nat.
Proof.
  apply (connect_by_enumerated_name world_ready 1 1%nat).
  - intros c. reflexivity.
  - discriminate.
  - lia.
  - reflexivity.
Defined.

(** ** Data interest: [RegisterDataListener] and [UnregisterDataListener] *)

Lemma RegisterDataListener_run (ty : Z) (w : World) :
  RegisterDataListener ty w =
    match g_currentMuse (globals w), g_dataListener (globals w) with
    | Some m, Some dl =>
        match failing (sdk w) (register_data_listener m (Some dl) ty) with
        | Some _ =>
            (Returned false,
             record_call (register_data_listener m (Some dl) ty) w)
        | None =>
            (Returned true,
             {| globals := globals w;
                sdk := update_device m (add_data_listener (Some dl) ty)
                         (sdk w);
                next_object := next_object w;
                trace := trace w ++
                         [Call (register_data_listener m (Some dl) ty)] |})
        end
    | _, _ => (Returned false, w)
    end.
Proof.
  unfold RegisterDataListener, muse_register_data_listener, record_call.
  unfold_run.
  destruct (g_currentMuse (globals w)) as [m|]; [|reflexivity].
  destruct (g_dataListener (globals w)) as [dl|]; [|reflexivity].
  destruct (failing (sdk w) _) as [[]|]; reflexivity.
Qed.

Lemma UnregisterDataListener_run (ty : Z) (w : World) :
  UnregisterDataListener ty w =
    match g_currentMuse (globals w), g_dataListener (globals w) with
    | Some m, Some dl =>
        match failing (sdk w) (unregister_data_listener m (Some dl) ty) with
        | Some _ =>
            (Returned false,
             record_call (unregister_data_listener m (Some dl) ty) w)
        | None =>
            (Returned true,
             {| globals := globals w;
                sdk := update_device m (remove_data_listener (Some dl) ty)
                         (sdk w);
                next_object := next_object w;
                trace := trace w ++
                         [Call (unregister_data_listener m (Some dl) ty)] |})
        end
    | _, _ => (Returned false, w)
    end.
Proof.
  unfold UnregisterDataListener, muse_unregister_data_listener, record_call.
  unfold_run.
  destruct (g_currentMuse (globals w)) as [m|]; [|reflexivity].
  destruct (g_dataListener (globals w)) as [dl|]; [|reflexivity].
  destruct (failing (sdk w) _) as [[]|]; reflexivity.
Qed.

(** X9.  Without an active connection (or without a data adapter) both
    register_data_interest and unregister_data_interest return false and
    do nothing: no SDK call, no change.  This is so in particular right
    after a disconnect that completed, although the data adapter is still
    allocated then. *)
Theorem data_interest_needs_connection (w : World) (ty : Z) :
  (g_currentMuse (globals w) = None \/ g_dataListener (globals w) = None ->
     RegisterDataListener ty w = (Returned false, w)
     /\ UnregisterDataListener ty w = (Returned false, w))
  /\ (forall a,
        g_currentMuse (globals w) = Some a ->
        failing (sdk w) (disconnect a) = None ->
        g_dataListener (globals (after DisconnectMuse w))
          = g_dataListener (globals w)
        /\ RegisterDataListener ty (after DisconnectMuse w)
           = (Returned false, after DisconnectMuse w)
        /\ UnregisterDataListener ty (after DisconnectMuse w)
           = (Returned false, after DisconnectMuse w)).
Proof.
  assert (Hnone : forall w',
            g_currentMuse (globals w') = None
            \/ g_dataListener (globals w') = None ->
            RegisterDataListener ty w' = (Returned false, w')
            /\ UnregisterDataListener ty w' = (Returned false, w')).
  { intros w' Hno.
    rewrite RegisterDataListener_run, UnregisterDataListener_run.
    destruct (g_currentMuse (globals w')) as [m|]; [|split; reflexivity].
    destruct (g_dataListener (globals w')) as [dl|]; [|split; reflexivity].
    destruct Hno; discriminate. }
  split; [apply Hnone|].
  intros a Hcur Hdis.
  assert (Hafter : g_currentMuse (globals (after DisconnectMuse w)) = None
                   /\ g_dataListener (globals (after DisconnectMuse w))
                      = g_dataListener (globals w)).
  { unfold after. rewrite DisconnectMuse_run, Hcur, Hdis. split; reflexivity. }
  destruct Hafter as (Hgone & Hkept).
  split; [exact Hkept|]. apply Hnone. left. exact Hgone.
Qed.

Lemma data_interest_needs_connection_witness :
  (RegisterDataListener 2 world_ready = (Returned false, world_ready)
   /\ UnregisterDataListener 2 world_ready = (Returned false, world_ready))
  /\ g_dataListener (globals (after DisconnectMuse world_connected_A))
     = Some 102%nat
  /\ RegisterDataListener 2 (after DisconnectMuse world_connected_A)
     = (Returned false, after DisconnectMuse world_connected_A).
Proof.
  destruct (data_interest_needs_connection world_ready 2) as (Hnone & _).
  destruct (data_interest_needs_connection world_connected_A 2)
    as (_ & Hafter).
  destruct (Hafter 0%nat eq_refl eq_refl) as (Hkept & Hreg & _).
  split; [apply Hnone; left; reflexivity|].
  split; [rewrite Hkept; reflexivity|exact Hreg].
Defined.

(** X10.  With an active connection [m] and the data adapter [dl],
    register_data_interest(tag) makes exactly one SDK call: it registers
    [dl] on [m] for the type code [tag], passed on as given, whatever its
    value.  It returns true if that call completes and false if it throws;
    unregister_data_interest does the same with the unregister call.
    Neither changes a global. *)
Theorem data_interest_is_one_call_on_active_device (w : World) (ty : Z)
    (m : MusePtr) (dl : ListenerPtr) :
  g_currentMuse (globals w) = Some m ->
  g_dataListener (globals w) = Some dl ->
  (new_events (RegisterDataListener ty) w
     = [Call (register_data_listener m (Some dl) ty)]
   /\ (outcome (RegisterDataListener ty) w
         = Returned (match failing (sdk w)
                             (register_data_listener m (Some dl) ty) with
                     | None => true
                     | Some _ => false
                     end))
   /\ globals (after (RegisterDataListener ty) w) = globals w)
  /\ (new_events (UnregisterDataListener ty) w
        = [Call (unregister_data_listener m (Some dl) ty)]
      /\ (outcome (UnregisterDataListener ty) w
            = Returned (match failing (sdk w)
                                (unregister_data_listener m (Some dl) ty) with
                        | None => true
                        | Some _ => false
                        end))
      /\ globals (after (UnregisterDataListener ty) w) = globals w).
Proof.
  intros Hcur Hdl. unfold outcome, new_events, after.
  rewrite RegisterDataListener_run, UnregisterDataListener_run, Hcur, Hdl.
  split.
  - destruct (failing (sdk w) (register_data_listener m (Some dl) ty)); cbn;
      (split; [apply drop_old_events|split; reflexivity]).
  - destruct (failing (sdk w) (unregister_data_listener m (Some dl) ty)); cbn;
      (split; [apply drop_old_events|split; reflexivity]).
Qed.

Lemma data_interest_is_one_call_on_active_device_witness :
  new_events (RegisterDataListener 2) world_connected_A
    = [Call (register_data_listener 0 (Some 102%nat) 2)]
  /\ outcome (RegisterDataListener 2) world_connected_A = Returned true
  /\ new_events (UnregisterDataListener (-5)) world_connected_A
     = [Call (unregister_data_listener 0 (Some 102%nat) (-5))].
Proof.
  destruct (data_interest_is_one_call_on_active_device world_connected_A 2
              0%nat 102%nat eq_refl eq_refl) as ((Hnew & Hout & _) & _).
  destruct (data_interest_is_one_call_on_active_device world_connected_A (-5)
              0%nat 102%nat eq_refl eq_refl) as (_ & (Hun & _)).
  split; [exact Hnew|]. split; [exact Hout|exact Hun].
Defined.

(** ** The list-changed and connection-state adapters *)

Lemma muse_list_changed_run (w : World) :
  muse_list_changed w =
    match g_manager (globals w) with
    | None => (Returned tt, w)
    | Some _ =>
        match failing (sdk w) get_muses with
        | Some e => (Thrown e, record_call get_muses w)
        | None =>
            match g_museListChangedCallback (globals w) with
            | Some f =>
                (Returned tt,
                 {| globals := globals w; sdk := sdk w;
                    next_object := next_object w;
                    trace := trace w ++
                             [Call get_muses; Invoke (MuseListChanged f)] |})
            | None => (Returned tt, record_call get_muses w)
            end
        end
    end.
Proof.
  unfold muse_list_changed, manager_get_muses, record_call. unfold_run.
  destruct (g_manager (globals w)); [|reflexivity].
  destruct (failing (sdk w) get_muses); [reflexivity|]. cbn.
  destruct (g_museListChangedCallback (globals w)); [|reflexivity].
  cbn. rewrite <- app_assoc. reflexivity.
Qed.

Lemma receive_muse_connection_packet_run (p : MuseConnectionPacket)
    (m : MusePtr) (w : World) :
  receive_muse_connection_packet p m w =
    match failing (sdk w) (get_name m) with
    | Some e => (Thrown e, record_call (get_name m) w)
    | None =>
        match g_connectionStateChangedCallback (globals w) with
        | Some f =>
            (Returned tt,
             {| globals := globals w; sdk := sdk w;
                next_object := next_object w;
                trace := trace w ++
                         [Call (get_name m);
                          Invoke (ConnectionStateChanged f
                                    (current_connection_state p)
                                    (dev_name (devices (sdk w) m)))] |})
        | None => (Returned tt, record_call (get_name m) w)
        end
    end.
Proof.
  unfold receive_muse_connection_packet, muse_get_name, record_call.
  unfold_run.
  destruct (failing (sdk w) (get_name m)); [reflexivity|]. cbn.
  destruct (g_connectionStateChangedCallback (globals w)); [|reflexivity].
  cbn. rewrite <- app_assoc. reflexivity.
Qed.

(** X11.  The list-changed adapter.  With no manager it does nothing at all.
    Otherwise it first fetches the snapshot; if that throws, the exception
    leaves the adapter (which has no handler) and the caller is not
    signalled; if it completes, the caller's list-changed function is
    called once, without arguments, when the slot is set, and not at all
    when it is unset. *)
Theorem list_changed_signals_after_fetching_snapshot (w : World) :
  (g_manager (globals w) = None -> muse_list_changed w = (Returned tt, w))
  /\ (g_manager (globals w) <> None ->
      forall e, failing (sdk w) get_muses = Some e ->
        outcome muse_list_changed w = Thrown e
        /\ new_events muse_list_changed w = [Call get_muses])
  /\ (g_manager (globals w) <> None ->
      failing (sdk w) get_muses = None ->
        outcome muse_list_changed w = Returned tt
        /\ new_events muse_list_changed w
           = Call get_muses ::
             match g_museListChangedCallback (globals w) with
             | Some f => [Invoke (MuseListChanged f)]
             | None => []
             end).
Proof.
  unfold outcome, new_events, after. rewrite muse_list_changed_run.
  split; [intros ->; reflexivity|].
  split.
  - intros Hman e ->. destruct (g_manager (globals w)); [|contradiction].
    split; [reflexivity|apply drop_old_events].
  - intros Hman ->. destruct (g_manager (globals w)); [|contradiction].
    destruct (g_museListChangedCallback (globals w));
      (split; [reflexivity|apply drop_old_events]).
Qed.

Lemma list_changed_signals_after_fetching_snapshot_witness :
  new_events muse_list_changed world_ready
    = [Call get_muses; Invoke (MuseListChanged 1)]
  /\ outcome muse_list_changed (set_failing failing_get_muses world_ready)
     = Thrown unknown_exception
  /\ muse_list_changed (start_world (two_headbands never_failing) 100)
     = (Returned tt, start_world (two_headbands never_failing) 100).
Proof.
  destruct (list_changed_signals_after_fetching_snapshot world_ready)
    as (_ & _ & Hok).
  destruct (list_changed_signals_after_fetching_snapshot
              (set_failing failing_get_muses world_ready))
    as (_ & Hthrow & _).
  split; [apply Hok; [discriminate|reflexivity]|].
  split; [apply (Hthrow ltac:(discriminate) unknown_exception eq_refl)|].
  apply (proj1 (list_changed_signals_after_fetching_snapshot
                  (start_world (two_headbands never_failing) 100))).
  reflexivity.
Defined.

(** X12.  The connection-state adapter.  It asks the device for its name before
    looking at the slot, so the SDK call is made even when nobody
    listens.  If that throws, the exception leaves the adapter and the
    caller is not called.  Otherwise, with the slot set, the caller's
    function is called once with the packet's state code as it is and the
    device's name; with the slot unset nothing more happens. *)
Theorem connection_state_is_forwarded_verbatim (w : World)
    (p : MuseConnectionPacket) (m : MusePtr) :
  (forall e, failing (sdk w) (get_name m) = Some e ->
     outcome (receive_muse_connection_packet p m) w = Thrown e
     /\ new_events (receive_muse_connection_packet p m) w
        = [Call (get_name m)])
  /\ (failing (sdk w) (get_name m) = None ->
        outcome (receive_muse_connection_packet p m) w = Returned tt
        /\ new_events (receive_muse_connection_packet p m) w
           = Call (get_name m) ::
             match g_connectionStateChangedCallback (globals w) with
             | Some f =>
                 [Invoke (ConnectionStateChanged f
                            (current_connection_state p)
                            (dev_name (devices (sdk w) m)))]
             | None => []
             end).
Proof.
  unfold outcome, new_events, after.
  rewrite receive_muse_connection_packet_run.
  split.
  - intros e ->. split; [reflexivity|apply drop_old_events].
  - intros ->. destruct (g_connectionStateChangedCallback (globals w));
      (split; [reflexivity|apply drop_old_events]).
Qed.

Lemma connection_state_is_forwarded_verbatim_witness :
  new_events (receive_muse_connection_packet connection_packet 0%nat)
             world_connected_A
    = [Call (get_name 0); Invoke (ConnectionStateChanged 2 2 "Muse-A")]
  /\ new_events (receive_muse_connection_packet connection_packet 0%nat)
                (after (SetConnectionStateChangedCallback None)
                       world_connected_A)
     = [Call (get_name 0)].
Proof.
  split.
  - apply (proj2 (connection_state_is_forwarded_verbatim world_connected_A
                    connection_packet 0%nat)).
    reflexivity.
  - apply (proj2 (connection_state_is_forwarded_verbatim
                    (after (SetConnectionStateChangedCallback None)
                           world_connected_A)
                    connection_packet 0%nat)).
    reflexivity.
Defined.

(** ** The adapters and the callback slots *)

Section Adapters.
Context `{MuseDataPacketType}.

(** With the data slot set to [f], a data packet leads to exactly one
    invocation, through [f], with the packet's own type and length 6. *)
Lemma receive_muse_data_packet_invokes (p : MuseDataPacket) (m : MusePtr)
    (w : World) (f : CallbackPtr) :
  g_dataReceivedCallback (globals w) = Some f ->
  exists buf new,
    invocations new = [DataReceived f (packet_type p) buf 6]
    /\ receive_muse_data_packet p m w =
         (Returned tt,
          {| globals := globals w; sdk := sdk w;
             next_object := next_object w; trace := trace w ++ new |}).
Proof.
  intros Hcb. unfold receive_muse_data_packet, fill_data_buffer.
  unfold_run. cbn. rewrite Hcb.
  destruct (packet_type p =? ACCELEROMETER);
    [|destruct (packet_type p =? BATTERY);
      [|destruct (packet_type p =? EEG)]];
    cbn; rewrite <- ?app_assoc; cbn;
    eexists _, _; (split; [|reflexivity]); reflexivity.
Qed.

Lemma receive_muse_artifact_packet_invokes (a : MuseArtifactPacket)
    (m : MusePtr) (w : World) (f : CallbackPtr) :
  g_dataReceivedCallback (globals w) = Some f ->
  exists buf new,
    invocations new = [DataReceived f ARTIFACTS buf 6]
    /\ receive_muse_artifact_packet a m w =
         (Returned tt,
          {| globals := globals w; sdk := sdk w;
             next_object := next_object w; trace := trace w ++ new |}).
Proof.
  intros Hcb. unfold receive_muse_artifact_packet. unfold_run. cbn.
  rewrite Hcb. cbn. rewrite <- ?app_assoc. cbn.
  eexists _, _; (split; [|reflexivity]); reflexivity.
Qed.

(** X13.  The listener adapters only read: whatever event is delivered, and
    whether or not the adapter throws, the globals, the SDK state and the
    allocator are as before; the trace is only extended. *)
Theorem adapters_are_read_only (ev : SdkEvent) (w : World) :
  globals (deliver ev w) = globals w
  /\ sdk (deliver ev w) = sdk w
  /\ next_object (deliver ev w) = next_object w
  /\ exists new, trace (deliver ev w) = trace w ++ new.
Proof.
  destruct ev as [|p m|p m|a m]; cbn [deliver]; unfold after.
  - rewrite muse_list_changed_run.
    destruct (g_manager (globals w));
      [destruct (failing (sdk w) get_muses);
       [|destruct (g_museListChangedCallback (globals w))]|];
      cbn; repeat split; try (eexists; reflexivity).
    exists []. symmetry. apply app_nil_r.
  - rewrite receive_muse_connection_packet_run.
    destruct (failing (sdk w) (get_name m));
      [|destruct (g_connectionStateChangedCallback (globals w))];
      cbn; repeat split; eexists; reflexivity.
  - destruct (g_dataReceivedCallback (globals w)) as [f|] eqn:Hcb.
    + destruct (receive_muse_data_packet_invokes p m w f Hcb)
        as (buf & new & _ & ->).
      cbn. repeat split. eexists; reflexivity.
    + rewrite receive_muse_data_packet_unset by exact Hcb.
      cbn. repeat split. exists []. symmetry. apply app_nil_r.
  - destruct (g_dataReceivedCallback (globals w)) as [f|] eqn:Hcb.
    + destruct (receive_muse_artifact_packet_invokes a m w f Hcb)
        as (buf & new & _ & ->).
      cbn. repeat split. eexists; reflexivity.
    + rewrite receive_muse_artifact_packet_unset by exact Hcb.
      cbn. repeat split. exists []. symmetry. apply app_nil_r.
Qed.
End Adapters.

Section CallbackSlots.
Context `{MuseDataPacketType}.

Lemma after_unchanged {A} (m : M A) (w : World) (r : Outcome A) :
  m w = (r, w) -> after m w = w.
Proof. unfold after. intros ->. reflexivity. Qed.

Lemma invocations_app (t new : list Event) :
  invocations (t ++ new) = invocations t ++ invocations new.
Proof. apply omap_app. Qed.

(** With all three slots null no event leads to an invocation. *)
Lemma deliver_without_callbacks (ev : SdkEvent) (w : World) :
  slots_unset (globals w) ->
  invocations (trace (deliver ev w)) = invocations (trace w).
Proof.
  intros (Hlist & Hconn & Hdata).
  destruct ev as [|p m|p m|a m]; cbn [deliver]; unfold after.
  - rewrite muse_list_changed_run, Hlist.
    destruct (g_manager (globals w)); [|reflexivity].
    destruct (failing (sdk w) get_muses); cbn;
      rewrite invocations_app; apply app_nil_r.
  - rewrite receive_muse_connection_packet_run, Hconn.
    destruct (failing (sdk w) (get_name m)); cbn;
      rewrite invocations_app; apply app_nil_r.
  - rewrite receive_muse_data_packet_unset by exact Hdata. reflexivity.
  - rewrite receive_muse_artifact_packet_unset by exact Hdata. reflexivity.
Qed.


(** X15.  Late events.  While all three slots are null no event leads to an
    invocation.  After a shutdown whose SDK calls completed that is the
    case: an event that still arrives from the SDK is dropped, and a
    list-changed or data event does not even reach the SDK. *)
Theorem late_events_after_shutdown_are_dropped (w : World) :
  (slots_unset (globals w) ->
     forall ev, invocations (trace (deliver ev w)) = invocations (trace w))
  /\ ((forall a, g_currentMuse (globals w) = Some a ->
                 failing (sdk w) (disconnect a) = None) ->
      (g_manager (globals w) <> None ->
       failing (sdk w) stop_listening = None) ->
      slots_unset (globals (after StopMuseManager w))
      /\ (forall ev,
            invocations (trace (deliver ev (after StopMuseManager w)))
            = invocations (trace (after StopMuseManager w)))
      /\ deliver EvMuseListChanged (after StopMuseManager w)
         = after StopMuseManager w
      /\ (forall p m,
            deliver (EvDataPacket p m) (after StopMuseManager w)
            = after StopMuseManager w)
      /\ (forall a m,
            deliver (EvArtifactPacket a m) (after StopMuseManager w)
            = after StopMuseManager w)).
Proof.
  split; [intros Hunset ev; apply deliver_without_callbacks, Hunset|].
  intros Hdis Hstop.
  destruct (StopMuseManager_complete w Hdis Hstop) as (Hglob & _).
  assert (Hunset : slots_unset (globals (after StopMuseManager w)))
    by (rewrite Hglob; repeat split).
  split; [exact Hunset|].
  split; [intros ev; apply deliver_without_callbacks, Hunset|].
  cbn [deliver].
  split; [|split].
  - apply (after_unchanged _ _ (Returned tt)).
    rewrite muse_list_changed_run, Hglob. reflexivity.
  - intros p m. apply (after_unchanged _ _ (Returned tt)).
    apply receive_muse_data_packet_unset. rewrite Hglob. reflexivity.
  - intros a m. apply (after_unchanged _ _ (Returned tt)).
    apply receive_muse_artifact_packet_unset. rewrite Hglob. reflexivity.
Qed.
End CallbackSlots.


Lemma late_events_after_shutdown_are_dropped_witness :
  invocations
    (trace (@deliver example_ordinals (EvConnectionPacket connection_packet
                                         0%nat)
              (after StopMuseManager world_connected_A)))
    = invocations (trace (after StopMuseManager world_connected_A))
  /\ @deliver example_ordinals (EvDataPacket eeg_packet 0%nat)
       (after StopMuseManager world_connected_A)
     = after StopMuseManager world_connected_A.
Proof.
  destruct (@late_events_after_shutdown_are_dropped example_ordinals
              world_connected_A) as (_ & Hshut).
  destruct (Hshut (fun _ _ => eq_refl) (fun _ => eq_refl))
    as (_ & Hdrop & _ & Hdata & _).
  split; [apply Hdrop|apply Hdata].
Defined.

(** ** Which entry point writes which global *)

Lemma connect_keeps_refl (g : Globals) : connect_keeps g g.
Proof. repeat split; auto. Qed.

Lemma ConnectToMuse_found_frame (m : MusePtr) (w : World) :
  connect_keeps (globals w) (globals (after (ConnectToMuse_found m) w)).
Proof.
  unfold connect_keeps, ConnectToMuse_found, muse_disconnect,
    muse_register_connection_listener, muse_run_asynchronously.
  unfold_run.
  destruct w as [[gm c1 c2 c3 cur gl gcl gdl] s n t]; cbn.
  run_cases; repeat split; intros x Hx; try discriminate; exact Hx.
Qed.

Lemma ConnectToMuse_frame (name : string) (w : World) :
  connect_keeps (globals w) (globals (after (ConnectToMuse name) w)).
Proof.
  unfold after. rewrite ConnectToMuse_run.
  destruct (g_manager (globals w)); [|apply connect_keeps_refl].
  destruct (failing (sdk w) get_muses); [apply connect_keeps_refl|].
  destruct (ConnectToMuse_scan_spec name (muses (sdk w))
              (record_call get_muses w)) as (w1 & (Hg & _) & Hrun).
  cbn [globals sdk record_call] in *.
  destruct (List.find _ (muses (sdk w))) as [m|].
  - destruct Hrun as [Hrun|[e Hrun]]; rewrite Hrun;
      [|cbn [snd]; rewrite Hg; apply connect_keeps_refl].
    pose proof (ConnectToMuse_found_frame m w1) as Hfound.
    unfold after in Hfound.
    destruct (ConnectToMuse_found m w1) as [r w']. cbn [fst snd] in *.
    rewrite Hg in Hfound. exact Hfound.
  - destruct Hrun as [Hrun|[e Hrun]]; rewrite Hrun; cbn [snd]; rewrite Hg;
      apply connect_keeps_refl.
Qed.

Lemma GetMuseManager_frame (w : World) :
  g_currentMuse (globals (after GetMuseManager w)) = g_currentMuse (globals w)
  /\ g_connectionListener (globals (after GetMuseManager w))
     = g_connectionListener (globals w)
  /\ g_dataListener (globals (after GetMuseManager w))
     = g_dataListener (globals w)
  /\ g_museListChangedCallback (globals (after GetMuseManager w))
     = g_museListChangedCallback (globals w)
  /\ g_connectionStateChangedCallback (globals (after GetMuseManager w))
     = g_connectionStateChangedCallback (globals w)
  /\ g_dataReceivedCallback (globals (after GetMuseManager w))
     = g_dataReceivedCallback (globals w)
  /\ (forall l, g_listener (globals w) = Some l ->
        g_listener (globals (after GetMuseManager w)) = Some l).
Proof.
  unfold GetMuseManager, MuseManagerWindows_get_instance,
    manager_set_muse_listener.
  unfold_run.
  destruct w as [[gm c1 c2 c3 cur gl gcl gdl] s n t]; cbn.
  run_cases; try (repeat split; intros x Hx; try discriminate; exact Hx).
  all: destruct (instance s); cbn; run_cases;
    repeat split; intros x Hx; try discriminate; exact Hx.
Qed.

(** Entry points that leave all globals alone. *)
Lemma quiet_ops_keep_globals (op : BoundaryOp) (w : World) :
  match op with
  | OpStartListening | OpStopListening | OpGetMuseCount | OpGetMuseName _
  | OpRegisterDataListener _ | OpUnregisterDataListener _ =>
      globals (boundary_op op w) = globals w
  | _ => True
  end.
Proof.
  destruct op; try exact I; cbn [boundary_op]; unfold after.
  - rewrite StartListening_run.
    destruct (g_manager (globals w)); [|reflexivity].
    destruct (failing (sdk w) start_listening); reflexivity.
  - rewrite StopListening_run.
    destruct (g_manager (globals w)); [|reflexivity].
    destruct (failing (sdk w) stop_listening); reflexivity.
  - rewrite GetMuseCount_run.
    destruct (g_manager (globals w)); [|reflexivity].
    destruct (failing (sdk w) get_muses); reflexivity.
  - apply GetMuseName_frame.
  - rewrite RegisterDataListener_run.
    destruct (g_currentMuse (globals w)); [|reflexivity].
    destruct (g_dataListener (globals w)); [|reflexivity].
    destruct (failing (sdk w) _); reflexivity.
  - rewrite UnregisterDataListener_run.
    destruct (g_currentMuse (globals w)); [|reflexivity].
    destruct (g_dataListener (globals w)); [|reflexivity].
    destruct (failing (sdk w) _); reflexivity.
Qed.

(** X16.  Each global has few writers.  [g_manager] and the list adapter are
    written only by initialize and shutdown; the active connection only by
    connect, disconnect and shutdown; the two per-device adapters only by
    connect and shutdown; each callback slot only by its own setter and by
    shutdown.  So callbacks survive connecting and disconnecting, and a
    connection survives starting and stopping discovery.  Moreover an
    adapter, once created, stays the same object under every entry point
    but shutdown: connect creates adapters only where there is none. *)
Theorem entry_points_write_only_their_globals (op : BoundaryOp) (w : World) :
  (writes_manager op = false ->
     g_manager (globals (boundary_op op w)) = g_manager (globals w)
     /\ g_listener (globals (boundary_op op w)) = g_listener (globals w))
  /\ (writes_connection op = false ->
        g_currentMuse (globals (boundary_op op w))
        = g_currentMuse (globals w))
  /\ (writes_adapters op = false ->
        g_connectionListener (globals (boundary_op op w))
        = g_connectionListener (globals w)
        /\ g_dataListener (globals (boundary_op op w))
           = g_dataListener (globals w))
  /\ (writes_list_slot op = false ->
        g_museListChangedCallback (globals (boundary_op op w))
        = g_museListChangedCallback (globals w))
  /\ (writes_connection_slot op = false ->
        g_connectionStateChangedCallback (globals (boundary_op op w))
        = g_connectionStateChangedCallback (globals w))
  /\ (writes_data_slot op = false ->
        g_dataReceivedCallback (globals (boundary_op op w))
        = g_dataReceivedCallback (globals w))
  /\ (op <> OpStopMuseManager ->
        (forall l, g_listener (globals w) = Some l ->
           g_listener (globals (boundary_op op w)) = Some l)
        /\ (forall cl, g_connectionListener (globals w) = Some cl ->
              g_connectionListener (globals (boundary_op op w)) = Some cl)
        /\ (forall dl, g_dataListener (globals w) = Some dl ->
              g_dataListener (globals (boundary_op op w)) = Some dl)).
Proof.
  pose proof (quiet_ops_keep_globals op w) as Hquiet.
  destruct op; cbn beta iota in Hquiet;
    cbn [writes_manager writes_connection writes_adapters
         writes_list_slot writes_connection_slot writes_data_slot].
  - destruct (GetMuseManager_frame w) as (H1 & H2 & H3 & H4 & H5 & H6 & H7).
    cbn [boundary_op].
    repeat split; intros; try discriminate; try assumption;
      try congruence; auto.
  - rewrite Hquiet. repeat split; auto.
  - rewrite Hquiet. repeat split; auto.
  - rewrite Hquiet. repeat split; auto.
  - rewrite Hquiet. repeat split; auto.
  - destruct (ConnectToMuse_frame name w)
      as (H1 & H2 & H3 & H4 & H5 & H6 & H7).
    cbn [boundary_op].
    repeat split; intros; try discriminate; try assumption;
      try congruence; auto.
  - cbn [boundary_op]. unfold after. rewrite DisconnectMuse_run.
    destruct (g_currentMuse (globals w)) as [a|];
      [destruct (failing (sdk w) (disconnect a))|];
      repeat split; intros; try discriminate; auto.
  - rewrite Hquiet. repeat split; auto.
  - rewrite Hquiet. repeat split; auto.
  - repeat split; intros; try discriminate; auto.
  - repeat split; intros; try discriminate; auto.
  - repeat split; intros; try discriminate; auto.
  - repeat split; intros; try discriminate; auto; contradiction.
Qed.

Lemma entry_points_write_only_their_globals_witness :
  g_dataReceivedCallback
    (globals (boundary_op (OpConnectToMuse "Muse-B") world_connected_A))
    = Some 3%nat
  /\ g_currentMuse (globals (boundary_op OpStopListening world_connected_A))
     = Some 0%nat
  /\ g_connectionListener
       (globals (boundary_op (OpConnectToMuse "Muse-B") world_connected_A))
     = Some 101%nat.
Proof.
  destruct (entry_points_write_only_their_globals (OpConnectToMuse "Muse-B")
              world_connected_A)
    as (_ & _ & _ & _ & _ & Hdata & Hkeep).
  destruct (entry_points_write_only_their_globals OpStopListening
              world_connected_A) as (_ & Hconn & _).
  destruct (Hkeep ltac:(discriminate)) as (_ & Hcl & _).
  split; [rewrite (Hdata eq_refl); reflexivity|].
  split; [rewrite (Hconn eq_refl); reflexivity|].
  apply Hcl. reflexivity.
Defined.

(** ** A shutdown that is cut short *)

(** X17.  shutdown gives up at the first SDK call that throws, and still
    returns normally.  If the active device's disconnect throws, nothing
    has been done: globals and SDK are as before and discovery is not
    stopped.  If the disconnect completes (or there is no connection) and
    [stop_listening] throws, the active connection has been cleared but
    the manager handle, the callback slots and the adapters are all
    kept. *)
Theorem shutdown_stops_at_first_failure (w : World) :
  (forall a e,
     g_currentMuse (globals w) = Some a ->
     failing (sdk w) (disconnect a) = Some e ->
     outcome StopMuseManager w = Returned tt
     /\ globals (after StopMuseManager w) = globals w
     /\ sdk (after StopMuseManager w) = sdk w
     /\ new_events StopMuseManager w = [Call (disconnect a)])
  /\ (forall e,
        (forall a, g_currentMuse (globals w) = Some a ->
                   failing (sdk w) (disconnect a) = None) ->
        g_manager (globals w) <> None ->
        failing (sdk w) stop_listening = Some e ->
        outcome StopMuseManager w = Returned tt
        /\ globals (after StopMuseManager w)
           = set_g_currentMuse None (globals w)
        /\ listening (sdk (after StopMuseManager w)) = listening (sdk w)
        /\ calls (new_events StopMuseManager w)
           = match g_currentMuse (globals w) with
             | Some a => [disconnect a]
             | None => []
             end ++ [stop_listening]).
Proof.
  unfold StopMuseManager, muse_disconnect, manager_stop_listening.
  unfold_run.
  destruct w as [[gm c1 c2 c3 cur gl gcl gdl] s n t]; cbn.
  split.
  - intros a e -> Hfail. cbn. rewrite Hfail.
    destruct e; cbn; repeat split; apply drop_old_events.
  - intros e Hdis Hman Hfail.
    destruct gm as [p|]; [|contradiction].
    destruct cur as [a|]; cbn; [rewrite (Hdis a eq_refl); cbn|];
      rewrite Hfail; destruct e; cbn;
      rewrite <- ?app_assoc, ?drop_old_events; repeat split.
Qed.

Lemma shutdown_stops_at_first_failure_witness :
  (let w := set_failing failing_disconnect world_connected_A in
   globals (after StopMuseManager w) = globals w
   /\ new_events StopMuseManager w = [Call (disconnect 0)])
  /\ (let w := set_failing failing_stop_listening world_connected_A in
      g_currentMuse (globals (after StopMuseManager w)) = None
      /\ g_manager (globals (after StopMuseManager w)) = Some 7%nat
      /\ calls (new_events StopMuseManager w)
         = [disconnect 0; stop_listening]).
Proof.
  split; intros w.
  - destruct (proj1 (shutdown_stops_at_first_failure w) 0%nat std_exception
                eq_refl eq_refl) as (_ & Hglob & _ & Hnew).
    split; assumption.
  - destruct (proj2 (shutdown_stops_at_first_failure w) std_exception
                (fun _ _ => eq_refl) ltac:(discriminate) eq_refl)
      as (_ & Hglob & _ & Hcalls).
    split; [rewrite Hglob; reflexivity|].
    split; [rewrite Hglob; reflexivity|exact Hcalls].
Defined.

(** ** The SDK calls of a successful connect *)

Lemma calls_app (t new : list Event) :
  calls (t ++ new) = calls t ++ calls new.
Proof. apply omap_app. Qed.

Lemma calls_get_names (ms : list MusePtr) :
  calls (map (fun m => Call (get_name m)) ms) = map get_name ms.
Proof.
  induction ms as [|m ms IH]; [reflexivity|]. cbn. f_equal. exact IH.
Qed.

Lemma ConnectToMuse_found_calls (m : MusePtr) (w w' : World) :
  ConnectToMuse_found m w = (Returned true, w') ->
  exists cl,
    g_connectionListener (globals w') = Some cl
    /\ trace w' = trace w ++
                  match g_currentMuse (globals w) with
                  | Some a => [Call (disconnect a)]
                  | None => []
                  end ++
                  [Call (register_connection_listener m (Some cl));
                   Call (run_asynchronously m)].
Proof.
  unfold ConnectToMuse_found, muse_disconnect,
    muse_register_connection_listener, muse_run_asynchronously.
  unfold_run.
  destruct w as [[gm c1 c2 c3 cur gl gcl gdl] s n t]; cbn.
  run_cases; intros Hrun; inversion Hrun; subst; clear Hrun; cbn;
    eexists; (split; [reflexivity|]); rewrite <- ?app_assoc; reflexivity.
Qed.

(** X18.  A connect that returns true has made these SDK calls, in this order
    and no others: [get_muses]; [get_name] on some devices of the
    snapshot; [disconnect] on the previously active device, if there was
    one; one [register_connection_listener] on the matched device with the
    connection adapter; one [run_asynchronously] on the matched device.
    The adapters that existed before the call are the ones in use after
    it, so connecting again registers the same adapter once more; no
    listener is ever unregistered. *)
Theorem successful_connect_call_sequence (name : string) (w : World) :
  outcome (ConnectToMuse name) w = Returned true ->
  exists m ms cl,
    first_match name (sdk w) = Some m
    /\ g_connectionListener (globals (after (ConnectToMuse name) w)) = Some cl
    /\ calls (new_events (ConnectToMuse name) w)
       = get_muses :: map get_name ms ++
         match g_currentMuse (globals w) with
         | Some a => [disconnect a]
         | None => []
         end ++
         [register_connection_listener m (Some cl); run_asynchronously m]
    /\ (forall cl0, g_connectionListener (globals w) = Some cl0 -> cl = cl0)
    /\ (forall dl0, g_dataListener (globals w) = Some dl0 ->
          g_dataListener (globals (after (ConnectToMuse name) w)) = Some dl0).
Proof.
  intros Htrue.
  destruct (ConnectToMuse_true name w Htrue)
    as (m & w1 & Hfirst & (Hg & _ & _ & ms & Ht) & Hfound).
  cbn [globals trace record_call] in Hg, Ht.
  destruct (ConnectToMuse_found_calls m w1 _ Hfound) as (cl & Hcl & Htrace).
  destruct (ConnectToMuse_frame name w) as (_ & _ & _ & _ & _ & Hkeepc & Hkeepd).
  exists m, ms, cl. split; [exact Hfirst|]. split; [exact Hcl|].
  split; [|split].
  - erewrite new_events_spec.
    2:{ rewrite Htrace, Ht, Hg, <- !app_assoc. reflexivity. }
    rewrite !calls_app, calls_get_names.
    destruct (g_currentMuse (globals w)); reflexivity.
  - intros cl0 Hcl0. apply Hkeepc in Hcl0. congruence.
  - exact Hkeepd.
Qed.

Lemma successful_connect_call_sequence_witness :
  exists m ms cl,
    first_match "Muse-B" (sdk world_connected_A) = Some m
    /\ g_connectionListener
         (globals (after (ConnectToMuse "Muse-B") world_connected_A))
       = Some cl
    /\ calls (new_events (ConnectToMuse "Muse-B") world_connected_A)
       = get_muses :: map get_name ms ++
         match g_currentMuse (globals world_connected_A) with
         | Some a => [disconnect a]
         | None => []
         end ++
         [register_connection_listener m (Some cl); run_asynchronously m]
    /\ (forall cl0,
          g_connectionListener (globals world_connected_A) = Some cl0 ->
          cl = cl0)
    /\ (forall dl0,
          g_dataListener (globals world_connected_A) = Some dl0 ->
          g_dataListener
            (globals (after (ConnectToMuse "Muse-B") world_connected_A))
          = Some dl0).
Proof.
  exact (successful_connect_call_sequence "Muse-B" world_connected_A eq_refl).
Defined.

(** ** A connect whose dispatch fails *)

(** X19.  connect assigns the active connection before it dispatches.  So when
    everything up to the dispatch completes and [run_asynchronously]
    throws, connect returns false although the session has changed: the
    matched device is recorded as the active connection, with the
    connection adapter registered on it and both adapters allocated. *)
Theorem failed_dispatch_still_records_connection (name : string) (w : World)
    (b : MusePtr) (e : Exn) :
  connect_matches name w b ->
  (forall a, g_currentMuse (globals w) = Some a ->
             failing (sdk w) (disconnect a) = None) ->
  (forall l, failing (sdk w) (register_connection_listener b l) = None) ->
  failing (sdk w) (run_asynchronously b) = Some e ->
  outcome (ConnectToMuse name) w = Returned false
  /\ g_currentMuse (globals (after (ConnectToMuse name) w)) = Some b
  /\ (exists cl,
        g_connectionListener (globals (after (ConnectToMuse name) w))
          = Some cl
        /\ connection_listener_attached
             (sdk (after (ConnectToMuse name) w)) b (Some cl))
  /\ g_dataListener (globals (after (ConnectToMuse name) w)) <> None.
Proof.
  intros Hmatch Hdis Hreg Hrun.
  destruct (ConnectToMuse_matches_run name w b Hmatch)
    as (w1 & (Hg & Hs & _) & Hconnect).
  cbn [globals sdk record_call] in Hg, Hs.
  unfold outcome, after. rewrite Hconnect. clear Hconnect.
  rewrite <- Hg in Hdis. rewrite <- Hs in Hdis, Hreg, Hrun.
  clear Hg Hs Hmatch.
  revert Hdis Hreg Hrun.
  unfold ConnectToMuse_found, muse_disconnect,
    muse_register_connection_listener, muse_run_asynchronously,
    connection_listener_attached.
  unfold_run.
  destruct w1 as [[gm c1 c2 c3 cur gl gcl gdl] s n t]; cbn.
  intros Hdis Hreg Hrun.
  destruct cur as [a|]; cbn; [rewrite (Hdis a eq_refl); cbn|];
    destruct gcl, gdl; cbn; rewrite ?Hreg; cbn; rewrite ?Hrun; cbn;
    destruct e; cbn; rewrite ?Nat.eqb_refl; cbn;
    (split; [reflexivity|]); (split; [reflexivity|]);
    (split; [eexists; split; [reflexivity|]; apply in_or_app; right; left;
             reflexivity|]);
    discriminate.
Qed.

Lemma failed_dispatch_still_records_connection_witness :
  let fail := fun c => match c with
                       | run_asynchronously _ => Some std_exception
                       | _ => None
                       end in
  outcome (ConnectToMuse "Muse-B") (set_failing fail world_connected_A)
    = Returned false
  /\ g_currentMuse
       (globals (after (ConnectToMuse "Muse-B")
                   (set_failing fail world_connected_A)))
     = Some 1%nat.
Proof.
  intros fail.
  destruct (failed_dispatch_still_records_connection "Muse-B"
              (set_failing fail world_connected_A) 1%nat std_exception
              (example_connect_matches_B fail eq_refl (fun _ => eq_refl))
              (fun _ _ => eq_refl) (fun _ => eq_refl) eq_refl)
    as (Hout & Hcur & _).
  split; assumption.
Defined.

(** ** Initialising again after a shutdown *)

Lemma StopMuseManager_sdk_frame (w : World) :
  instance (sdk (after StopMuseManager w)) = instance (sdk w)
  /\ failing (sdk (after StopMuseManager w)) = failing (sdk w)
  /\ muses (sdk (after StopMuseManager w)) = muses (sdk w).
Proof.
  unfold StopMuseManager, muse_disconnect, manager_stop_listening.
  unfold_run.
  destruct w as [[gm c1 c2 c3 cur gl gcl gdl] s n t]; cbn.
  run_cases; repeat split.
Qed.

Lemma GetMuseManager_first_ok (w : World) (p : ManagerPtr) :
  g_manager (globals w) = None ->
  g_listener (globals w) = None ->
  failing (sdk w) get_instance = None ->
  instance (sdk w) = Some p ->
  (forall l, failing (sdk w) (set_muse_listener l) = None) ->
  outcome GetMuseManager w = Returned (Some p)
  /\ g_manager (globals (after GetMuseManager w)) = Some p
  /\ g_listener (globals (after GetMuseManager w)) = Some (next_object w)
  /\ muse_listener (sdk (after GetMuseManager w)) = Some (next_object w)
  /\ new_events GetMuseManager w
     = [Call get_instance; Call (set_muse_listener (Some (next_object w)))].
Proof.
  unfold GetMuseManager, MuseManagerWindows_get_instance,
    manager_set_muse_listener.
  unfold_run.
  destruct w as [[gm c1 c2 c3 cur gl gcl gdl] s n t]; cbn.
  intros -> -> Hget Hinst Hset. cbn. rewrite Hget. cbn. rewrite Hinst. cbn.
  rewrite Hset. cbn. repeat split.
  rewrite <- app_assoc. apply drop_old_events.
Qed.

(** X20.  A session that was shut down can be initialised again.  After a
    shutdown whose SDK calls completed, initialize behaves as at process
    start: it fetches the SDK's manager instance, allocates a new list
    adapter (the old one was dropped by the shutdown) and installs it,
    and returns the handle. *)
Theorem initialize_after_shutdown (w : World) (p : ManagerPtr) :
  (forall a, g_currentMuse (globals w) = Some a ->
             failing (sdk w) (disconnect a) = None) ->
  (g_manager (globals w) <> None -> failing (sdk w) stop_listening = None) ->
  failing (sdk w) get_instance = None ->
  instance (sdk w) = Some p ->
  (forall l, failing (sdk w) (set_muse_listener l) = None) ->
  let w' := after StopMuseManager w in
  outcome GetMuseManager w' = Returned (Some p)
  /\ g_manager (globals (after GetMuseManager w')) = Some p
  /\ (exists l,
        g_listener (globals (after GetMuseManager w')) = Some l
        /\ muse_listener (sdk (after GetMuseManager w')) = Some l
        /\ new_events GetMuseManager w'
           = [Call get_instance; Call (set_muse_listener (Some l))])
  /\ g_currentMuse (globals (after GetMuseManager w')) = None
  /\ slots_unset (globals (after GetMuseManager w')).
Proof.
  intros Hdis Hstop Hget Hinst Hset w'.
  destruct (StopMuseManager_complete w Hdis Hstop) as (Hglob & _).
  destruct (StopMuseManager_sdk_frame w) as (Hi & Hf & _).
  fold w' in Hglob, Hi, Hf.
  destruct (GetMuseManager_first_ok w' p)
    as (Hout & Hman & Hl & Hml & Hnew).
  { rewrite Hglob. reflexivity. }
  { rewrite Hglob. reflexivity. }
  { rewrite Hf. exact Hget. }
  { rewrite Hi. exact Hinst. }
  { intros l. rewrite Hf. apply Hset. }
  destruct (GetMuseManager_frame w') as (Hcur & _ & _ & H1 & H2 & H3 & _).
  split; [exact Hout|]. split; [exact Hman|].
  split; [eexists; repeat split; eassumption|].
  split; [rewrite Hcur, Hglob; reflexivity|].
  unfold slots_unset. rewrite H1, H2, H3, Hglob. repeat split.
Qed.

Lemma initialize_after_shutdown_witness :
  let w' := after StopMuseManager world_connected_A in
  outcome GetMuseManager w' = Returned (Some 7%nat)
  /\ g_manager (globals (after GetMuseManager w')) = Some 7%nat
  /\ g_currentMuse (globals (after GetMuseManager w')) = None.
Proof.
  destruct (initialize_after_shutdown world_connected_A 7%nat
              (fun _ _ => eq_refl) (fun _ => eq_refl) eq_refl eq_refl
              (fun _ => eq_refl)) as (Hout & Hman & _ & Hcur & _).
  intros w'. split; [exact Hout|]. split; [exact Hman|exact Hcur].
Defined.
